(** * Emby sessions as Home Assistant media players

    A shallow embedding of [media_player.py]: the session entity
    ([EmbySessionEntity]), the reconciliation callback ([_sync_entities]),
    the per-entity coordinator listener ([_handle_coordinator_update]) and
    the throttled programme-guide refresh ([_maybe_schedule_epg_refresh],
    [_async_refresh_epg]).

    Conventions of the model
    - JSON payloads are Python values ([value]); a [dict] is an association
      list read with [dict_get] (Python's [d.get(k)]).
    - A Python float is an IEEE 754 binary64 number, as the standard
      library's [SpecFloat] specifies it ([prec = 53], [emax = 1024]);
      [float(n)] of an int rounds to nearest even and raises
      [OverflowError] beyond the range.
    - Strings are byte strings; [lower] acts on ASCII letters.
    - A [datetime] is a number of microseconds; [datetime.now] is the
      argument [now] of the method that reads the clock.
    - A method is a computation in a state and exception monad over the
      object it mutates: what it assigned before raising stays assigned.
    - A coroutine is suspended at each [await]; what the rest of the event
      loop does to the entity in the meantime is a parameter of the task
      ([interleaving]).
    - Session ids are [str], as the annotations of [entities] and
      [_session_id] say. *)

From Stdlib Require Import ZArith QArith String Ascii List Bool Lia SpecFloat.
From stdpp Require Import base option gmap strings pretty.

Set Warnings "-register-all".

Local Open Scope Z_scope.
Local Open Scope string_scope.

(** ** Python values *)

Inductive value : Type :=
| PNone
| PBool (b : bool)
| PInt (z : Z)
| PFloat (f : spec_float)
| PStr (s : string)
| PList (l : list value)
| PDict (d : list (string * value)).

Abbreviation dict := (list (string * value)).

(** [bool(v)] *)
Definition truthy (v : value) : bool :=
  match v with
  | PNone => false
  | PBool b => b
  | PInt z => negb (Z.eqb z 0)
  | PFloat f => match f with S754_zero _ => false | _ => true end
  | PStr s => negb (String.eqb s "")
  | PList l => match l with [] => false | _ => true end
  | PDict d => match d with [] => false | _ => true end
  end.

(** [a or b] (both operands are effect free wherever it is used) *)
Definition py_or (a b : value) : value := if truthy a then a else b.

(** [v is None] *)
Definition is_none (v : value) : bool :=
  match v with PNone => true | _ => false end.

(** [isinstance(v, dict)] *)
Definition isinstance_dict (v : value) : bool :=
  match v with PDict _ => true | _ => false end.

(** [v == s] for a string literal or a [str] attribute [s] *)
Definition py_eq_str (v : value) (s : string) : bool :=
  match v with PStr t => String.eqb t s | _ => false end.

Fixpoint dict_get (d : dict) (k : string) : value :=
  match d with
  | [] => PNone
  | (k', v) :: d' => if String.eqb k' k then v else dict_get d' k
  end.

(** Truthiness and [or] on an [Optional[str]] attribute *)
Definition truthy_os (o : option string) : bool :=
  match o with Some s => negb (String.eqb s "") | None => false end.

Definition os_or (a b : option string) : option string :=
  if truthy_os a then a else b.

(** ** Exceptions *)

Inductive exn : Type :=
| AttributeError | TypeError | KeyError | OverflowError | ClientError | CancelledError.

(** What [except Exception] catches: [asyncio.CancelledError] is a
    [BaseException] and is not caught. *)
Definition is_exception (x : exn) : bool :=
  match x with CancelledError => false | _ => true end.

Inductive result (A : Type) : Type :=
| OK (a : A)
| Raise (x : exn).
Arguments OK {A} a.
Arguments Raise {A} x.

#[global] Instance result_ret : MRet result := fun A a => OK a.
#[global] Instance result_bind : MBind result := fun A B f r =>
  match r with OK a => f a | Raise x => Raise x end.

Definition is_ok {A} (r : result A) : bool :=
  match r with OK _ => true | Raise _ => false end.

Definition result_to_option {A} (r : result A) : option A :=
  match r with OK a => Some a | Raise _ => None end.

(** [v.get]: only a dict has the attribute *)
Definition attr_get (v : value) : result dict :=
  match v with PDict d => OK d | _ => Raise AttributeError end.

(** ** Strings *)

Definition lower_ascii (c : ascii) : ascii :=
  let n := nat_of_ascii c in
  if (Nat.leb 65 n && Nat.leb n 90)%bool then ascii_of_nat (n + 32) else c.

Fixpoint lower (s : string) : string :=
  match s with
  | EmptyString => EmptyString
  | String c s' => String (lower_ascii c) (lower s')
  end.

(** ** Pure helpers of the module *)

(** Binary64: [float(n)], the literal [10_000_000.0] and [/]. *)
Definition float_of_int (n : Z) : result spec_float :=
  match binary_normalize 53 1024 n 0 false with
  | S754_infinity _ => Raise OverflowError
  | f => OK f
  end.

Definition ten_million : spec_float := binary_normalize 53 1024 10000000 0 false.

Definition float_div (x y : spec_float) : spec_float := SFdiv 53 1024 x y.

(** [isinstance(v, (int, float))]; [bool] is a subclass of [int]. *)
Definition isinstance_int_float (v : value) : bool :=
  match v with PBool _ | PInt _ | PFloat _ => true | _ => false end.

(** [float(v)] *)
Definition py_float (v : value) : result spec_float :=
  match v with
  | PBool b => float_of_int (if b then 1 else 0)
  | PInt z => float_of_int z
  | PFloat f => OK f
  | _ => Raise TypeError
  end.

Definition _ticks_to_seconds (ticks : value) : result (option spec_float) :=
  if negb (isinstance_int_float ticks) then OK None
  else match py_float ticks with
       | OK x => OK (Some (float_div x ten_million))
       | Raise e => Raise e
       end.

Definition _content_type_from_item_type (item_type : value) : result (option string) :=
  if negb (truthy item_type) then OK None
  else match item_type with
       | PStr s =>
           let it := lower s in
           if String.eqb it "episode" then OK (Some "tvshow")
           else if String.eqb it "movie" then OK (Some "movie")
           else if (String.eqb it "audio" || String.eqb it "audiofile"
                    || String.eqb it "music" || String.eqb it "musicvideo")%bool
                then OK (Some "music")
           else if (String.eqb it "livetvchannel" || String.eqb it "tvchannel"
                    || String.eqb it "program")%bool
                then OK (Some "tvchannel")
           else OK (Some it)
       | _ => Raise AttributeError
       end.


(** [str(v) if v is not None else None] *)
Definition opt_str_with (str : value -> string) (v : value) : option string :=
  if is_none v then None else Some (str v).

(** [o == s] on an [Optional[str]] attribute *)
Definition os_eq (o : option string) (s : string) : bool :=
  match o with Some t => String.eqb t s | None => false end.

(** [v] must be a [str] where the code joins or hashes it *)
Definition as_str (v : value) : result string :=
  match v with PStr s => OK s | _ => Raise TypeError end.

(** [session.get("NowPlayingItem") or {}] and [session.get("PlayState") or {}] *)
Definition now_playing (session : dict) : value :=
  py_or (dict_get session "NowPlayingItem") (PDict []).

Definition play_state (session : dict) : value :=
  py_or (dict_get session "PlayState") (PDict []).

(** The dict behind a value that is one *)
Definition as_dict (v : value) : dict :=
  match v with PDict d => d | _ => [] end.

(** A session on which [_apply_session] raises nothing: its now-playing
    item and play state are objects (or falsy), the item type is a string
    (or falsy), and the ticks of the run time and of the position, when they
    are ints, are in the range of a float. *)
Definition wf_session (session : dict) : bool :=
  (isinstance_dict (now_playing session)
   && isinstance_dict (play_state session)
   && is_ok (_content_type_from_item_type (dict_get (as_dict (now_playing session)) "Type"))
   && is_ok (_ticks_to_seconds (dict_get (as_dict (now_playing session)) "RunTimeTicks"))
   && is_ok (_ticks_to_seconds (dict_get (as_dict (play_state session)) "PositionTicks")))%bool.

(** ** A state and exception monad

    A Python method mutates [self] and may raise; what it assigned before the
    exception stays assigned. *)

Definition SE (S A : Type) : Type := S -> result A * S.

Definition se_ret {S A} (a : A) : SE S A := fun s => (OK a, s).

Definition se_bind {S A B} (m : SE S A) (f : A -> SE S B) : SE S B :=
  fun s => match m s with
           | (OK a, s') => f a s'
           | (Raise x, s') => (Raise x, s')
           end.

Definition assign {S} (f : S -> S) : SE S unit := fun s => (OK tt, f s).
Definition read {S A} (f : S -> A) : SE S A := fun s => (OK (f s), s).
Definition lift {S A} (r : result A) : SE S A := fun s => (r, s).
Definition when {S} (b : bool) (m : SE S unit) : SE S unit :=
  if b then m else se_ret tt.

(** [try: body except Exception: handler] *)
Definition try_except {S A} (body : SE S A) (handler : SE S A) : SE S A :=
  fun s => match body s with
           | (OK a, s') => (OK a, s')
           | (Raise x, s') => if is_exception x then handler s' else (Raise x, s')
           end.

(** [try: body finally: fin] *)
Definition try_finally {S A} (body : SE S A) (fin : SE S unit) : SE S A :=
  fun s => match body s with
           | (r, s') =>
               match fin s' with
               | (OK _, s'') => (r, s'')
               | (Raise x, s'') => (Raise x, s'')
               end
           end.

Declare Scope se_scope.
Delimit Scope se_scope with se.
Notation "x <- m ;; k" := (se_bind m (fun x => k))
  (at level 100, m at next level, k at level 200, right associativity) : se_scope.
Notation "m ;; k" := (se_bind m (fun _ => k))
  (at level 100, k at level 200, right associativity) : se_scope.

(** ** The entity *)

Inductive MediaPlayerState : Type := IDLE | PLAYING | PAUSED.

(** Calls the entity makes on the host: [hass.async_create_task] for the
    programme-guide refresh (with the clock reading of the caller) and
    [async_write_ha_state]. Newest first. *)
Inductive host_call : Type :=
| CreateEpgTask (at_time : Z)
| WriteState.

#[projections(primitive)] Record entity : Type := {
  _session_id : string;
  _attr_unique_id : string;
  _attr_name : string;
  _suggested_object_id : string;
  _attr_available : bool;
  _name_prefix : value;
  _user : value;
  _media_title : value;
  _artist : value;
  _series : value;
  _state : MediaPlayerState;
  _duration_s : option spec_float;
  _position_s : option spec_float;
  _position_updated_at : option Z;
  _content_id : option string;
  _content_type : option string;
  _season : value;
  _episode : value;
  _entity_picture : option string;
  _app_name : value;
  _channel_id : option string;
  _channel_number : option string;
  _program_id : option string;
  _epg : value;
  _epg_source : option string;
  _last_epg_fetch : option Z;
  hass : bool;
  host_calls : list host_call
}.

(** Attribute assignment [self.f = x], one setter per attribute *)

Definition set_attr_available (x : bool) (self : entity) : entity :=
  {| _session_id := _session_id self; _attr_unique_id := _attr_unique_id self;
     _attr_name := _attr_name self; _suggested_object_id := _suggested_object_id self;
     _attr_available := x; _name_prefix := _name_prefix self; _user := _user self;
     _media_title := _media_title self; _artist := _artist self; _series := _series self;
     _state := _state self; _duration_s := _duration_s self;
     _position_s := _position_s self; _position_updated_at := _position_updated_at self;
     _content_id := _content_id self; _content_type := _content_type self;
     _season := _season self; _episode := _episode self;
     _entity_picture := _entity_picture self; _app_name := _app_name self;
     _channel_id := _channel_id self; _channel_number := _channel_number self;
     _program_id := _program_id self; _epg := _epg self; _epg_source := _epg_source self;
     _last_epg_fetch := _last_epg_fetch self; hass := hass self;
     host_calls := host_calls self |}.

Definition set_name_prefix (x : value) (self : entity) : entity :=
  {| _session_id := _session_id self; _attr_unique_id := _attr_unique_id self;
     _attr_name := _attr_name self; _suggested_object_id := _suggested_object_id self;
     _attr_available := _attr_available self; _name_prefix := x; _user := _user self;
     _media_title := _media_title self; _artist := _artist self; _series := _series self;
     _state := _state self; _duration_s := _duration_s self;
     _position_s := _position_s self; _position_updated_at := _position_updated_at self;
     _content_id := _content_id self; _content_type := _content_type self;
     _season := _season self; _episode := _episode self;
     _entity_picture := _entity_picture self; _app_name := _app_name self;
     _channel_id := _channel_id self; _channel_number := _channel_number self;
     _program_id := _program_id self; _epg := _epg self; _epg_source := _epg_source self;
     _last_epg_fetch := _last_epg_fetch self; hass := hass self;
     host_calls := host_calls self |}.

Definition set_user (x : value) (self : entity) : entity :=
  {| _session_id := _session_id self; _attr_unique_id := _attr_unique_id self;
     _attr_name := _attr_name self; _suggested_object_id := _suggested_object_id self;
     _attr_available := _attr_available self; _name_prefix := _name_prefix self;
     _user := x; _media_title := _media_title self; _artist := _artist self;
     _series := _series self; _state := _state self; _duration_s := _duration_s self;
     _position_s := _position_s self; _position_updated_at := _position_updated_at self;
     _content_id := _content_id self; _content_type := _content_type self;
     _season := _season self; _episode := _episode self;
     _entity_picture := _entity_picture self; _app_name := _app_name self;
     _channel_id := _channel_id self; _channel_number := _channel_number self;
     _program_id := _program_id self; _epg := _epg self; _epg_source := _epg_source self;
     _last_epg_fetch := _last_epg_fetch self; hass := hass self;
     host_calls := host_calls self |}.

Definition set_media_title (x : value) (self : entity) : entity :=
  {| _session_id := _session_id self; _attr_unique_id := _attr_unique_id self;
     _attr_name := _attr_name self; _suggested_object_id := _suggested_object_id self;
     _attr_available := _attr_available self; _name_prefix := _name_prefix self;
     _user := _user self; _media_title := x; _artist := _artist self;
     _series := _series self; _state := _state self; _duration_s := _duration_s self;
     _position_s := _position_s self; _position_updated_at := _position_updated_at self;
     _content_id := _content_id self; _content_type := _content_type self;
     _season := _season self; _episode := _episode self;
     _entity_picture := _entity_picture self; _app_name := _app_name self;
     _channel_id := _channel_id self; _channel_number := _channel_number self;
     _program_id := _program_id self; _epg := _epg self; _epg_source := _epg_source self;
     _last_epg_fetch := _last_epg_fetch self; hass := hass self;
     host_calls := host_calls self |}.

Definition set_artist (x : value) (self : entity) : entity :=
  {| _session_id := _session_id self; _attr_unique_id := _attr_unique_id self;
     _attr_name := _attr_name self; _suggested_object_id := _suggested_object_id self;
     _attr_available := _attr_available self; _name_prefix := _name_prefix self;
     _user := _user self; _media_title := _media_title self; _artist := x;
     _series := _series self; _state := _state self; _duration_s := _duration_s self;
     _position_s := _position_s self; _position_updated_at := _position_updated_at self;
     _content_id := _content_id self; _content_type := _content_type self;
     _season := _season self; _episode := _episode self;
     _entity_picture := _entity_picture self; _app_name := _app_name self;
     _channel_id := _channel_id self; _channel_number := _channel_number self;
     _program_id := _program_id self; _epg := _epg self; _epg_source := _epg_source self;
     _last_epg_fetch := _last_epg_fetch self; hass := hass self;
     host_calls := host_calls self |}.

Definition set_series (x : value) (self : entity) : entity :=
  {| _session_id := _session_id self; _attr_unique_id := _attr_unique_id self;
     _attr_name := _attr_name self; _suggested_object_id := _suggested_object_id self;
     _attr_available := _attr_available self; _name_prefix := _name_prefix self;
     _user := _user self; _media_title := _media_title self; _artist := _artist self;
     _series := x; _state := _state self; _duration_s := _duration_s self;
     _position_s := _position_s self; _position_updated_at := _position_updated_at self;
     _content_id := _content_id self; _content_type := _content_type self;
     _season := _season self; _episode := _episode self;
     _entity_picture := _entity_picture self; _app_name := _app_name self;
     _channel_id := _channel_id self; _channel_number := _channel_number self;
     _program_id := _program_id self; _epg := _epg self; _epg_source := _epg_source self;
     _last_epg_fetch := _last_epg_fetch self; hass := hass self;
     host_calls := host_calls self |}.

Definition set_state (x : MediaPlayerState) (self : entity) : entity :=
  {| _session_id := _session_id self; _attr_unique_id := _attr_unique_id self;
     _attr_name := _attr_name self; _suggested_object_id := _suggested_object_id self;
     _attr_available := _attr_available self; _name_prefix := _name_prefix self;
     _user := _user self; _media_title := _media_title self; _artist := _artist self;
     _series := _series self; _state := x; _duration_s := _duration_s self;
     _position_s := _position_s self; _position_updated_at := _position_updated_at self;
     _content_id := _content_id self; _content_type := _content_type self;
     _season := _season self; _episode := _episode self;
     _entity_picture := _entity_picture self; _app_name := _app_name self;
     _channel_id := _channel_id self; _channel_number := _channel_number self;
     _program_id := _program_id self; _epg := _epg self; _epg_source := _epg_source self;
     _last_epg_fetch := _last_epg_fetch self; hass := hass self;
     host_calls := host_calls self |}.

Definition set_duration_s (x : option spec_float) (self : entity) : entity :=
  {| _session_id := _session_id self; _attr_unique_id := _attr_unique_id self;
     _attr_name := _attr_name self; _suggested_object_id := _suggested_object_id self;
     _attr_available := _attr_available self; _name_prefix := _name_prefix self;
     _user := _user self; _media_title := _media_title self; _artist := _artist self;
     _series := _series self; _state := _state self; _duration_s := x;
     _position_s := _position_s self; _position_updated_at := _position_updated_at self;
     _content_id := _content_id self; _content_type := _content_type self;
     _season := _season self; _episode := _episode self;
     _entity_picture := _entity_picture self; _app_name := _app_name self;
     _channel_id := _channel_id self; _channel_number := _channel_number self;
     _program_id := _program_id self; _epg := _epg self; _epg_source := _epg_source self;
     _last_epg_fetch := _last_epg_fetch self; hass := hass self;
     host_calls := host_calls self |}.

Definition set_position_s (x : option spec_float) (self : entity) : entity :=
  {| _session_id := _session_id self; _attr_unique_id := _attr_unique_id self;
     _attr_name := _attr_name self; _suggested_object_id := _suggested_object_id self;
     _attr_available := _attr_available self; _name_prefix := _name_prefix self;
     _user := _user self; _media_title := _media_title self; _artist := _artist self;
     _series := _series self; _state := _state self; _duration_s := _duration_s self;
     _position_s := x; _position_updated_at := _position_updated_at self;
     _content_id := _content_id self; _content_type := _content_type self;
     _season := _season self; _episode := _episode self;
     _entity_picture := _entity_picture self; _app_name := _app_name self;
     _channel_id := _channel_id self; _channel_number := _channel_number self;
     _program_id := _program_id self; _epg := _epg self; _epg_source := _epg_source self;
     _last_epg_fetch := _last_epg_fetch self; hass := hass self;
     host_calls := host_calls self |}.

Definition set_position_updated_at (x : option Z) (self : entity) : entity :=
  {| _session_id := _session_id self; _attr_unique_id := _attr_unique_id self;
     _attr_name := _attr_name self; _suggested_object_id := _suggested_object_id self;
     _attr_available := _attr_available self; _name_prefix := _name_prefix self;
     _user := _user self; _media_title := _media_title self; _artist := _artist self;
     _series := _series self; _state := _state self; _duration_s := _duration_s self;
     _position_s := _position_s self; _position_updated_at := x;
     _content_id := _content_id self; _content_type := _content_type self;
     _season := _season self; _episode := _episode self;
     _entity_picture := _entity_picture self; _app_name := _app_name self;
     _channel_id := _channel_id self; _channel_number := _channel_number self;
     _program_id := _program_id self; _epg := _epg self; _epg_source := _epg_source self;
     _last_epg_fetch := _last_epg_fetch self; hass := hass self;
     host_calls := host_calls self |}.

Definition set_content_id (x : option string) (self : entity) : entity :=
  {| _session_id := _session_id self; _attr_unique_id := _attr_unique_id self;
     _attr_name := _attr_name self; _suggested_object_id := _suggested_object_id self;
     _attr_available := _attr_available self; _name_prefix := _name_prefix self;
     _user := _user self; _media_title := _media_title self; _artist := _artist self;
     _series := _series self; _state := _state self; _duration_s := _duration_s self;
     _position_s := _position_s self; _position_updated_at := _position_updated_at self;
     _content_id := x; _content_type := _content_type self; _season := _season self;
     _episode := _episode self; _entity_picture := _entity_picture self;
     _app_name := _app_name self; _channel_id := _channel_id self;
     _channel_number := _channel_number self; _program_id := _program_id self;
     _epg := _epg self; _epg_source := _epg_source self;
     _last_epg_fetch := _last_epg_fetch self; hass := hass self;
     host_calls := host_calls self |}.

Definition set_content_type (x : option string) (self : entity) : entity :=
  {| _session_id := _session_id self; _attr_unique_id := _attr_unique_id self;
     _attr_name := _attr_name self; _suggested_object_id := _suggested_object_id self;
     _attr_available := _attr_available self; _name_prefix := _name_prefix self;
     _user := _user self; _media_title := _media_title self; _artist := _artist self;
     _series := _series self; _state := _state self; _duration_s := _duration_s self;
     _position_s := _position_s self; _position_updated_at := _position_updated_at self;
     _content_id := _content_id self; _content_type := x; _season := _season self;
     _episode := _episode self; _entity_picture := _entity_picture self;
     _app_name := _app_name self; _channel_id := _channel_id self;
     _channel_number := _channel_number self; _program_id := _program_id self;
     _epg := _epg self; _epg_source := _epg_source self;
     _last_epg_fetch := _last_epg_fetch self; hass := hass self;
     host_calls := host_calls self |}.

Definition set_season (x : value) (self : entity) : entity :=
  {| _session_id := _session_id self; _attr_unique_id := _attr_unique_id self;
     _attr_name := _attr_name self; _suggested_object_id := _suggested_object_id self;
     _attr_available := _attr_available self; _name_prefix := _name_prefix self;
     _user := _user self; _media_title := _media_title self; _artist := _artist self;
     _series := _series self; _state := _state self; _duration_s := _duration_s self;
     _position_s := _position_s self; _position_updated_at := _position_updated_at self;
     _content_id := _content_id self; _content_type := _content_type self; _season := x;
     _episode := _episode self; _entity_picture := _entity_picture self;
     _app_name := _app_name self; _channel_id := _channel_id self;
     _channel_number := _channel_number self; _program_id := _program_id self;
     _epg := _epg self; _epg_source := _epg_source self;
     _last_epg_fetch := _last_epg_fetch self; hass := hass self;
     host_calls := host_calls self |}.

Definition set_episode (x : value) (self : entity) : entity :=
  {| _session_id := _session_id self; _attr_unique_id := _attr_unique_id self;
     _attr_name := _attr_name self; _suggested_object_id := _suggested_object_id self;
     _attr_available := _attr_available self; _name_prefix := _name_prefix self;
     _user := _user self; _media_title := _media_title self; _artist := _artist self;
     _series := _series self; _state := _state self; _duration_s := _duration_s self;
     _position_s := _position_s self; _position_updated_at := _position_updated_at self;
     _content_id := _content_id self; _content_type := _content_type self;
     _season := _season self; _episode := x; _entity_picture := _entity_picture self;
     _app_name := _app_name self; _channel_id := _channel_id self;
     _channel_number := _channel_number self; _program_id := _program_id self;
     _epg := _epg self; _epg_source := _epg_source self;
     _last_epg_fetch := _last_epg_fetch self; hass := hass self;
     host_calls := host_calls self |}.

Definition set_entity_picture (x : option string) (self : entity) : entity :=
  {| _session_id := _session_id self; _attr_unique_id := _attr_unique_id self;
     _attr_name := _attr_name self; _suggested_object_id := _suggested_object_id self;
     _attr_available := _attr_available self; _name_prefix := _name_prefix self;
     _user := _user self; _media_title := _media_title self; _artist := _artist self;
     _series := _series self; _state := _state self; _duration_s := _duration_s self;
     _position_s := _position_s self; _position_updated_at := _position_updated_at self;
     _content_id := _content_id self; _content_type := _content_type self;
     _season := _season self; _episode := _episode self; _entity_picture := x;
     _app_name := _app_name self; _channel_id := _channel_id self;
     _channel_number := _channel_number self; _program_id := _program_id self;
     _epg := _epg self; _epg_source := _epg_source self;
     _last_epg_fetch := _last_epg_fetch self; hass := hass self;
     host_calls := host_calls self |}.

Definition set_app_name (x : value) (self : entity) : entity :=
  {| _session_id := _session_id self; _attr_unique_id := _attr_unique_id self;
     _attr_name := _attr_name self; _suggested_object_id := _suggested_object_id self;
     _attr_available := _attr_available self; _name_prefix := _name_prefix self;
     _user := _user self; _media_title := _media_title self; _artist := _artist self;
     _series := _series self; _state := _state self; _duration_s := _duration_s self;
     _position_s := _position_s self; _position_updated_at := _position_updated_at self;
     _content_id := _content_id self; _content_type := _content_type self;
     _season := _season self; _episode := _episode self;
     _entity_picture := _entity_picture self; _app_name := x;
     _channel_id := _channel_id self; _channel_number := _channel_number self;
     _program_id := _program_id self; _epg := _epg self; _epg_source := _epg_source self;
     _last_epg_fetch := _last_epg_fetch self; hass := hass self;
     host_calls := host_calls self |}.

Definition set_channel_id (x : option string) (self : entity) : entity :=
  {| _session_id := _session_id self; _attr_unique_id := _attr_unique_id self;
     _attr_name := _attr_name self; _suggested_object_id := _suggested_object_id self;
     _attr_available := _attr_available self; _name_prefix := _name_prefix self;
     _user := _user self; _media_title := _media_title self; _artist := _artist self;
     _series := _series self; _state := _state self; _duration_s := _duration_s self;
     _position_s := _position_s self; _position_updated_at := _position_updated_at self;
     _content_id := _content_id self; _content_type := _content_type self;
     _season := _season self; _episode := _episode self;
     _entity_picture := _entity_picture self; _app_name := _app_name self;
     _channel_id := x; _channel_number := _channel_number self;
     _program_id := _program_id self; _epg := _epg self; _epg_source := _epg_source self;
     _last_epg_fetch := _last_epg_fetch self; hass := hass self;
     host_calls := host_calls self |}.

Definition set_channel_number (x : option string) (self : entity) : entity :=
  {| _session_id := _session_id self; _attr_unique_id := _attr_unique_id self;
     _attr_name := _attr_name self; _suggested_object_id := _suggested_object_id self;
     _attr_available := _attr_available self; _name_prefix := _name_prefix self;
     _user := _user self; _media_title := _media_title self; _artist := _artist self;
     _series := _series self; _state := _state self; _duration_s := _duration_s self;
     _position_s := _position_s self; _position_updated_at := _position_updated_at self;
     _content_id := _content_id self; _content_type := _content_type self;
     _season := _season self; _episode := _episode self;
     _entity_picture := _entity_picture self; _app_name := _app_name self;
     _channel_id := _channel_id self; _channel_number := x;
     _program_id := _program_id self; _epg := _epg self; _epg_source := _epg_source self;
     _last_epg_fetch := _last_epg_fetch self; hass := hass self;
     host_calls := host_calls self |}.

Definition set_program_id (x : option string) (self : entity) : entity :=
  {| _session_id := _session_id self; _attr_unique_id := _attr_unique_id self;
     _attr_name := _attr_name self; _suggested_object_id := _suggested_object_id self;
     _attr_available := _attr_available self; _name_prefix := _name_prefix self;
     _user := _user self; _media_title := _media_title self; _artist := _artist self;
     _series := _series self; _state := _state self; _duration_s := _duration_s self;
     _position_s := _position_s self; _position_updated_at := _position_updated_at self;
     _content_id := _content_id self; _content_type := _content_type self;
     _season := _season self; _episode := _episode self;
     _entity_picture := _entity_picture self; _app_name := _app_name self;
     _channel_id := _channel_id self; _channel_number := _channel_number self;
     _program_id := x; _epg := _epg self; _epg_source := _epg_source self;
     _last_epg_fetch := _last_epg_fetch self; hass := hass self;
     host_calls := host_calls self |}.

Definition set_epg (x : value) (self : entity) : entity :=
  {| _session_id := _session_id self; _attr_unique_id := _attr_unique_id self;
     _attr_name := _attr_name self; _suggested_object_id := _suggested_object_id self;
     _attr_available := _attr_available self; _name_prefix := _name_prefix self;
     _user := _user self; _media_title := _media_title self; _artist := _artist self;
     _series := _series self; _state := _state self; _duration_s := _duration_s self;
     _position_s := _position_s self; _position_updated_at := _position_updated_at self;
     _content_id := _content_id self; _content_type := _content_type self;
     _season := _season self; _episode := _episode self;
     _entity_picture := _entity_picture self; _app_name := _app_name self;
     _channel_id := _channel_id self; _channel_number := _channel_number self;
     _program_id := _program_id self; _epg := x; _epg_source := _epg_source self;
     _last_epg_fetch := _last_epg_fetch self; hass := hass self;
     host_calls := host_calls self |}.

Definition set_epg_source (x : option string) (self : entity) : entity :=
  {| _session_id := _session_id self; _attr_unique_id := _attr_unique_id self;
     _attr_name := _attr_name self; _suggested_object_id := _suggested_object_id self;
     _attr_available := _attr_available self; _name_prefix := _name_prefix self;
     _user := _user self; _media_title := _media_title self; _artist := _artist self;
     _series := _series self; _state := _state self; _duration_s := _duration_s self;
     _position_s := _position_s self; _position_updated_at := _position_updated_at self;
     _content_id := _content_id self; _content_type := _content_type self;
     _season := _season self; _episode := _episode self;
     _entity_picture := _entity_picture self; _app_name := _app_name self;
     _channel_id := _channel_id self; _channel_number := _channel_number self;
     _program_id := _program_id self; _epg := _epg self; _epg_source := x;
     _last_epg_fetch := _last_epg_fetch self; hass := hass self;
     host_calls := host_calls self |}.

Definition set_last_epg_fetch (x : option Z) (self : entity) : entity :=
  {| _session_id := _session_id self; _attr_unique_id := _attr_unique_id self;
     _attr_name := _attr_name self; _suggested_object_id := _suggested_object_id self;
     _attr_available := _attr_available self; _name_prefix := _name_prefix self;
     _user := _user self; _media_title := _media_title self; _artist := _artist self;
     _series := _series self; _state := _state self; _duration_s := _duration_s self;
     _position_s := _position_s self; _position_updated_at := _position_updated_at self;
     _content_id := _content_id self; _content_type := _content_type self;
     _season := _season self; _episode := _episode self;
     _entity_picture := _entity_picture self; _app_name := _app_name self;
     _channel_id := _channel_id self; _channel_number := _channel_number self;
     _program_id := _program_id self; _epg := _epg self; _epg_source := _epg_source self;
     _last_epg_fetch := x; hass := hass self; host_calls := host_calls self |}.

Definition set_hass (x : bool) (self : entity) : entity :=
  {| _session_id := _session_id self; _attr_unique_id := _attr_unique_id self;
     _attr_name := _attr_name self; _suggested_object_id := _suggested_object_id self;
     _attr_available := _attr_available self; _name_prefix := _name_prefix self;
     _user := _user self; _media_title := _media_title self; _artist := _artist self;
     _series := _series self; _state := _state self; _duration_s := _duration_s self;
     _position_s := _position_s self; _position_updated_at := _position_updated_at self;
     _content_id := _content_id self; _content_type := _content_type self;
     _season := _season self; _episode := _episode self;
     _entity_picture := _entity_picture self; _app_name := _app_name self;
     _channel_id := _channel_id self; _channel_number := _channel_number self;
     _program_id := _program_id self; _epg := _epg self; _epg_source := _epg_source self;
     _last_epg_fetch := _last_epg_fetch self; hass := x; host_calls := host_calls self |}.

Definition set_host_calls (x : list host_call) (self : entity) : entity :=
  {| _session_id := _session_id self; _attr_unique_id := _attr_unique_id self;
     _attr_name := _attr_name self; _suggested_object_id := _suggested_object_id self;
     _attr_available := _attr_available self; _name_prefix := _name_prefix self;
     _user := _user self; _media_title := _media_title self; _artist := _artist self;
     _series := _series self; _state := _state self; _duration_s := _duration_s self;
     _position_s := _position_s self; _position_updated_at := _position_updated_at self;
     _content_id := _content_id self; _content_type := _content_type self;
     _season := _season self; _episode := _episode self;
     _entity_picture := _entity_picture self; _app_name := _app_name self;
     _channel_id := _channel_id self; _channel_number := _channel_number self;
     _program_id := _program_id self; _epg := _epg self; _epg_source := _epg_source self;
     _last_epg_fetch := _last_epg_fetch self; hass := hass self; host_calls := x |}.

(** ** What the module takes from outside

    [str()] of a float, list or dict (first character and rest: the text is
    never empty), Home Assistant's [slugify], and the API client: its URL
    configuration and the three programme-guide calls, which answer or raise. *)

Record host : Type := {
  py_repr : value -> ascii * string;
  ha_slugify : string -> string
}.

Record client : Type := {
  _base : string;
  api_key : string;
  async_get_program_for_session : option string -> option string -> result value;
  async_get_current_program : string -> result value;
  async_get_channel : string -> result value
}.

(** ** Suspension

    The refresh task waits for the client three times. While it waits the
    event loop runs other callbacks, which may write to the entity
    ([_apply_session] on the next coordinator refresh, [mark_gone],
    another refresh task); an [interleaving] says what they do to it during
    each wait. The arguments of a call are read before the wait, its answer
    (or its exception) comes after it. *)

Record interleaving : Type := {
  during_lookup : entity -> entity;
  during_fallback : entity -> entity;
  during_channel : entity -> entity
}.

(** Nothing else runs. *)
Definition no_interleaving : interleaving :=
  {| during_lookup := fun self => self;
     during_fallback := fun self => self;
     during_channel := fun self => self |}.

(** [await call], with [others] running in the meantime *)
Definition await {A} (others : entity -> entity) (answer : result A) : SE entity A :=
  fun self => (answer, others self).

(** ** Sample data

    A host whose slug function lowers ASCII letters, a client whose guide
    has nothing to say, the session of the end-to-end scenario, a session on
    live TV and one on live TV whose item carries an empty programme id. *)

Definition sample_host : host :=
  {| py_repr := fun _ => ("?"%char, ""); ha_slugify := lower |}.

Definition sample_client : client :=
  {| _base := "http://emby:8096/emby";
     api_key := "k";
     async_get_program_for_session := fun _ _ => OK PNone;
     async_get_current_program := fun _ => OK PNone;
     async_get_channel := fun _ => OK PNone |}.

Definition movie_session : dict :=
  [ ("Id", PStr "a");
    ("NowPlayingItem",
     PDict [ ("Id", PStr "x"); ("Type", PStr "Movie"); ("Name", PStr "Foo");
             ("RunTimeTicks", PInt 600000000) ]);
    ("PlayState",
     PDict [ ("IsPaused", PBool false); ("IsPlaying", PBool true);
             ("PositionTicks", PInt 300000000) ]) ].

Definition tv_session : dict :=
  [ ("Id", PStr "b");
    ("NowPlayingItem",
     PDict [ ("Id", PStr "c1"); ("Type", PStr "TvChannel"); ("Name", PStr "News") ]);
    ("NowPlayingProgramId", PStr "p4") ].

Definition empty_program_id_session : dict :=
  [ ("Id", PStr "b");
    ("NowPlayingItem",
     PDict [ ("Id", PStr "c1"); ("Type", PStr "TvChannel"); ("ProgramId", PStr "") ]);
    ("NowPlayingProgram", PDict [ ("Id", PStr "p2") ]) ].




(** Two entries under one id, with different titles. *)
Definition first_entry : dict :=
  [ ("Id", PStr "a");
    ("NowPlayingItem", PDict [ ("Type", PStr "Movie"); ("Name", PStr "First") ]) ].

Definition second_entry : dict :=
  [ ("Id", PStr "a");
    ("NowPlayingItem", PDict [ ("Type", PStr "Movie"); ("Name", PStr "Second") ]) ].

Section Model.

Variable h : host.
Variable cl : client.

(** [str(v)] *)
Definition py_str (v : value) : string :=
  match v with
  | PNone => "None"
  | PBool true => "True"
  | PBool false => "False"
  | PInt z => pretty z
  | PStr s => s
  | PFloat _ | PList _ | PDict _ => let '(c, s) := py_repr h v in String c s
  end.

Definition opt_str : value -> option string := opt_str_with py_str.

Definition item_primary_image_url (item_id : string) : string :=
  _base cl +:+ "/Items/" +:+ item_id +:+ "/Images/Primary?api_key=" +:+ api_key cl.

(** [str((x or {}).get("Id")) if isinstance(x, dict) and (x or {}).get("Id") is not None else None] *)
Definition nested_id (x : value) : option string :=
  match x with
  | PDict d => opt_str (dict_get d "Id")
  | _ => None
  end.

Definition throttle_us : Z := 20 * 1000000.

Open Scope se_scope.

Definition _maybe_schedule_epg_refresh (now : Z) : SE entity unit :=
  last <- read (fun self => _last_epg_fetch self) ;;
  match last with
  | Some t =>
      if Z.ltb (now - t) throttle_us then se_ret tt
      else
        assign (set_last_epg_fetch (Some now)) ;;
        hs <- read (fun self => hass self) ;;
        when hs (assign (fun self => set_host_calls (CreateEpgTask now :: host_calls self) self))
  | None =>
      assign (set_last_epg_fetch (Some now)) ;;
      hs <- read (fun self => hass self) ;;
      when hs (assign (fun self => set_host_calls (CreateEpgTask now :: host_calls self) self))
  end.

Definition async_write_ha_state : SE entity unit :=
  assign (fun self => set_host_calls (WriteState :: host_calls self) self).

Definition _apply_session (now : Z) (session : dict) : SE entity unit :=
  let np := now_playing session in
  let ps := play_state session in
  assign (set_name_prefix
            (py_or (py_or (dict_get session "DeviceName") (dict_get session "Client"))
                   (PStr "Emby Client"))) ;;
  assign (set_user (dict_get session "UserName")) ;;
  assign (set_app_name
            (py_or (py_or (dict_get session "Client") (dict_get session "Application"))
                   (PStr "Emby"))) ;;
  npd <- lift (attr_get np) ;;
  assign (set_content_id (opt_str (dict_get npd "Id"))) ;;
  content_type <- lift (_content_type_from_item_type (dict_get npd "Type")) ;;
  assign (set_content_type content_type) ;;
  assign (set_media_title (dict_get npd "Name")) ;;
  assign (set_series (dict_get npd "SeriesName")) ;;
  assign (set_artist (py_or (dict_get npd "AlbumArtist") (dict_get npd "Artist"))) ;;
  assign (set_season (dict_get npd "ParentIndexNumber")) ;;
  assign (set_episode (dict_get npd "IndexNumber")) ;;
  content_id <- read (fun self => _content_id self) ;;
  assign (set_entity_picture
            (match content_id with
             | Some i => if truthy_os content_id then Some (item_primary_image_url i) else None
             | None => None
             end)) ;;
  duration_s <- lift (_ticks_to_seconds (dict_get npd "RunTimeTicks")) ;;
  assign (set_duration_s duration_s) ;;
  psd <- lift (attr_get ps) ;;
  position_s <- lift (_ticks_to_seconds (dict_get psd "PositionTicks")) ;;
  assign (set_position_s position_s) ;;
  position_s <- read (fun self => _position_s self) ;;
  assign (set_position_updated_at
            (match position_s with Some _ => Some now | None => None end)) ;;
  let is_paused := truthy (dict_get psd "IsPaused") in
  let is_playing_flag :=
    (truthy (dict_get psd "IsPlaying") || py_eq_str (dict_get psd "PlaybackStatus") "Playing")%bool in
  let has_now_playing := truthy np in
  assign (set_state
            (if is_paused then PAUSED
             else if (is_playing_flag || (has_now_playing && negb is_paused))%bool then PLAYING
             else IDLE)) ;;
  assign (set_program_id None) ;;
  assign (set_channel_id None) ;;
  content_type <- read (fun self => _content_type self) ;;
  if os_eq content_type "tvchannel" then
    content_id <- read (fun self => _content_id self) ;;
    assign (set_channel_id
              (if negb (is_none (dict_get npd "ChannelId"))
               then Some (py_str (dict_get npd "ChannelId"))
               else content_id)) ;;
    assign (set_program_id
              (os_or (os_or (os_or (opt_str (dict_get npd "ProgramId"))
                                   (nested_id (dict_get session "NowPlayingProgram")))
                            (nested_id (dict_get npd "CurrentProgram")))
                     (opt_str (dict_get session "NowPlayingProgramId")))) ;;
    let cn := py_or (dict_get npd "ChannelNumber") (dict_get npd "Number") in
    when (negb (is_none cn)) (assign (set_channel_number (Some (py_str cn)))) ;;
    channel_id <- read (fun self => _channel_id self) ;;
    program_id <- read (fun self => _program_id self) ;;
    when (truthy_os channel_id || truthy_os program_id)%bool (_maybe_schedule_epg_refresh now)
  else
    assign (set_channel_id None) ;;
    assign (set_program_id None) ;;
    assign (set_epg PNone) ;;
    assign (set_epg_source None) ;;
    assign (set_channel_number None).

Definition _compute_object_id (session : dict) : result string :=
  let base := py_or (py_or (dict_get session "DeviceName") (dict_get session "Client"))
                    (PStr "emby") in
  let user := dict_get session "UserName" in
  match as_str base with
  | Raise x => Raise x
  | OK b =>
      match (if truthy user
             then match as_str user with OK u => OK ["emby"; b; u] | Raise x => Raise x end
             else OK ["emby"; b]) with
      | Raise x => Raise x
      | OK parts =>
          let object_id := ha_slugify h (String.concat "_" parts) in
          OK (if String.prefix "emby_" object_id then object_id else "emby_" +:+ object_id)
      end
  end.

(** The attributes [__init__] assigns before it calls [_apply_session]. *)
Definition new_entity (session_id object_id : string) : entity :=
  {| _session_id := session_id;
     _attr_unique_id := "emby_" +:+ session_id;
     _attr_name := "emby_" +:+ session_id;
     _suggested_object_id :=
       if String.prefix "emby_" object_id then object_id else "emby_" +:+ object_id;
     _attr_available := true;
     _name_prefix := PNone; _user := PNone; _media_title := PNone; _artist := PNone;
     _series := PNone; _state := IDLE; _duration_s := None; _position_s := None;
     _position_updated_at := None; _content_id := None; _content_type := None;
     _season := PNone; _episode := PNone; _entity_picture := None; _app_name := PNone;
     _channel_id := None; _channel_number := None; _program_id := None;
     _epg := PNone; _epg_source := None; _last_epg_fetch := None;
     hass := false; host_calls := [] |}.

(** [EmbySessionEntity(coordinator, client, session)]. The session id is a
    [str] (the annotation of [_session_id]); the model raises [TypeError] on
    any other value. *)
Definition __init__ (now : Z) (session : dict) : result entity :=
  match as_str (py_or (dict_get session "Id") (dict_get session "SessionId")) with
  | Raise x => Raise x
  | OK sid =>
      match _compute_object_id session with
      | Raise x => Raise x
      | OK object_id =>
          match _apply_session now session (new_entity sid object_id) with
          | (OK _, self) => OK self
          | (Raise x, _) => Raise x
          end
      end
  end.

Definition mark_gone : SE entity unit :=
  assign (set_attr_available false) ;;
  hs <- read (fun self => hass self) ;;
  when hs async_write_ha_state.

(** The [for ... else] of [_handle_coordinator_update]: [true] when a
    session matched (the [break]), [false] when the loop ran out. *)
Fixpoint find_and_apply (now : Z) (sessions : list value) : SE entity bool :=
  match sessions with
  | [] => se_ret false
  | s :: rest =>
      d <- lift (attr_get s) ;;
      let sid := py_or (dict_get d "Id") (dict_get d "SessionId") in
      own <- read (fun self => _session_id self) ;;
      if py_eq_str sid own then
        _apply_session now d ;;
        assign (set_attr_available true) ;;
        se_ret true
      else find_and_apply now rest
  end.

(** [coordinator.data or []] *)
Definition data_or_empty (data : option (list value)) : list value :=
  match data with Some l => l | None => [] end.

Definition _handle_coordinator_update (now : Z) (data : option (list value)) : SE entity unit :=
  found <- find_and_apply now (data_or_empty data) ;;
  when (negb found) (assign (set_attr_available false)) ;;
  async_write_ha_state.

(** The refresh task, in the three parts of its [try] body: the lookup
    with its fall-back, the adoption of channel id and number, and the
    source tag. The client calls are its suspension points. *)
Definition epg_lookup (il : interleaving) : SE entity value :=
  channel_id <- read (fun self => _channel_id self) ;;
  program_id <- read (fun self => _program_id self) ;;
  epg <- await (during_lookup il)
               (async_get_program_for_session cl channel_id program_id) ;;
  channel_id <- read (fun self => _channel_id self) ;;
  match channel_id with
  | Some c =>
      if (negb (truthy epg) && truthy_os channel_id)%bool
      then await (during_fallback il) (async_get_current_program cl c)
      else se_ret epg
  | None => se_ret epg
  end.

Definition epg_adopt (il : interleaving) (epg : value) : SE entity unit :=
  match epg with
  | PDict d =>
      when (truthy (dict_get d "ChannelId"))
           (assign (set_channel_id (Some (py_str (dict_get d "ChannelId"))))) ;;
      let cn := py_or (dict_get d "ChannelNumber") (dict_get d "Number") in
      when (negb (is_none cn)) (assign (set_channel_number (Some (py_str cn)))) ;;
      channel_number <- read (fun self => _channel_number self) ;;
      channel_id <- read (fun self => _channel_id self) ;;
      match channel_number, channel_id with
      | None, Some c =>
          if truthy_os channel_id then
            ch <- await (during_channel il) (async_get_channel cl c) ;;
            match ch with
            | PDict cd =>
                let cn2 := py_or (dict_get cd "Number") (dict_get cd "ChannelNumber") in
                when (negb (is_none cn2)) (assign (set_channel_number (Some (py_str cn2))))
            | _ => se_ret tt
            end
          else se_ret tt
      | _, _ => se_ret tt
      end
  | _ => se_ret tt
  end.

(** ["program_id" if (self._program_id and epg.get("Id") == self._program_id)
    else "channel_search"] under [if epg and isinstance(epg, dict)], else ["none"] *)
Definition epg_source_tag (epg : value) (program_id : option string) : string :=
  match epg with
  | PDict d =>
      if truthy epg then
        match program_id with
        | Some p =>
            if (truthy_os program_id && py_eq_str (dict_get d "Id") p)%bool
            then "program_id" else "channel_search"
        | None => "channel_search"
        end
      else "none"
  | _ => "none"
  end.

Definition _async_refresh_epg (il : interleaving) : SE entity unit :=
  try_finally
    (try_except
       (epg <- epg_lookup il ;;
        epg_adopt il epg ;;
        assign (set_epg epg) ;;
        program_id <- read (fun self => _program_id self) ;;
        assign (set_epg_source (Some (epg_source_tag epg program_id))))
       (assign (set_epg PNone) ;;
        assign (set_epg_source (Some "error"))))
    (hs <- read (fun self => hass self) ;;
     when hs async_write_ha_state).

(** ** The platform: [async_setup_entry] and its closure [_sync_entities]

    [entities] is the dict of the closure; [registered] lists the calls of
    [async_add_entities], oldest first, each with the session ids of the
    entities it was given. *)

Record platform : Type := {
  entities : gmap string entity;
  registered : list (list string)
}.

Definition set_entities (m : gmap string entity) (st : platform) : platform :=
  {| entities := m; registered := registered st |}.

Definition set_registered (r : list (list string)) (st : platform) : platform :=
  {| entities := entities st; registered := r |}.

(** [entities[sid].method()] *)
Definition on_entity {A} (sid : string) (m : SE entity A) : SE platform A :=
  fun st =>
    match entities st !! sid with
    | Some self =>
        match m self with
        | (r, self') => (r, set_entities (<[sid := self']> (entities st)) st)
        end
    | None => (Raise KeyError, st)
    end.

(** The first loop of [_sync_entities]; [new_entities] holds the ids of the
    new objects, which stay the ones stored in [entities]. *)
Fixpoint sync_loop (now : Z) (sessions : list value)
    (seen : gset string) (new_entities : list string)
    : SE platform (gset string * list string) :=
  match sessions with
  | [] => se_ret (seen, new_entities)
  | s :: rest =>
      d <- lift (attr_get s) ;;
      let sid := py_or (dict_get d "Id") (dict_get d "SessionId") in
      if negb (truthy sid) then sync_loop now rest seen new_entities
      else
        k <- lift (as_str sid) ;;
        known <- read (fun st => entities st !! k) ;;
        match known with
        | None =>
            ent <- lift (__init__ now d) ;;
            assign (fun st => set_entities (<[k := ent]> (entities st)) st) ;;
            sync_loop now rest ({[k]} ∪ seen) (new_entities ++ [k])
        | Some _ =>
            on_entity k (_apply_session now d) ;;
            sync_loop now rest ({[k]} ∪ seen) new_entities
        end
  end.

(** [for sid in (set(entities.keys()) - seen): entities[sid].mark_gone()] *)
Definition mark_unseen (seen : gset string) (m : gmap string entity) : gmap string entity :=
  map_imap (fun k self => Some (if bool_decide (k ∈ seen) then self else snd (mark_gone self))) m.

Definition _sync_entities (now : Z) (data : option (list value)) : SE platform unit :=
  r <- sync_loop now (data_or_empty data) ∅ [] ;;
  assign (fun st => set_entities (mark_unseen (fst r) (entities st)) st) ;;
  when (match snd r with [] => false | _ => true end)
       (assign (fun st => set_registered (registered st ++ [snd r]) st)).

(** ** The host's side of a coordinator refresh

    Home Assistant binds an entity given to [async_add_entities] to [hass]
    and subscribes its [_handle_coordinator_update] to the coordinator; on a
    refresh the coordinator calls its listeners in the order they subscribed:
    [_sync_entities] first, then the entities. *)

Definition host_add_entities (st : platform) : platform :=
  set_entities
    (map_imap (fun k self =>
                 Some (if bool_decide (k ∈ concat (registered st))
                       then set_hass true self else self))
              (entities st))
    st.

Fixpoint run_listeners (now : Z) (data : option (list value)) (sids : list string)
    : SE platform unit :=
  match sids with
  | [] => se_ret tt
  | k :: rest =>
      on_entity k (_handle_coordinator_update now data) ;;
      run_listeners now data rest
  end.

Definition notify (now : Z) (data : option (list value)) : SE platform unit :=
  listeners <- read (fun st => concat (registered st)) ;;
  _sync_entities now data ;;
  run_listeners now data listeners ;;
  assign host_add_entities.

(** [async_setup_entry]: the first, direct call of [_sync_entities]. *)
Definition async_setup_entry (now : Z) (data : option (list value)) : SE platform unit :=
  _sync_entities now data ;;
  assign host_add_entities.

Definition empty_platform : platform := {| entities := ∅; registered := [] |}.

(** ** Specification vocabulary *)

(** The strings on which [lower] is Python's [str.lower]: those of ASCII
    characters. *)
Definition ascii_only (s : string) : bool :=
  forallb (fun c => Nat.ltb (nat_of_ascii c) 128) (list_ascii_of_string s).

(** The real number a finite float stands for. *)
Definition float_value (f : spec_float) : option Q :=
  match f with
  | S754_zero _ => Some 0%Q
  | S754_finite s m e =>
      Some (Qred (if s then - (inject_Z (Z.pos m) * Qpower 2 e)
                  else inject_Z (Z.pos m) * Qpower 2 e)%Q)
  | _ => None
  end.

(** The four places a programme id is read from, in the order of the chain. *)
Definition program_id_sources (session : dict) : list (option string) :=
  let npd := as_dict (now_playing session) in
  [ opt_str (dict_get npd "ProgramId");
    nested_id (dict_get session "NowPlayingProgram");
    nested_id (dict_get npd "CurrentProgram");
    opt_str (dict_get session "NowPlayingProgramId") ].

(** What Python's [a or b or c or d] picks: the first truthy operand, and
    the last operand when there is none. *)
Fixpoint first_truthy_or_last (l : list (option string)) : option string :=
  match l with
  | [] => None
  | [x] => x
  | x :: r => if truthy_os x then x else first_truthy_or_last r
  end.

(** The first source that is not null, whatever its text. *)
Fixpoint first_non_null (l : list (option string)) : option string :=
  match l with
  | [] => None
  | Some x :: _ => Some x
  | None :: r => first_non_null r
  end.

(** The clock readings at which the entity created a refresh task, newest first. *)
Fixpoint fetch_times_of (calls : list host_call) : list Z :=
  match calls with
  | [] => []
  | CreateEpgTask t :: r => t :: fetch_times_of r
  | WriteState :: r => fetch_times_of r
  end.

Definition fetch_times (self : entity) : list Z := fetch_times_of (host_calls self).

(** How often the entity published its state. *)
Fixpoint state_writes_of (calls : list host_call) : nat :=
  match calls with
  | [] => O
  | WriteState :: r => S (state_writes_of r)
  | CreateEpgTask _ :: r => state_writes_of r
  end.

Definition state_writes (self : entity) : nat := state_writes_of (host_calls self).

(** Newest first, each reading at least twenty seconds after the next one,
    and none after [bound]. *)
Fixpoint spaced (bound : Z) (ts : list Z) : Prop :=
  match ts with
  | [] => True
  | t :: r => t <= bound /\ spaced (t - 20000000) r
  end.

(** The throttle's invariant: every task was created at or before the stored
    timestamp, and two tasks are never closer than the interval. *)
Definition epg_log_ok (self : entity) : Prop :=
  match _last_epg_fetch self with
  | Some last => spaced last (fetch_times self)
  | None => fetch_times self = []
  end.

(** The cached playback fields, without the timestamp of the position. *)
Definition playback_fields (self : entity) :=
  (_state self, _content_type self, _content_id self, _media_title self,
   _series self, _artist self, _season self, _episode self,
   _duration_s self, _position_s self, _entity_picture self,
   (_name_prefix self, _user self, _app_name self),
   (_channel_id self, _program_id self)).

(** The fields an update on live TV may leave as they are. *)
Definition carried_fields (self : entity) :=
  (_channel_number self, _epg self, _epg_source self).

(** What the constructor fixes for the life of the entity. *)
Definition identity_fields (self : entity) :=
  (_session_id self, _attr_unique_id self, _attr_name self, _suggested_object_id self).

Definition name (self : entity) : value :=
  if truthy (_user self)
  then PStr (py_str (_name_prefix self) +:+ " (" +:+ py_str (_user self) +:+ ")")
  else _name_prefix self.

Definition media_title (self : entity) : value :=
  if os_eq (_content_type self) "tvchannel" then PNone else _media_title self.

(** What the host shows of an entity, without the timestamp of the position. *)
Definition observable_but_clock (self : entity) :=
  (_attr_available self, name self, identity_fields self,
   playback_fields self, carried_fields self).

(** [s.get("Id") or s.get("SessionId")] *)
Definition session_id_of (d : dict) : value :=
  py_or (dict_get d "Id") (dict_get d "SessionId").

(** The key [_sync_entities] files a list entry under, if it does. *)
Definition session_key (s : value) : option string :=
  match s with
  | PDict d =>
      if truthy (session_id_of d)
      then match session_id_of d with PStr k => Some k | _ => None end
      else None
  | _ => None
  end.

(** A list entry the loops go through without raising: an object, and when
    it carries an id, the id is a [str], the session is well formed and the
    device, client and user names are strings. *)
Definition wf_entry (s : value) : bool :=
  match s with
  | PDict d =>
      if truthy (session_id_of d)
      then (is_ok (as_str (session_id_of d)) && wf_session d
            && is_ok (_compute_object_id d))%bool
      else true
  | _ => false
  end.

(** The ids of a session list, in list order. *)
Definition ids_of (l : list value) : list string := omap session_key l.

(** One list entry, seen from the entry of [entities] under the key [k]. *)
Definition step_entity (now : Z) (k : string) (s : value) (o : option entity)
    : option entity :=
  match s with
  | PDict d =>
      if bool_decide (session_key s = Some k)
      then match o with
           | Some self => Some (snd (_apply_session now d self))
           | None => result_to_option (__init__ now d)
           end
      else o
  | _ => o
  end.

(** The whole list, seen from the key [k]. *)
Fixpoint entity_after (now : Z) (k : string) (l : list value) (o : option entity)
    : option entity :=
  match l with
  | [] => o
  | s :: rest => entity_after now k rest (step_entity now k s o)
  end.

(** The ids that get a new entity, given the keys [known] before the loop. *)
Fixpoint fresh_ids (l : list value) (known : gset string) : list string :=
  match l with
  | [] => []
  | s :: rest =>
      match session_key s with
      | Some k =>
          if bool_decide (k ∈ known) then fresh_ids rest known
          else k :: fresh_ids rest ({[k]} ∪ known)
      | None => fresh_ids rest known
      end
  end.

(** Live TV, as [_apply_session] decides it. *)
Definition is_live (session : dict) : bool :=
  match _content_type_from_item_type (dict_get (as_dict (now_playing session)) "Type") with
  | OK ct => os_eq ct "tvchannel"
  | Raise _ => false
  end.

(** What an update does to the carried fields. *)
Definition carried_after (session : dict)
    (c : option string * value * option string) : option string * value * option string :=
  if is_live session then
    let npd := as_dict (now_playing session) in
    let cn := py_or (dict_get npd "ChannelNumber") (dict_get npd "Number") in
    (if is_none cn then fst (fst c) else Some (py_str cn), snd (fst c), snd c)
  else (None, PNone, None).

Fixpoint carried_through (k : string) (l : list value)
    (c : option string * value * option string) : option string * value * option string :=
  match l with
  | [] => c
  | s :: rest =>
      carried_through k rest
        (match s with
         | PDict d => if bool_decide (session_key s = Some k) then carried_after d c else c
         | _ => c
         end)
  end.

Definition carried_or_blank (o : option entity) : option string * value * option string :=
  match o with Some self => carried_fields self | None => (None, PNone, None) end.

(** Two optional entities with the same playback fields. *)
Definition same_playback (o1 o2 : option entity) : Prop :=
  match o1, o2 with
  | Some a, Some b => playback_fields a = playback_fields b
  | _, _ => False
  end.

(** The first entry of the list filed under the key [k]. *)
Fixpoint first_session (k : string) (l : list value) : option dict :=
  match l with
  | [] => None
  | s :: rest =>
      match s with
      | PDict d =>
          if bool_decide (session_key s = Some k) then Some d else first_session k rest
      | _ => first_session k rest
      end
  end.

(** The last entry of the list filed under the key [k]. *)
Fixpoint last_session (k : string) (l : list value) : option dict :=
  match l with
  | [] => None
  | s :: rest =>
      match last_session k rest with
      | Some d => Some d
      | None =>
          match s with
          | PDict d => if bool_decide (session_key s = Some k) then Some d else None
          | _ => None
          end
      end
  end.

(** Setup and the refreshes after it: [polls] gives the clock reading and
    the coordinator's data of each refresh. *)
Fixpoint run_refreshes (polls : list (Z * option (list value))) : SE platform unit :=
  match polls with
  | [] => se_ret tt
  | (now, data) :: rest => se_bind (notify now data) (fun _ => run_refreshes rest)
  end.

(** The ids of all the lists of a run. *)
Definition ids_of_polls (polls : list (Z * option (list value))) : list string :=
  concat (map (fun p => ids_of (data_or_empty (snd p))) polls).

(** The refresh task, seen from the client.

    [fallback_channel epg self]: the channel whose current programme the
    task asks for after a first answer [epg], [self] being the entity when
    that answer arrives: none when the answer is truthy, else the channel id
    of the entity, if it has one that is not empty. *)
Definition fallback_channel (epg : value) (self : entity) : option string :=
  if truthy epg then None
  else match _channel_id self with
       | Some c => if String.eqb c "" then None else Some c
       | None => None
       end.








(** What a guide refresh leaves alone. *)
Definition kept_by_refresh (self : entity) :=
  (identity_fields self, _attr_available self,
   (_state self, _content_type self, _content_id self, _media_title self, _series self,
    _artist self, _season self, _episode self),
   (_duration_s self, _position_s self, _position_updated_at self, _entity_picture self,
    _name_prefix self, _user self, _app_name self),
   (_program_id self, _last_epg_fetch self, hass self, fetch_times self)).

(** The registry the closure and the host keep together: an id is in
    [entities] exactly when it was given to the host, it was given once, and
    an entity is filed under its own session id, which is not empty. *)
Definition platform_ok (st : platform) : Prop :=
  NoDup (concat (registered st))
  /\ (forall k, k ∈ dom (entities st) <-> k ∈ concat (registered st))
  /\ (forall k self, entities st !! k = Some self -> _session_id self = k /\ k <> "").

Close Scope se_scope.


(** ** Running [_apply_session] *)

Lemma wf_session_inv session :
  wf_session session = true ->
  exists npd psd ct dur pos,
    now_playing session = PDict npd /\ play_state session = PDict psd /\
    _content_type_from_item_type (dict_get npd "Type") = OK ct /\
    _ticks_to_seconds (dict_get npd "RunTimeTicks") = OK dur /\
    _ticks_to_seconds (dict_get psd "PositionTicks") = OK pos.
Proof.
  unfold wf_session. intros H.
  apply andb_prop in H as [H H5]. apply andb_prop in H as [H H4].
  apply andb_prop in H as [H H3]. apply andb_prop in H as [H1 H2].
  destruct (now_playing session) as [| | | | | |npd]; try discriminate.
  destruct (play_state session) as [| | | | | |psd]; try discriminate.
  cbn [as_dict] in H3, H4, H5.
  destruct (_content_type_from_item_type (dict_get npd "Type")) as [ct|] eqn:E;
    try discriminate.
  destruct (_ticks_to_seconds (dict_get npd "RunTimeTicks")) as [dur|] eqn:Ed;
    try discriminate.
  destruct (_ticks_to_seconds (dict_get psd "PositionTicks")) as [pos|] eqn:Ep;
    try discriminate.
  exists npd, psd, ct, dur, pos. auto.
Qed.

Lemma truthy_or_empty (v : value) : truthy (py_or v (PDict [])) = truthy v.
Proof. unfold py_or. destruct (truthy v) eqn:E; [exact E | reflexivity]. Qed.

Lemma os_eq_true (o : option string) (s : string) : os_eq o s = true <-> o = Some s.
Proof.
  destruct o as [t|]; cbn.
  - rewrite String.eqb_eq. split; [intros ->; reflexivity | intros [= ->]; reflexivity].
  - split; discriminate.
Qed.

Lemma os_eq_false (o : option string) (s : string) : os_eq o s = false <-> o <> Some s.
Proof.
  rewrite <- os_eq_true. destruct (os_eq o s); split; congruence.
Qed.

(** Reading an attribute back through the assignments made before. *)
Ltac ent_cbn :=
  cbn [_session_id _attr_unique_id _attr_name _suggested_object_id _attr_available
       _name_prefix _user _media_title _artist _series _state _duration_s _position_s
       _position_updated_at _content_id _content_type _season _episode _entity_picture
       _app_name _channel_id _channel_number _program_id _epg _epg_source
       _last_epg_fetch hass host_calls set_attr_available set_name_prefix set_user
       set_media_title set_artist set_series set_state set_duration_s set_position_s
       set_position_updated_at set_content_id set_content_type set_season set_episode
       set_entity_picture set_app_name set_channel_id set_channel_number set_program_id
       set_epg set_epg_source set_last_epg_fetch set_hass set_host_calls].

Ltac ent_cbn_all :=
  cbn [_session_id _attr_unique_id _attr_name _suggested_object_id _attr_available
       _name_prefix _user _media_title _artist _series _state _duration_s _position_s
       _position_updated_at _content_id _content_type _season _episode _entity_picture
       _app_name _channel_id _channel_number _program_id _epg _epg_source
       _last_epg_fetch hass host_calls set_attr_available set_name_prefix set_user
       set_media_title set_artist set_series set_state set_duration_s set_position_s
       set_position_updated_at set_content_id set_content_type set_season set_episode
       set_entity_picture set_app_name set_channel_id set_channel_number set_program_id
       set_epg set_epg_source set_last_epg_fetch set_hass set_host_calls] in *.

Ltac se_cbn :=
  cbn -[truthy dict_get _ticks_to_seconds py_str opt_str nested_id os_or truthy_os
        _content_type_from_item_type item_primary_image_url Z.ltb Z.sub throttle_us
        py_or is_none os_eq].

(** Symbolic execution of [_apply_session] on a well-formed session: the
    branches of the method are told apart first, then the method is run in
    each of them, with the final object left in the goal. *)
Ltac apply_session_cases now session self npd :=
  let Hcn := fresh "Hcn" in
  let Hsched := fresh "Hsched" in
  let Hlast := fresh "Hlast" in
  let last := fresh "last" in
  let Hthr := fresh "Hthr" in
  let Hh := fresh "Hh" in
  destruct (is_none (py_or (dict_get npd "ChannelNumber") (dict_get npd "Number")))
    eqn:Hcn;
  (destruct (truthy_os
               (if negb (is_none (dict_get npd "ChannelId"))
                then Some (py_str (dict_get npd "ChannelId"))
                else opt_str (dict_get npd "Id"))
             || truthy_os
                  (os_or
                     (os_or
                        (os_or (opt_str (dict_get npd "ProgramId"))
                               (nested_id (dict_get session "NowPlayingProgram")))
                        (nested_id (dict_get npd "CurrentProgram")))
                     (opt_str (dict_get session "NowPlayingProgramId"))))%bool
     eqn:Hsched;
   [ destruct (_last_epg_fetch self) as [last|] eqn:Hlast;
     [ destruct (Z.ltb (now - last) throttle_us) eqn:Hthr;
       [ | destruct (hass self) eqn:Hh ]
     | destruct (hass self) eqn:Hh ]
   | ]).

Ltac se_step :=
  se_cbn;
  repeat match goal with
         | H : is_none _ = _ |- _ => rewrite H; se_cbn
         | H : orb _ _ = _ |- _ => rewrite H; se_cbn
         | H : _last_epg_fetch _ = _ |- _ => rewrite H; se_cbn
         | H : Z.ltb _ _ = _ |- _ => rewrite H; se_cbn
         | H : hass _ = _ |- _ => rewrite H; se_cbn
         end.

Ltac run_apply_session Hwf :=
  let npd := fresh "npd" in
  let psd := fresh "psd" in
  let ct := fresh "ct" in
  let dur := fresh "dur" in
  let pos := fresh "pos" in
  let Hnp := fresh "Hnp" in
  let Hps := fresh "Hps" in
  let Hct := fresh "Hct" in
  let Hdur := fresh "Hdur" in
  let Hpos := fresh "Hpos" in
  let Htv := fresh "Htv" in
  destruct (wf_session_inv _ Hwf) as (npd & psd & ct & dur & pos & Hnp & Hps & Hct & Hdur & Hpos);
  match goal with
  | |- context [_apply_session ?now ?session ?self] =>
      destruct (os_eq ct "tvchannel") eqn:Htv;
      [ apply_session_cases now session self npd | ];
      unfold _apply_session, _maybe_schedule_epg_refresh;
      rewrite ?Hnp, ?Hps; se_cbn; rewrite ?Hct; se_cbn; rewrite ?Hdur; se_cbn;
      rewrite ?Hpos; se_cbn; rewrite ?Htv; se_step
  end.

Lemma apply_session_total now session self :
  wf_session session = true ->
  exists self', _apply_session now session self = (OK tt, self').
Proof.
  intros Hwf. run_apply_session Hwf; eexists; reflexivity.
Qed.

Lemma apply_session_content_type now session self self' :
  wf_session session = true ->
  _apply_session now session self = (OK tt, self') ->
  _content_type_from_item_type (dict_get (as_dict (now_playing session)) "Type")
  = OK (_content_type self').
Proof.
  intros Hwf. run_apply_session Hwf; intros [= <-]; cbn [as_dict]; ent_cbn; reflexivity.
Qed.

(** ** The helpers *)

Lemma ten_million_bits : ten_million = S754_finite false 5368709120000000 (-29).
Proof. reflexivity. Qed.

Lemma float_of_int_overflow_sign (n : Z) (s : bool) :
  binary_normalize 53 1024 n 0 false = S754_infinity s -> s = Z.ltb n 0.
Proof.
  intros E. destruct n as [|p|p]; cbn [binary_normalize] in E; [discriminate| |];
    unfold binary_round in E;
    destruct (shl_align p 0 (fexp 53 1024 (Z.pos (digits2_pos p) + 0))) as [mz ez];
    unfold binary_round_aux in E;
    destruct (shr_fexp 53 1024 (Z.pos mz) ez loc_Exact) as [mrs' e'];
    destruct (shr_fexp 53 1024
                (round_nearest_even (shr_m mrs') (loc_of_shr_record mrs')) e'
                loc_Exact) as [mrs'' e''];
    destruct (shr_m mrs''); try discriminate;
    destruct (Z.leb e'' (1024 - 53)); try discriminate;
    injection E as <-; reflexivity.
Qed.

Lemma ticks_to_seconds_float (f : spec_float) :
  _ticks_to_seconds (PFloat f)
  = OK (Some (SFdiv 53 1024 f (S754_finite false 5368709120000000 (-29)))).
Proof. reflexivity. Qed.

(** C8, as the code has it. A value that is no [int] and no [float] (an
    absent field, a string, a list, an object) gives [None], never zero and
    never an exception. An [int] or a [float], as the method's own
    [isinstance] test has it (so a [bool] is one), gives the binary64
    quotient of [float(ticks)] by [10000000.0], or the [OverflowError] of
    [float(ticks)] when an int is beyond the range of a float. 300000000
    ticks are exactly 30.0 seconds and 600000000 exactly 60.0; [False] gives
    0.0; 10^400 raises. *)
Theorem ticks_to_seconds_spec (ticks : value) :
  (isinstance_int_float ticks = false -> _ticks_to_seconds ticks = OK None)
  /\ (isinstance_int_float ticks = true ->
      match py_float ticks with
      | OK x =>
          _ticks_to_seconds ticks
          = OK (Some (SFdiv 53 1024 x (S754_finite false 5368709120000000 (-29))))
      | Raise e =>
          e = OverflowError /\ _ticks_to_seconds ticks = Raise OverflowError
          /\ exists n, ticks = PInt n /\ binary_normalize 53 1024 n 0 false
                                          = S754_infinity (Z.ltb n 0)
      end)
  /\ (forall f, py_float (PFloat f) = OK f)
  /\ (py_float (PBool true) = OK (S754_finite false 4503599627370496 (-52))
      /\ py_float (PBool false) = OK (S754_zero false))
  /\ (exists f, _ticks_to_seconds (PInt 300000000) = OK (Some f)
                /\ float_value f = Some (30 # 1)%Q)
  /\ (exists f, _ticks_to_seconds (PInt 600000000) = OK (Some f)
                /\ float_value f = Some (60 # 1)%Q)
  /\ _ticks_to_seconds (dict_get [] "RunTimeTicks") = OK None
  /\ _ticks_to_seconds (PBool false) = OK (Some (S754_zero false))
  /\ _ticks_to_seconds (PInt (10 ^ 400)) = Raise OverflowError.
Proof.
  split; [|split; [|split; [|split; [|split; [|split; [|split; [|split]]]]]]].
  - unfold _ticks_to_seconds. intros ->. reflexivity.
  - intros Hnum. unfold _ticks_to_seconds. rewrite Hnum. cbn [negb].
    destruct ticks as [|b|n|f| | |]; try discriminate Hnum.
    + destruct b; reflexivity.
    + cbn [py_float]. unfold float_of_int.
      destruct (binary_normalize 53 1024 n 0 false) as [s|s| |s m e] eqn:E;
        try reflexivity.
      split; [reflexivity|]. split; [reflexivity|]. exists n. split; [reflexivity|].
      rewrite E. f_equal. exact (float_of_int_overflow_sign n s E).
    + reflexivity.
  - reflexivity.
  - split; reflexivity.
  - eexists. split; reflexivity.
  - eexists. split; reflexivity.
  - reflexivity.
  - reflexivity.
  - vm_compute. reflexivity.
Qed.

(** ** The playback snapshot *)

(** C3. State derivation: a truthy [IsPaused] gives paused whatever the
    other fields say; otherwise a truthy [IsPlaying], a [PlaybackStatus]
    equal to "Playing" or a now-playing item gives playing; otherwise idle. *)
Theorem state_derivation (now : Z) (session : dict) (self : entity) :
  wf_session session = true ->
  exists self',
    _apply_session now session self = (OK tt, self') /\
    _state self' =
      let ps := as_dict (play_state session) in
      if truthy (dict_get ps "IsPaused") then PAUSED
      else if (truthy (dict_get ps "IsPlaying")
               || py_eq_str (dict_get ps "PlaybackStatus") "Playing"
               || truthy (dict_get session "NowPlayingItem"))%bool
           then PLAYING
           else IDLE.
Proof.
  intros Hwf.
  assert (Hst : forall (a b c : bool),
             (if a then PAUSED else if (b || c && negb a)%bool then PLAYING else IDLE)
             = (if a then PAUSED else if (b || c)%bool then PLAYING else IDLE)).
  { intros [] [] []; reflexivity. }
  pose proof (truthy_or_empty (dict_get session "NowPlayingItem")) as Hnpt.
  fold (now_playing session) in Hnpt.
  run_apply_session Hwf; eexists; (split; [reflexivity|]);
    cbn [as_dict]; ent_cbn; cbv zeta; rewrite Hst, <- Hnpt, Hnp; reflexivity.
Qed.

(** C4. Live-TV field clearing: an update whose content type is not
    "tvchannel" leaves channel id, programme id, channel number, programme
    snapshot and programme source all [None]. *)
Theorem live_tv_fields_cleared (now : Z) (session : dict) (self : entity) :
  wf_session session = true ->
  exists self',
    _apply_session now session self = (OK tt, self') /\
    (_content_type self' <> Some "tvchannel" ->
     _channel_id self' = None /\ _program_id self' = None
     /\ _channel_number self' = None /\ _epg self' = PNone
     /\ _epg_source self' = None).
Proof.
  intros Hwf.
  run_apply_session Hwf; eexists; (split; [reflexivity|]); ent_cbn; intros Hne;
    try (apply os_eq_true in Htv; congruence);
    repeat split; reflexivity.
Qed.

Lemma first_truthy_or_last_chain (a b c d : option string) :
  os_or (os_or (os_or a b) c) d = first_truthy_or_last [a; b; c; d].
Proof.
  unfold os_or. cbn [first_truthy_or_last].
  destruct (truthy_os a) eqn:Ea; repeat (cbv iota; rewrite ?Ea); [reflexivity|].
  destruct (truthy_os b) eqn:Eb; repeat (cbv iota; rewrite ?Eb); [reflexivity|].
  destruct (truthy_os c) eqn:Ec; repeat (cbv iota; rewrite ?Ec); reflexivity.
Qed.



(** C5, as the code has it. On live TV the programme id is the first of the
    four sources, in their fixed order, that is neither null nor the empty
    string; when there is none it is the last source as it stands (the empty
    string if [NowPlayingProgramId] is one, else [None]). *)
Theorem program_id_chain (now : Z) (session : dict) (self : entity) :
  wf_session session = true ->
  _content_type_from_item_type (dict_get (as_dict (now_playing session)) "Type")
  = OK (Some "tvchannel") ->
  exists self',
    _apply_session now session self = (OK tt, self') /\
    _program_id self' = first_truthy_or_last (program_id_sources session) /\
    ((forall x, In x (program_id_sources session) -> x = None) ->
     _program_id self' = None).
Proof.
  intros Hwf Htype.
  assert (Hall : (forall x, In x (program_id_sources session) -> x = None) ->
                 first_truthy_or_last (program_id_sources session) = None).
  { intros Hn. unfold program_id_sources in *. cbn in Hn.
    rewrite (Hn (opt_str (dict_get (as_dict (now_playing session)) "ProgramId"))) by auto.
    rewrite (Hn (nested_id (dict_get session "NowPlayingProgram"))) by auto.
    rewrite (Hn (nested_id (dict_get (as_dict (now_playing session)) "CurrentProgram")))
      by auto 6.
    rewrite (Hn (opt_str (dict_get session "NowPlayingProgramId"))) by auto 6.
    reflexivity. }
  revert Htype.
  run_apply_session Hwf; intros [= ->];
    try (vm_compute in Htv; discriminate);
    eexists; (split; [reflexivity|]); ent_cbn;
    rewrite first_truthy_or_last_chain;
    unfold program_id_sources in *; rewrite Hnp in *; cbn [as_dict] in *;
    (split; [reflexivity | exact Hall]).
Qed.

(** C10. Channel number carry-over: an update on live TV whose now-playing
    item has neither a [ChannelNumber] nor a [Number] leaves the stored
    channel number as it was. An update changes the number only when it is
    not live TV (it clears it) or when the item carries a number, and
    [mark_gone] never touches it. *)
Theorem channel_number_carried (now : Z) (session : dict) (self : entity) :
  wf_session session = true ->
  exists self',
    _apply_session now session self = (OK tt, self') /\
    (_content_type self' = Some "tvchannel" ->
     dict_get (as_dict (now_playing session)) "ChannelNumber" = PNone ->
     dict_get (as_dict (now_playing session)) "Number" = PNone ->
     _channel_number self' = _channel_number self) /\
    (_channel_number self' <> _channel_number self ->
     _content_type self' <> Some "tvchannel"
     \/ is_none (py_or (dict_get (as_dict (now_playing session)) "ChannelNumber")
                       (dict_get (as_dict (now_playing session)) "Number")) = false) /\
    _channel_number (snd (mark_gone self')) = _channel_number self'.
Proof.
  intros Hwf.
  run_apply_session Hwf; eexists; (split; [reflexivity|]);
    ent_cbn; cbn [as_dict];
    (split; [| split]);
    try (intros _ E1 E2; rewrite E1, E2 in Hcn; discriminate);
    try (intros; reflexivity);
    try (intros Hne; congruence);
    try (intros Hne; right; exact Hcn);
    try (intros Htv'; apply os_eq_false in Htv; congruence);
    try (intros Hne; left; apply os_eq_false in Htv; exact Htv);
    try (intros Hne; right; reflexivity);
    try (unfold mark_gone; se_cbn; destruct (hass self); reflexivity).
Qed.


(** ** The programme-guide throttle *)

Lemma throttle_us_eq : throttle_us = 20000000.
Proof. reflexivity. Qed.

Lemma spaced_weaken (b b' : Z) (ts : list Z) :
  b <= b' -> spaced b ts -> spaced b' ts.
Proof.
  destruct ts as [|t r]; cbn [spaced]; [trivial|].
  intros Hle [Ht Hr]. split; [lia | exact Hr].
Qed.

Lemma spaced_bound (b : Z) (ts : list Z) (t : Z) :
  spaced b ts -> In t ts -> t <= b.
Proof.
  revert b. induction ts as [|u r IH]; cbn [spaced In]; intros b Hs Hin; [contradiction|].
  destruct Hs as [Hu Hr]. destruct Hin as [-> | Hin]; [exact Hu|].
  pose proof (IH _ Hr Hin). lia.
Qed.

Lemma spaced_apart (b : Z) (ts : list Z) (i j : nat) (t1 t2 : Z) :
  spaced b ts -> (i < j)%nat ->
  nth_error ts i = Some t1 -> nth_error ts j = Some t2 ->
  20000000 <= t1 - t2.
Proof.
  revert b i j. induction ts as [|u r IH]; intros b i j Hs Hij Hi Hj.
  - destruct i; discriminate.
  - destruct Hs as [Hu Hr]. destruct j as [|j]; [lia|]. cbn [nth_error] in Hj.
    destruct i as [|i]; cbn [nth_error] in Hi.
    + injection Hi as ->. apply nth_error_In in Hj.
      pose proof (spaced_bound _ _ _ Hr Hj). lia.
    + apply (IH _ i j Hr); [lia | exact Hi | exact Hj].
Qed.

Lemma new_entity_log_ok (sid oid : string) : epg_log_ok (new_entity sid oid).
Proof. reflexivity. Qed.

(** C6, as the code has it. The window of twenty seconds is counted from
    the stored timestamp, which is the time of the last trigger that passed
    the throttle, whether that trigger started a fetch or not. A trigger
    always returns. One that comes less than 20 seconds after the stored
    timestamp changes nothing at all: no task, no new timestamp, nothing
    queued. One that finds no timestamp, or comes 20 seconds or more after
    it, stores the new timestamp and starts a fetch exactly when the entity
    is attached to the host: on an entity that is not (yet) attached it
    creates no task, and still opens a new window. The fetches an entity
    ever started are pairwise at least 20 seconds apart. *)
Theorem epg_throttle (now : Z) (self : entity) :
  epg_log_ok self ->
  exists self',
    _maybe_schedule_epg_refresh now self = (OK tt, self') /\
    epg_log_ok self' /\
    (forall last, _last_epg_fetch self = Some last -> now - last < 20000000 ->
                  self' = self) /\
    (_last_epg_fetch self = None
     \/ (exists last, _last_epg_fetch self = Some last /\ 20000000 <= now - last) ->
     _last_epg_fetch self' = Some now
     /\ fetch_times self'
        = (if hass self then now :: fetch_times self else fetch_times self)
     /\ state_writes self' = state_writes self) /\
    (forall (i j : nat) t1 t2, (i < j)%nat ->
       nth_error (fetch_times self') i = Some t1 ->
       nth_error (fetch_times self') j = Some t2 ->
       20000000 <= t1 - t2).
Proof.
  intros Hok.
  assert (Hgoal : exists self',
    _maybe_schedule_epg_refresh now self = (OK tt, self') /\
    epg_log_ok self' /\
    (forall last, _last_epg_fetch self = Some last -> now - last < 20000000 ->
                  self' = self) /\
    (_last_epg_fetch self = None
     \/ (exists last, _last_epg_fetch self = Some last /\ 20000000 <= now - last) ->
     _last_epg_fetch self' = Some now
     /\ fetch_times self'
        = (if hass self then now :: fetch_times self else fetch_times self)
     /\ state_writes self' = state_writes self)).
  { unfold epg_log_ok in Hok. unfold _maybe_schedule_epg_refresh. se_cbn.
    change throttle_us with 20000000.
    destruct (_last_epg_fetch self) as [last|] eqn:Hlast; se_cbn.
    - destruct (Z.ltb (now - last) 20000000) eqn:Hthr; se_cbn.
      + exists self.
        split; [reflexivity|]. split; [unfold epg_log_ok; rewrite Hlast; exact Hok|].
        split; [reflexivity|].
        apply Z.ltb_lt in Hthr. intros [[=]|(l & [= <-] & Hl)]. lia.
      + apply Z.ltb_ge in Hthr. destruct (hass self) eqn:Hh; se_cbn.
        * eexists. split; [reflexivity|].
          unfold epg_log_ok, fetch_times, state_writes. ent_cbn.
          cbn [fetch_times_of state_writes_of spaced].
          split; [split; [lia | apply (spaced_weaken last); [lia | exact Hok]]|].
          split; [intros l [= <-]; lia|].
          intros _. repeat split; reflexivity.
        * eexists. split; [reflexivity|].
          unfold epg_log_ok, fetch_times, state_writes. ent_cbn.
          split; [apply (spaced_weaken last); [lia | exact Hok]|].
          split; [intros l [= <-]; lia|].
          intros _. repeat split; reflexivity.
    - destruct (hass self) eqn:Hh; se_cbn.
      + eexists. split; [reflexivity|].
        unfold epg_log_ok, fetch_times, state_writes in *. ent_cbn.
        cbn [fetch_times_of state_writes_of].
        rewrite Hok. cbn [spaced].
        split; [split; [lia | trivial]|].
        split; [intros l [=]|].
        intros _. repeat split; reflexivity.
      + eexists. split; [reflexivity|].
        unfold epg_log_ok, fetch_times, state_writes in *. ent_cbn. rewrite Hok.
        cbn [spaced].
        split; [trivial|].
        split; [intros l [=]|].
        intros _. repeat split; reflexivity. }
  destruct Hgoal as (self' & Hrun & Hok' & H1 & H2).
  exists self'. repeat (split; [assumption|]).
  intros i j t1 t2 Hij Hi Hj. unfold epg_log_ok in Hok'.
  destruct (_last_epg_fetch self') as [last'|].
  - exact (spaced_apart _ _ _ _ _ _ Hok' Hij Hi Hj).
  - rewrite Hok' in Hi. destruct i; discriminate.
Qed.

(** [_apply_session] keeps the throttle's invariant. *)
Lemma apply_session_log_ok now session self self' :
  wf_session session = true ->
  epg_log_ok self ->
  _apply_session now session self = (OK tt, self') ->
  epg_log_ok self'.
Proof.
  intros Hwf Hok. unfold epg_log_ok, fetch_times in *.
  run_apply_session Hwf; intros [= <-]; ent_cbn; rewrite ?Hlast in *;
    change throttle_us with 20000000 in *;
    cbn [fetch_times_of spaced]; try exact Hok.
  - apply Z.ltb_ge in Hthr. split; [lia | apply (spaced_weaken last0); [lia | exact Hok]].
  - apply Z.ltb_ge in Hthr. apply (spaced_weaken last0); [lia | exact Hok].
  - rewrite Hok. cbn [spaced]. split; [lia | trivial].
  - rewrite Hok. exact I.
  - apply Z.ltb_ge in Hthr. split; [lia | apply (spaced_weaken last0); [lia | exact Hok]].
  - apply Z.ltb_ge in Hthr. apply (spaced_weaken last0); [lia | exact Hok].
  - rewrite Hok. cbn [spaced]. split; [lia | trivial].
  - rewrite Hok. exact I.
Qed.

(** ** The refresh task *)

(** The lookup and its fall-back, call by call. *)
Lemma epg_lookup_run (il : interleaving) (self : entity) :
  epg_lookup il self =
  match async_get_program_for_session cl (_channel_id self) (_program_id self) with
  | Raise x => (Raise x, during_lookup il self)
  | OK first =>
      match fallback_channel first (during_lookup il self) with
      | None => (OK first, during_lookup il self)
      | Some c => (async_get_current_program cl c,
                   during_fallback il (during_lookup il self))
      end
  end.
Proof.
  unfold epg_lookup, fallback_channel, await. se_cbn.
  destruct (async_get_program_for_session cl (_channel_id self) (_program_id self))
    as [first|x]; se_cbn; [|reflexivity].
  destruct (_channel_id (during_lookup il self)) as [c|]; se_cbn.
  - destruct (truthy first); se_cbn; [reflexivity|].
    unfold truthy_os. destruct (String.eqb c ""); se_cbn; [reflexivity|].
    destruct (async_get_current_program cl c); reflexivity.
  - destruct (truthy first); reflexivity.
Qed.











(** ** What an update keeps, replaces and carries *)

(** Symbolic execution of one particular call, when the goal has several. *)
Ltac run_apply_session_on Hwf now session self :=
  let npd := fresh "npd" in
  let psd := fresh "psd" in
  let ct := fresh "ct" in
  let dur := fresh "dur" in
  let pos := fresh "pos" in
  let Hnp := fresh "Hnp" in
  let Hps := fresh "Hps" in
  let Hct := fresh "Hct" in
  let Hdur := fresh "Hdur" in
  let Hpos := fresh "Hpos" in
  let Htv := fresh "Htv" in
  destruct (wf_session_inv _ Hwf) as (npd & psd & ct & dur & pos & Hnp & Hps & Hct & Hdur & Hpos);
  destruct (os_eq ct "tvchannel") eqn:Htv;
  [ apply_session_cases now session self npd | ];
  unfold _apply_session, _maybe_schedule_epg_refresh;
  rewrite ?Hnp, ?Hps; se_cbn; rewrite ?Hct; se_cbn; rewrite ?Hdur; se_cbn;
  rewrite ?Hpos; se_cbn; rewrite ?Htv; se_step.

Lemma apply_session_frame now session self self' :
  wf_session session = true ->
  _apply_session now session self = (OK tt, self') ->
  _attr_available self' = _attr_available self
  /\ identity_fields self' = identity_fields self.
Proof.
  intros Hwf. unfold identity_fields.
  run_apply_session Hwf; intros [= <-]; ent_cbn; split; reflexivity.
Qed.

(** The playback fields depend on the session alone: they are those of the
    same update applied to a new entity at time 0. *)
Lemma apply_session_playback now session self self' :
  wf_session session = true ->
  _apply_session now session self = (OK tt, self') ->
  playback_fields self'
  = playback_fields (snd (_apply_session 0 session (new_entity "" ""))).
Proof.
  intros Hwf. unfold playback_fields.
  run_apply_session_on Hwf now session self; intros [= <-]; unfold new_entity;
    se_step; ent_cbn; reflexivity.
Qed.

Lemma apply_session_clock now session self self' :
  wf_session session = true ->
  _apply_session now session self = (OK tt, self') ->
  _position_updated_at self'
  = match _position_s self' with Some _ => Some now | None => None end.
Proof.
  intros Hwf.
  run_apply_session Hwf; intros [= <-]; ent_cbn; reflexivity.
Qed.

Lemma apply_session_carried now session self self' :
  wf_session session = true ->
  _apply_session now session self = (OK tt, self') ->
  carried_fields self' = carried_after session (carried_fields self).
Proof.
  intros Hwf. unfold carried_fields, carried_after, is_live.
  run_apply_session Hwf; intros [= <-]; cbn [as_dict]; ent_cbn;
    rewrite ?Htv; cbn [fst snd]; rewrite ?Hcn; reflexivity.
Qed.

Lemma apply_session_session_id now session self self' :
  wf_session session = true ->
  _apply_session now session self = (OK tt, self') ->
  _session_id self' = _session_id self.
Proof.
  intros Hwf Hrun.
  destruct (apply_session_frame _ _ _ _ Hwf Hrun) as [_ Hid].
  unfold identity_fields in Hid. congruence.
Qed.

(** An update is idempotent on the carried fields, and so is any sequence of
    updates: each one either keeps a field or sets it to a value that does
    not depend on what was there. *)
Lemma carried_after_class (session : dict) :
  ((forall c, fst (fst (carried_after session c)) = fst (fst c))
   \/ (exists x, forall c, fst (fst (carried_after session c)) = x))
  /\ ((forall c, (snd (fst (carried_after session c)), snd (carried_after session c))
                 = (snd (fst c), snd c))
      \/ (forall c, (snd (fst (carried_after session c)), snd (carried_after session c))
                    = (PNone, None))).
Proof.
  unfold carried_after. destruct (is_live session).
  - split; [|left; reflexivity].
    destruct (is_none (py_or (dict_get (as_dict (now_playing session)) "ChannelNumber")
                             (dict_get (as_dict (now_playing session)) "Number"))).
    + left. reflexivity.
    + right.
      exists (Some (py_str (py_or (dict_get (as_dict (now_playing session)) "ChannelNumber")
                                  (dict_get (as_dict (now_playing session)) "Number")))).
      reflexivity.
  - split; right; [exists None|]; reflexivity.
Qed.

Lemma carried_through_class (k : string) (l : list value) :
  ((forall c, fst (fst (carried_through k l c)) = fst (fst c))
   \/ (exists x, forall c, fst (fst (carried_through k l c)) = x))
  /\ ((forall c, (snd (fst (carried_through k l c)), snd (carried_through k l c))
                 = (snd (fst c), snd c))
      \/ (forall c, (snd (fst (carried_through k l c)), snd (carried_through k l c))
                    = (PNone, None))).
Proof.
  induction l as [|s rest IH]; cbn [carried_through].
  - split; left; reflexivity.
  - destruct IH as [IH1 IH2].
    assert (Hstep :
      ((forall c, fst (fst (match s with
                            | PDict d => if bool_decide (session_key s = Some k)
                                         then carried_after d c else c
                            | _ => c end)) = fst (fst c))
       \/ (exists x, forall c, fst (fst (match s with
                            | PDict d => if bool_decide (session_key s = Some k)
                                         then carried_after d c else c
                            | _ => c end)) = x))
      /\ ((forall c, (snd (fst (match s with
                            | PDict d => if bool_decide (session_key s = Some k)
                                         then carried_after d c else c
                            | _ => c end)),
                      snd (match s with
                            | PDict d => if bool_decide (session_key s = Some k)
                                         then carried_after d c else c
                            | _ => c end)) = (snd (fst c), snd c))
          \/ (forall c, (snd (fst (match s with
                            | PDict d => if bool_decide (session_key s = Some k)
                                         then carried_after d c else c
                            | _ => c end)),
                         snd (match s with
                            | PDict d => if bool_decide (session_key s = Some k)
                                         then carried_after d c else c
                            | _ => c end)) = (PNone, None)))).
    { destruct s as [| | | | | |d]; try (split; left; reflexivity).
      destruct (bool_decide (session_key (PDict d) = Some k));
        [apply carried_after_class | split; left; reflexivity]. }
    destruct Hstep as [S1 S2]. split.
    + destruct IH1 as [K | [x C]].
      * destruct S1 as [K' | [x' C']].
        -- left. intros c. rewrite K, K'. reflexivity.
        -- right. exists x'. intros c. rewrite K, C'. reflexivity.
      * right. exists x. intros c. apply C.
    + destruct IH2 as [K | C].
      * destruct S2 as [K' | C'].
        -- left. intros c. rewrite K, K'. reflexivity.
        -- right. intros c. rewrite K, C'. reflexivity.
      * right. intros c. apply C.
Qed.

Lemma carried_through_idem (k : string) (l : list value) c :
  carried_through k l (carried_through k l c) = carried_through k l c.
Proof.
  destruct (carried_through_class k l) as [H1 H2].
  assert (E1 : fst (fst (carried_through k l (carried_through k l c)))
               = fst (fst (carried_through k l c))).
  { destruct H1 as [K | [x C]]; [apply K | rewrite !C; reflexivity]. }
  assert (E2 : (snd (fst (carried_through k l (carried_through k l c))),
                snd (carried_through k l (carried_through k l c)))
               = (snd (fst (carried_through k l c)), snd (carried_through k l c))).
  { destruct H2 as [K | C]; [apply K | rewrite !C; reflexivity]. }
  destruct (carried_through k l (carried_through k l c)) as [[a1 b1] c1].
  destruct (carried_through k l c) as [[a2 b2] c2].
  cbn [fst snd] in *. congruence.
Qed.


(** ** The entries of a session list *)

Lemma apply_session_run now session self :
  wf_session session = true ->
  _apply_session now session self = (OK tt, snd (_apply_session now session self)).
Proof.
  intros Hwf. destruct (apply_session_total now session self Hwf) as [self' E].
  rewrite E. reflexivity.
Qed.

Lemma wf_entry_key (s : value) (k : string) :
  wf_entry s = true -> session_key s = Some k ->
  exists d oid, s = PDict d /\ truthy (session_id_of d) = true
                /\ session_id_of d = PStr k /\ wf_session d = true
                /\ _compute_object_id d = OK oid.
Proof.
  unfold wf_entry, session_key. destruct s as [| | | | | |d]; try discriminate.
  destruct (truthy (session_id_of d)) eqn:Ht; [|discriminate].
  destruct (session_id_of d) as [| | | |k'| |] eqn:Hid; intros Hwf Hk; try discriminate.
  injection Hk as ->.
  apply andb_prop in Hwf as [Hwf Hoid]. apply andb_prop in Hwf as [_ Hwf].
  destruct (_compute_object_id d) as [oid|] eqn:Ho; [|discriminate].
  exists d, oid. rewrite Hid. auto.
Qed.

Lemma wf_entry_no_key (s : value) :
  wf_entry s = true -> session_key s = None ->
  exists d, s = PDict d /\ truthy (session_id_of d) = false.
Proof.
  unfold wf_entry, session_key. destruct s as [| | | | | |d]; try discriminate.
  destruct (truthy (session_id_of d)) eqn:Ht.
  - destruct (session_id_of d) as [| | | |k'| |] eqn:Hid; intros Hwf Hk;
      try discriminate; cbn [is_ok as_str andb] in Hwf; discriminate.
  - intros _ _. exists d. auto.
Qed.

Lemma wf_entry_dict (s : value) : wf_entry s = true -> exists d, s = PDict d.
Proof. destruct s; try discriminate. eauto. Qed.

Lemma init_run now d k oid :
  session_id_of d = PStr k -> wf_session d = true -> _compute_object_id d = OK oid ->
  __init__ now d = OK (snd (_apply_session now d (new_entity k oid))).
Proof.
  intros Hid Hwf Ho. unfold __init__. unfold session_id_of in Hid.
  rewrite Hid, Ho. cbn [as_str].
  rewrite (apply_session_run now d _ Hwf). reflexivity.
Qed.

(** ** The loop of [_sync_entities], one entry at a time *)

Lemma sync_loop_skip now d rest seen new st :
  truthy (session_id_of d) = false ->
  sync_loop now (PDict d :: rest) seen new st = sync_loop now rest seen new st.
Proof.
  unfold session_id_of. intros Ht.
  cbn [sync_loop]. unfold se_bind at 1. cbn [lift attr_get].
  rewrite Ht. reflexivity.
Qed.

Lemma sync_loop_known now d rest seen new st k self :
  truthy (session_id_of d) = true -> session_id_of d = PStr k ->
  entities st !! k = Some self -> wf_session d = true ->
  sync_loop now (PDict d :: rest) seen new st
  = sync_loop now rest ({[k]} ∪ seen) new
      (set_entities (<[k := snd (_apply_session now d self)]> (entities st)) st).
Proof.
  unfold session_id_of. intros Ht Hid Hk Hwf.
  cbn [sync_loop]. unfold se_bind at 1. cbn [lift attr_get].
  rewrite Ht, Hid. cbn [negb as_str].
  unfold se_bind at 1. cbn [lift].
  unfold se_bind at 1. unfold read at 1. rewrite Hk.
  unfold se_bind at 1. unfold on_entity. rewrite Hk.
  rewrite (apply_session_run now d self Hwf). reflexivity.
Qed.

Lemma sync_loop_new now d rest seen new st k ent :
  truthy (session_id_of d) = true -> session_id_of d = PStr k ->
  entities st !! k = None -> __init__ now d = OK ent ->
  sync_loop now (PDict d :: rest) seen new st
  = sync_loop now rest ({[k]} ∪ seen) (new ++ [k])%list
      (set_entities (<[k := ent]> (entities st)) st).
Proof.
  unfold session_id_of. intros Ht Hid Hk Hinit.
  cbn [sync_loop]. unfold se_bind at 1. cbn [lift attr_get].
  rewrite Ht, Hid. cbn [negb as_str].
  unfold se_bind at 1. cbn [lift].
  unfold se_bind at 1. unfold read at 1. rewrite Hk.
  unfold se_bind at 1. cbn [lift]. rewrite Hinit.
  unfold se_bind at 1. unfold assign at 1. reflexivity.
Qed.

Lemma step_entity_other now k s o :
  session_key s <> Some k -> step_entity now k s o = o.
Proof.
  intros Hne. unfold step_entity. destruct s; try reflexivity.
  rewrite bool_decide_eq_false_2 by exact Hne. reflexivity.
Qed.

Lemma step_entity_known now k d self :
  session_key (PDict d) = Some k ->
  step_entity now k (PDict d) (Some self) = Some (snd (_apply_session now d self)).
Proof.
  intros Hk. unfold step_entity. rewrite bool_decide_eq_true_2 by exact Hk. reflexivity.
Qed.

Lemma step_entity_new now k d :
  session_key (PDict d) = Some k ->
  step_entity now k (PDict d) None = result_to_option (__init__ now d).
Proof.
  intros Hk. unfold step_entity. rewrite bool_decide_eq_true_2 by exact Hk. reflexivity.
Qed.

Lemma session_key_of_id d k :
  truthy (session_id_of d) = true -> session_id_of d = PStr k ->
  session_key (PDict d) = Some k.
Proof. intros Ht Hid. unfold session_key. rewrite Ht, Hid. reflexivity. Qed.

Lemma session_key_falsy d :
  truthy (session_id_of d) = false -> session_key (PDict d) = None.
Proof. intros Ht. unfold session_key. rewrite Ht. reflexivity. Qed.

Lemma ids_of_cons_key s rest k :
  session_key s = Some k -> ids_of (s :: rest) = k :: ids_of rest.
Proof. intros H. unfold ids_of. cbn. rewrite H. reflexivity. Qed.

Lemma ids_of_cons_no_key s rest :
  session_key s = None -> ids_of (s :: rest) = ids_of rest.
Proof. intros H. unfold ids_of. cbn. rewrite H. reflexivity. Qed.

Lemma loop_result_eq {A B S : Type} (a a' : A) (b b' : B) (s : S) :
  a = a' -> b = b' -> (OK (a, b), s) = (OK (a', b'), s).
Proof. intros -> ->. reflexivity. Qed.

(** The loop, seen from each key: it ends without raising, the ids seen
    are those of the list, the new objects are the ids without an entity
    at their first occurrence, and the entity under a key went through the
    entries of that key in list order. *)
Lemma sync_loop_spec now (l : list value) :
  forall (seen : gset string) (new : list string) (st : platform),
    Forall (fun s => wf_entry s = true) l ->
    exists st',
      sync_loop now l seen new st
      = (OK (list_to_set (ids_of l) ∪ seen,
             (new ++ fresh_ids l (dom (entities st)))%list), st')
      /\ registered st' = registered st
      /\ forall k, entities st' !! k = entity_after now k l (entities st !! k).
Proof.
  induction l as [|s rest IH]; intros seen new st Hwf.
  - exists st. split; [|split; [reflexivity|intros k; reflexivity]].
    cbn [sync_loop fresh_ids]. unfold se_ret.
    apply loop_result_eq; [set_solver | rewrite app_nil_r; reflexivity].
  - apply Forall_cons in Hwf as [Hs Hrest].
    destruct (session_key s) as [k0|] eqn:Hkey.
    + destruct (wf_entry_key s k0 Hs Hkey) as (d & oid & -> & Ht & Hid & Hwfd & Ho).
      rewrite (ids_of_cons_key _ rest k0 Hkey).
      cbn [fresh_ids entity_after]. rewrite Hkey.
      destruct (entities st !! k0) as [self|] eqn:Hk0.
      * rewrite (sync_loop_known now d rest seen new st k0 self Ht Hid Hk0 Hwfd).
        destruct (IH ({[k0]} ∪ seen) new
                    (set_entities (<[k0 := snd (_apply_session now d self)]> (entities st)) st)
                    Hrest) as (st' & Erun & Ereg & Elook).
        exists st'. split; [|split].
        -- rewrite Erun. cbn [set_entities entities].
           assert (Hin : k0 ∈ dom (entities st)) by (apply elem_of_dom; eauto).
           rewrite bool_decide_eq_true_2 by exact Hin.
           rewrite dom_insert_L.
           replace ({[k0]} ∪ dom (entities st)) with (dom (entities st)) by set_solver.
           apply loop_result_eq; [set_solver | reflexivity].
        -- exact Ereg.
        -- intros k. rewrite Elook. cbn [set_entities entities].
           destruct (decide (k = k0)) as [->|Hne].
           ++ rewrite lookup_insert_eq, Hk0, (step_entity_known now k0 d self Hkey).
              reflexivity.
           ++ rewrite lookup_insert_ne by congruence.
              rewrite step_entity_other by (rewrite Hkey; congruence). reflexivity.
      * pose proof (init_run now d k0 oid Hid Hwfd Ho) as Hinit.
        rewrite (sync_loop_new now d rest seen new st k0 _ Ht Hid Hk0 Hinit).
        destruct (IH ({[k0]} ∪ seen) (new ++ [k0])%list
                    (set_entities
                       (<[k0 := snd (_apply_session now d (new_entity k0 oid))]> (entities st))
                       st)
                    Hrest) as (st' & Erun & Ereg & Elook).
        exists st'. split; [|split].
        -- rewrite Erun. cbn [set_entities entities].
           assert (Hin : k0 ∉ dom (entities st)) by (apply not_elem_of_dom; exact Hk0).
           rewrite bool_decide_eq_false_2 by exact Hin.
           rewrite dom_insert_L, <- app_assoc.
           apply loop_result_eq; [set_solver | reflexivity].
        -- exact Ereg.
        -- intros k. rewrite Elook. cbn [set_entities entities].
           destruct (decide (k = k0)) as [->|Hne].
           ++ rewrite lookup_insert_eq, Hk0, (step_entity_new now k0 d Hkey), Hinit.
              reflexivity.
           ++ rewrite lookup_insert_ne by congruence.
              rewrite step_entity_other by (rewrite Hkey; congruence). reflexivity.
    + destruct (wf_entry_no_key s Hs Hkey) as (d & -> & Ht).
      rewrite (sync_loop_skip now d rest seen new st Ht).
      rewrite (ids_of_cons_no_key _ rest Hkey).
      cbn [fresh_ids entity_after]. rewrite Hkey.
      destruct (IH seen new st Hrest) as (st' & Erun & Ereg & Elook).
      exists st'. split; [|split].
      * exact Erun.
      * exact Ereg.
      * intros k. rewrite Elook.
        rewrite step_entity_other by (rewrite Hkey; discriminate). reflexivity.
Qed.

(** ** One key through a session list *)

Lemma entity_after_not_in now k (l : list value) o :
  k ∉ ids_of l -> entity_after now k l o = o.
Proof.
  revert o. induction l as [|s rest IH]; intros o Hk; [reflexivity|].
  cbn [entity_after].
  destruct (session_key s) as [k0|] eqn:Hkey.
  - rewrite (ids_of_cons_key _ _ _ Hkey) in Hk.
    apply not_elem_of_cons in Hk as [Hne Hk].
    rewrite step_entity_other by (rewrite Hkey; congruence). apply IH, Hk.
  - rewrite (ids_of_cons_no_key _ _ Hkey) in Hk.
    rewrite step_entity_other by (rewrite Hkey; discriminate). apply IH, Hk.
Qed.

(** A step under the key of the entry always leaves an entity. *)
Lemma step_entity_key now k s o :
  wf_entry s = true -> session_key s = Some k ->
  exists d self',
    s = PDict d /\ wf_session d = true /\ step_entity now k s o = Some self'
    /\ _apply_session now d
         (match o with
          | Some self => self
          | None => new_entity k (match _compute_object_id d with OK i => i | Raise _ => "" end)
          end)
       = (OK tt, self').
Proof.
  intros Hs Hkey.
  destruct (wf_entry_key s k Hs Hkey) as (d & oid & -> & Ht & Hid & Hwfd & Ho).
  exists d. destruct o as [self|].
  - exists (snd (_apply_session now d self)).
    rewrite (step_entity_known now k d self Hkey).
    rewrite <- (apply_session_run now d self Hwfd). auto.
  - exists (snd (_apply_session now d (new_entity k oid))).
    rewrite (step_entity_new now k d Hkey), (init_run now d k oid Hid Hwfd Ho), Ho.
    rewrite <- (apply_session_run now d _ Hwfd). auto.
Qed.

Lemma entity_after_is_Some now k (l : list value) o :
  Forall (fun s => wf_entry s = true) l ->
  is_Some (entity_after now k l o) <-> is_Some o \/ k ∈ ids_of l.
Proof.
  revert o. induction l as [|s rest IH]; intros o Hwf.
  - cbn [entity_after]. split; [auto|]. intros [H|H]; [exact H|]. inversion H.
  - apply Forall_cons in Hwf as [Hs Hrest]. cbn [entity_after]. rewrite (IH _ Hrest).
    destruct (session_key s) as [k0|] eqn:Hkey.
    + rewrite (ids_of_cons_key _ _ _ Hkey), elem_of_cons.
      destruct (decide (k = k0)) as [->|Hne].
      * destruct (step_entity_key now k0 s o Hs Hkey) as (d & self' & _ & _ & E & _).
        rewrite E. split; eauto.
      * rewrite step_entity_other by (rewrite Hkey; congruence). tauto.
    + rewrite (ids_of_cons_no_key _ _ Hkey).
      rewrite step_entity_other by (rewrite Hkey; discriminate). tauto.
Qed.

(** A property of the entity that every update keeps, and that holds of a
    new entity, holds after the list. *)
Lemma entity_after_invariant now k (l : list value) (P : entity -> Prop) :
  Forall (fun s => wf_entry s = true) l ->
  (forall d self self', wf_session d = true ->
     _apply_session now d self = (OK tt, self') -> P self -> P self') ->
  (forall oid, P (new_entity k oid)) ->
  forall o self', (forall self, o = Some self -> P self) ->
    entity_after now k l o = Some self' -> P self'.
Proof.
  intros Hwf Hkeep Hnew. induction l as [|s rest IH]; intros o self' Ho.
  - cbn [entity_after]. apply Ho.
  - apply Forall_cons in Hwf as [Hs Hrest]. cbn [entity_after].
    apply (IH Hrest). intros self1.
    destruct (decide (session_key s = Some k)) as [Hkey|Hkey].
    + destruct (step_entity_key now k s o Hs Hkey) as (d & self2 & _ & Hwfd & E & Hrun).
      rewrite E. intros [= <-].
      apply (Hkeep _ _ _ Hwfd Hrun). destruct o as [self|]; [apply Ho; reflexivity|apply Hnew].
    + rewrite step_entity_other by exact Hkey. apply Ho.
Qed.

(** From an entity that exists, the list keeps availability and identity. *)
Lemma entity_after_frame now k (l : list value) self :
  Forall (fun s => wf_entry s = true) l ->
  exists self', entity_after now k l (Some self) = Some self'
    /\ _attr_available self' = _attr_available self
    /\ identity_fields self' = identity_fields self.
Proof.
  intros Hwf. revert self. induction l as [|s rest IH]; intros self.
  - exists self. auto.
  - apply Forall_cons in Hwf as [Hs Hrest]. cbn [entity_after].
    destruct (decide (session_key s = Some k)) as [Hkey|Hkey].
    + destruct (step_entity_key now k s (Some self) Hs Hkey)
        as (d & self1 & _ & Hwfd & E & Hrun).
      rewrite E. destruct (IH Hrest self1) as (self' & E' & Ha & Hi).
      destruct (apply_session_frame _ _ _ _ Hwfd Hrun) as [Ha1 Hi1].
      exists self'. rewrite Ha, Hi, Ha1, Hi1. auto.
    + rewrite step_entity_other by exact Hkey. apply (IH Hrest).
Qed.

(** Two runs over the same list agree on the playback fields of a key the
    list mentions, whatever was there before and whatever the clock says. *)
Lemma entity_after_playback now1 now2 k (l : list value) :
  Forall (fun s => wf_entry s = true) l ->
  forall o1 o2, same_playback o1 o2 \/ k ∈ ids_of l ->
    same_playback (entity_after now1 k l o1) (entity_after now2 k l o2).
Proof.
  intros Hwf. induction l as [|s rest IH]; intros o1 o2 H.
  - destruct H as [H|H]; [exact H|inversion H].
  - apply Forall_cons in Hwf as [Hs Hrest]. cbn [entity_after]. apply (IH Hrest).
    destruct (decide (session_key s = Some k)) as [Hkey|Hkey].
    + left.
      destruct (step_entity_key now1 k s o1 Hs Hkey) as (d & a & Hd & Hwfd & E1 & R1).
      destruct (step_entity_key now2 k s o2 Hs Hkey) as (d' & b & Hd' & _ & E2 & R2).
      rewrite Hd in Hd'. injection Hd' as <-.
      rewrite E1, E2. cbn [same_playback].
      rewrite (apply_session_playback _ _ _ _ Hwfd R1).
      rewrite (apply_session_playback _ _ _ _ Hwfd R2). reflexivity.
    + rewrite !step_entity_other by exact Hkey.
      destruct H as [H|H]; [left; exact H|right].
      destruct (session_key s) as [k0|] eqn:Hk0.
      * rewrite (ids_of_cons_key _ _ _ Hk0) in H.
        apply elem_of_cons in H as [->|H]; [congruence|exact H].
      * rewrite (ids_of_cons_no_key _ _ Hk0) in H. exact H.
Qed.

Lemma step_entity_carried now k s o :
  wf_entry s = true ->
  carried_or_blank (step_entity now k s o)
  = match s with
    | PDict d => if bool_decide (session_key s = Some k)
                 then carried_after d (carried_or_blank o) else carried_or_blank o
    | _ => carried_or_blank o
    end.
Proof.
  intros Hs. destruct (decide (session_key s = Some k)) as [Hkey|Hkey].
  - destruct (step_entity_key now k s o Hs Hkey) as (d & self' & -> & Hwfd & E & Hrun).
    rewrite E, (bool_decide_eq_true_2 _ Hkey). cbn [carried_or_blank].
    rewrite (apply_session_carried _ _ _ _ Hwfd Hrun).
    destruct o; reflexivity.
  - rewrite step_entity_other by exact Hkey.
    destruct s; try reflexivity. rewrite (bool_decide_eq_false_2 _ Hkey). reflexivity.
Qed.

Lemma entity_after_carried now k (l : list value) :
  Forall (fun s => wf_entry s = true) l ->
  forall o, carried_or_blank (entity_after now k l o)
            = carried_through k l (carried_or_blank o).
Proof.
  intros Hwf. induction l as [|s rest IH]; intros o; [reflexivity|].
  apply Forall_cons in Hwf as [Hs Hrest].
  cbn [entity_after carried_through].
  rewrite (IH Hrest), (step_entity_carried now k s o Hs). reflexivity.
Qed.

(** The timestamp of the position, for a key the list mentions. *)
Lemma entity_after_clock now k (l : list value) :
  Forall (fun s => wf_entry s = true) l ->
  forall o, k ∈ ids_of l \/
            (forall self, o = Some self ->
               _position_updated_at self
               = match _position_s self with Some _ => Some now | None => None end) ->
    forall self', entity_after now k l o = Some self' ->
      _position_updated_at self'
      = match _position_s self' with Some _ => Some now | None => None end.
Proof.
  intros Hwf. induction l as [|s rest IH]; intros o H self'.
  - destruct H as [H|H]; [inversion H|]. cbn [entity_after]. apply H.
  - apply Forall_cons in Hwf as [Hs Hrest]. cbn [entity_after]. apply (IH Hrest).
    destruct (decide (session_key s = Some k)) as [Hkey|Hkey].
    + right. intros self1.
      destruct (step_entity_key now k s o Hs Hkey) as (d & a & _ & Hwfd & E & R).
      rewrite E. intros [= <-]. apply (apply_session_clock _ _ _ _ Hwfd R).
    + rewrite step_entity_other by exact Hkey.
      destruct H as [H|H]; [left|right; exact H].
      destruct (session_key s) as [k0|] eqn:Hk0.
      * rewrite (ids_of_cons_key _ _ _ Hk0) in H.
        apply elem_of_cons in H as [->|H]; [congruence|exact H].
      * rewrite (ids_of_cons_no_key _ _ Hk0) in H. exact H.
Qed.

(** ** The ids that get a new entity *)

Lemma fresh_ids_spec (l : list value) :
  forall known k, k ∈ fresh_ids l known <-> k ∈ ids_of l /\ k ∉ known.
Proof.
  induction l as [|s rest IH]; intros known k.
  - cbn [fresh_ids]. split; [intros H; inversion H | intros [H _]; inversion H].
  - cbn [fresh_ids]. destruct (session_key s) as [k0|] eqn:Hkey.
    + rewrite (ids_of_cons_key _ _ _ Hkey), elem_of_cons.
      destruct (bool_decide (k0 ∈ known)) eqn:Hb.
      * apply bool_decide_eq_true_1 in Hb. rewrite IH. split.
        -- intros [H1 H2]. auto.
        -- intros [[->|H1] H2]; [contradiction|auto].
      * apply bool_decide_eq_false_1 in Hb. rewrite elem_of_cons, IH. split.
        -- intros [->|[H1 H2]]; [auto|]. split; [auto|set_solver].
        -- intros [[->|H1] H2]; [auto|].
           destruct (decide (k = k0)) as [->|Hne]; [auto|]. right. split; [exact H1|set_solver].
    + rewrite (ids_of_cons_no_key _ _ Hkey). apply IH.
Qed.

Lemma fresh_ids_NoDup (l : list value) : forall known, NoDup (fresh_ids l known).
Proof.
  induction l as [|s rest IH]; intros known; cbn [fresh_ids]; [constructor|].
  destruct (session_key s) as [k0|]; [|apply IH].
  destruct (bool_decide (k0 ∈ known)); [apply IH|].
  constructor; [|apply IH].
  rewrite fresh_ids_spec. intros [_ H]. set_solver.
Qed.

Lemma fresh_ids_nil (l : list value) (known : gset string) :
  (forall k, k ∈ ids_of l -> k ∈ known) -> fresh_ids l known = [].
Proof.
  intros H. destruct (fresh_ids l known) as [|k r] eqn:E; [reflexivity|].
  assert (Hk : k ∈ fresh_ids l known) by (rewrite E; left).
  apply fresh_ids_spec in Hk as [H1 H2]. destruct (H2 (H k H1)).
Qed.

(** ** [mark_gone] and the second loop *)

Lemma mark_gone_run (self : entity) :
  exists calls,
    mark_gone self = (OK tt, set_host_calls calls (set_attr_available false self)).
Proof.
  unfold mark_gone, async_write_ha_state, se_bind, assign, read, when, se_ret.
  ent_cbn. destruct (hass self); eexists; reflexivity.
Qed.

Lemma mark_gone_fields (self : entity) :
  _attr_available (snd (mark_gone self)) = false
  /\ identity_fields (snd (mark_gone self)) = identity_fields self
  /\ playback_fields (snd (mark_gone self)) = playback_fields self
  /\ carried_fields (snd (mark_gone self)) = carried_fields self
  /\ _position_updated_at (snd (mark_gone self)) = _position_updated_at self.
Proof.
  destruct (mark_gone_run self) as [calls ->]. cbn [snd].
  unfold identity_fields, playback_fields, carried_fields. ent_cbn. auto.
Qed.

Lemma mark_unseen_lookup (seen : gset string) (m : gmap string entity) (k : string) :
  mark_unseen seen m !! k
  = (fun self => if bool_decide (k ∈ seen) then self else snd (mark_gone self)) <$> m !! k.
Proof.
  unfold mark_unseen. rewrite map_lookup_imap. destruct (m !! k); reflexivity.
Qed.

(** ** One pass of [_sync_entities] *)

Lemma sync_entities_spec now data st :
  Forall (fun s => wf_entry s = true) (data_or_empty data) ->
  exists st',
    _sync_entities now data st = (OK tt, st')
    /\ concat (registered st')
       = (concat (registered st)
          ++ fresh_ids (data_or_empty data) (dom (entities st)))%list
    /\ (fresh_ids (data_or_empty data) (dom (entities st)) = [] ->
        registered st' = registered st)
    /\ forall k,
         entities st' !! k
         = (fun self => if bool_decide (k ∈ ids_of (data_or_empty data))
                        then self else snd (mark_gone self))
             <$> entity_after now k (data_or_empty data) (entities st !! k).
Proof.
  intros Hwf.
  destruct (sync_loop_spec now (data_or_empty data) ∅ [] st Hwf)
    as (st1 & Erun & Ereg & Elook).
  assert (Hlook : forall k,
             mark_unseen (list_to_set (ids_of (data_or_empty data)) ∪ ∅) (entities st1) !! k
             = (fun self => if bool_decide (k ∈ ids_of (data_or_empty data))
                            then self else snd (mark_gone self))
                 <$> entity_after now k (data_or_empty data) (entities st !! k)).
  { intros k. rewrite mark_unseen_lookup, Elook.
    assert (Hb : bool_decide
                   (k ∈ (list_to_set (ids_of (data_or_empty data)) ∪ ∅ : gset string))
                 = bool_decide (k ∈ ids_of (data_or_empty data)))
      by (apply bool_decide_ext; set_solver).
    rewrite Hb. reflexivity. }
  unfold _sync_entities. unfold se_bind at 1. rewrite Erun. cbn [fst snd app].
  unfold se_bind, assign, when, se_ret.
  destruct (fresh_ids (data_or_empty data) (dom (entities st))) as [|k0 r] eqn:Ef.
  - eexists. split; [reflexivity|].
    cbn [set_entities registered entities]. rewrite app_nil_r.
    split; [rewrite Ereg; reflexivity|]. split; [intros _; exact Ereg|exact Hlook].
  - eexists. split; [reflexivity|].
    cbn [set_entities set_registered registered entities].
    split; [rewrite Ereg, concat_app; cbn [concat]; rewrite app_nil_r; reflexivity|].
    split; [discriminate|exact Hlook].
Qed.

(** ** The listener of an entity *)

Lemma py_eq_str_key (d : dict) (k : string) :
  k <> "" ->
  py_eq_str (session_id_of d) k = bool_decide (session_key (PDict d) = Some k).
Proof.
  intros Hk. unfold session_key.
  destruct (session_id_of d) as [| | | |t| |];
    try (cbn [py_eq_str]; symmetry; apply bool_decide_eq_false_2;
         destruct (truthy _); discriminate).
  cbn [py_eq_str truthy]. destruct (String.eqb t k) eqn:E.
  - apply String.eqb_eq in E as ->.
    assert (Hne : String.eqb k "" = false) by (apply String.eqb_neq; exact Hk).
    rewrite Hne. cbn [negb]. symmetry. apply bool_decide_eq_true_2. reflexivity.
  - apply String.eqb_neq in E. symmetry. apply bool_decide_eq_false_2.
    destruct (negb (String.eqb t "")); congruence.
Qed.

Lemma first_session_key (k : string) (l : list value) (d : dict) :
  first_session k l = Some d -> session_key (PDict d) = Some k /\ PDict d ∈ l.
Proof.
  induction l as [|s rest IH]; [discriminate|].
  cbn [first_session]. destruct s as [| | | | | |d0];
    try (intros H; destruct (IH H); split; [assumption | right; assumption]).
  destruct (bool_decide (session_key (PDict d0) = Some k)) eqn:Hb.
  - intros [= <-]. apply bool_decide_eq_true_1 in Hb. split; [exact Hb|left].
  - intros H. destruct (IH H). split; [assumption | right; assumption].
Qed.

Lemma first_session_is_Some (k : string) (l : list value) :
  Forall (fun s => wf_entry s = true) l ->
  is_Some (first_session k l) <-> k ∈ ids_of l.
Proof.
  intros Hwf. induction l as [|s rest IH].
  - cbn [first_session]. split; [intros [x H]; discriminate | intros H; inversion H].
  - apply Forall_cons in Hwf as [Hs Hrest].
    destruct (wf_entry_dict s Hs) as [d ->]. cbn [first_session].
    destruct (session_key (PDict d)) as [k0|] eqn:Hkey.
    + rewrite (ids_of_cons_key _ _ _ Hkey), elem_of_cons.
      destruct (decide (k0 = k)) as [->|Hne].
      * rewrite bool_decide_eq_true_2 by reflexivity. split; eauto.
      * rewrite bool_decide_eq_false_2 by congruence. rewrite (IH Hrest).
        split; [auto|]. intros [->|H]; [congruence|exact H].
    + rewrite (ids_of_cons_no_key _ _ Hkey).
      rewrite bool_decide_eq_false_2 by discriminate. apply (IH Hrest).
Qed.

(** The [for ... else] applies the first entry under the entity's id and
    stops there. *)
Lemma find_and_apply_spec now (l : list value) (self : entity) :
  Forall (fun s => wf_entry s = true) l -> _session_id self <> "" ->
  find_and_apply now l self
  = match first_session (_session_id self) l with
    | Some d => (OK true, set_attr_available true (snd (_apply_session now d self)))
    | None => (OK false, self)
    end.
Proof.
  intros Hwf Hk. induction l as [|s rest IH]; [reflexivity|].
  apply Forall_cons in Hwf as [Hs Hrest].
  destruct (wf_entry_dict s Hs) as [d ->].
  cbn [find_and_apply first_session].
  unfold se_bind at 1. cbn [lift attr_get].
  unfold se_bind at 1. unfold read at 1.
  fold (session_id_of d). rewrite (py_eq_str_key d _ Hk).
  destruct (bool_decide (session_key (PDict d) = Some (_session_id self))) eqn:Hb.
  - apply bool_decide_eq_true_1 in Hb.
    destruct (wf_entry_key _ _ Hs Hb) as (d' & oid & [= <-] & _ & _ & Hwfd & _).
    unfold se_bind at 1. rewrite (apply_session_run now d self Hwfd).
    reflexivity.
  - apply (IH Hrest).
Qed.

Lemma handle_coordinator_update_run now data (self : entity) :
  Forall (fun s => wf_entry s = true) (data_or_empty data) -> _session_id self <> "" ->
  _handle_coordinator_update now data self
  = (OK tt,
     match first_session (_session_id self) (data_or_empty data) with
     | Some d =>
         set_host_calls
           (WriteState :: host_calls (snd (_apply_session now d self)))
           (set_attr_available true (snd (_apply_session now d self)))
     | None =>
         set_host_calls (WriteState :: host_calls self) (set_attr_available false self)
     end).
Proof.
  intros Hwf Hk. unfold _handle_coordinator_update. unfold se_bind at 1.
  rewrite (find_and_apply_spec now _ self Hwf Hk).
  destruct (first_session (_session_id self) (data_or_empty data)) as [d|];
    unfold se_bind, when, assign, async_write_ha_state, se_ret; cbn [negb]; reflexivity.
Qed.

Lemma handle_coordinator_update_session_id now data (self : entity) :
  Forall (fun s => wf_entry s = true) (data_or_empty data) -> _session_id self <> "" ->
  _session_id (snd (_handle_coordinator_update now data self)) = _session_id self.
Proof.
  intros Hwf Hk. rewrite (handle_coordinator_update_run now data self Hwf Hk). cbn [snd].
  destruct (first_session (_session_id self) (data_or_empty data)) as [d|] eqn:Hf;
    ent_cbn; [|reflexivity].
  destruct (first_session_key _ _ _ Hf) as [Hkey Hin].
  rewrite Forall_forall in Hwf.
  destruct (wf_entry_key _ _ (Hwf _ Hin) Hkey) as (d' & oid & [= <-] & _ & _ & Hwfd & _).
  apply (apply_session_session_id now d self _ Hwfd (apply_session_run now d self Hwfd)).
Qed.

(** The listeners, one after the other. *)
Lemma run_listeners_spec now data (ks : list string) :
  Forall (fun s => wf_entry s = true) (data_or_empty data) -> NoDup ks ->
  forall st,
    (forall k, k ∈ ks ->
       exists self, entities st !! k = Some self /\ _session_id self <> "") ->
    exists st',
      run_listeners now data ks st = (OK tt, st')
      /\ registered st' = registered st
      /\ forall k,
           entities st' !! k
           = (fun self => if bool_decide (k ∈ ks)
                          then snd (_handle_coordinator_update now data self) else self)
               <$> entities st !! k.
Proof.
  intros Hwf Hnd. induction Hnd as [|k0 rest Hnot Hnd IH]; intros st Hks.
  - exists st. split; [reflexivity|]. split; [reflexivity|]. intros k.
    destruct (entities st !! k); reflexivity.
  - destruct (Hks k0) as (self & Hk0 & Hne); [left|].
    pose proof (handle_coordinator_update_run now data self Hwf Hne) as Hrun.
    cbn [run_listeners]. unfold se_bind at 1. unfold on_entity at 1.
    rewrite Hk0, Hrun.
    destruct (IH (set_entities
                    (<[k0 := snd (_handle_coordinator_update now data self)]> (entities st))
                    st))
      as (st' & Erun & Ereg & Elook).
    { intros k Hk. cbn [set_entities entities].
      rewrite lookup_insert_ne by (intros ->; contradiction).
      apply Hks. right. exact Hk. }
    rewrite Hrun in Erun, Elook. cbn [snd] in Erun, Elook.
    exists st'. split; [exact Erun|]. split; [exact Ereg|].
    intros k. rewrite Elook. cbn [set_entities entities].
    destruct (decide (k = k0)) as [->|Hkk].
    + rewrite lookup_insert_eq, Hk0. cbn [fmap option_fmap option_map].
      rewrite (bool_decide_eq_false_2 _ Hnot).
      rewrite bool_decide_eq_true_2 by left. rewrite Hrun. reflexivity.
    + rewrite lookup_insert_ne by congruence.
      assert (Hb : bool_decide (k ∈ k0 :: rest) = bool_decide (k ∈ rest)).
      { apply bool_decide_ext. rewrite elem_of_cons. split; [intros [->|H]|]; tauto. }
      rewrite Hb. reflexivity.
Qed.

Lemma host_add_entities_lookup (st : platform) (k : string) :
  entities (host_add_entities st) !! k
  = (fun self => if bool_decide (k ∈ concat (registered st))
                 then set_hass true self else self)
      <$> entities st !! k.
Proof.
  unfold host_add_entities. cbn [set_entities entities].
  rewrite map_lookup_imap. destruct (entities st !! k); reflexivity.
Qed.

(** ** The registry *)

Lemma lookup_fmap_Some_inv {A B : Type} (f : A -> B) (o : option A) (b : B) :
  f <$> o = Some b -> exists a, o = Some a /\ b = f a.
Proof. destruct o as [a|]; [intros [= <-]; eauto | discriminate]. Qed.

Lemma new_entity_session_id (k oid : string) : _session_id (new_entity k oid) = k.
Proof. reflexivity. Qed.

Lemma entity_after_session_id now k (l : list value) o self' :
  Forall (fun s => wf_entry s = true) l ->
  (forall self, o = Some self -> _session_id self = k) ->
  entity_after now k l o = Some self' -> _session_id self' = k.
Proof.
  intros Hwf Ho.
  apply (entity_after_invariant now k l (fun e => _session_id e = k) Hwf).
  - intros d self1 self2 Hwfd Hrun <-. apply (apply_session_session_id _ _ _ _ Hwfd Hrun).
  - intros oid. reflexivity.
  - exact Ho.
Qed.

Lemma ids_of_nonempty (l : list value) (k : string) : k ∈ ids_of l -> k <> "".
Proof.
  induction l as [|s rest IH]; [intros H; inversion H|].
  destruct (session_key s) as [k0|] eqn:Hkey.
  - rewrite (ids_of_cons_key _ _ _ Hkey). intros [->|H]%elem_of_cons; [|exact (IH H)].
    unfold session_key in Hkey. destruct s as [| | | | | |d]; try discriminate.
    destruct (truthy (session_id_of d)) eqn:Ht; [|discriminate].
    destruct (session_id_of d) as [| | | |t| |]; try discriminate.
    injection Hkey as ->. intros ->. discriminate.
  - rewrite (ids_of_cons_no_key _ _ Hkey). exact IH.
Qed.

Lemma sync_entities_platform_ok now data st st' :
  Forall (fun s => wf_entry s = true) (data_or_empty data) ->
  platform_ok st ->
  _sync_entities now data st = (OK tt, st') ->
  platform_ok st'.
Proof.
  intros Hwf (Hnd & Hdom & Hsid) Hrun.
  destruct (sync_entities_spec now data st Hwf) as (st1 & Erun & Ereg & _ & Elook).
  rewrite Erun in Hrun. injection Hrun as <-.
  split; [|split].
  - rewrite Ereg. apply NoDup_app. split; [exact Hnd|].
    split; [|apply fresh_ids_NoDup].
    intros k Hk Hf. apply fresh_ids_spec in Hf as [_ Hf]. apply Hf, Hdom, Hk.
  - intros k. rewrite Ereg, elem_of_app, fresh_ids_spec, <- Hdom.
    rewrite !elem_of_dom, Elook, fmap_is_Some, (entity_after_is_Some _ _ _ _ Hwf).
    rewrite <- elem_of_dom.
    destruct (decide (k ∈ dom (entities st))); tauto.
  - intros k self Hk. rewrite Elook in Hk.
    apply lookup_fmap_Some_inv in Hk as (self0 & Hk & ->).
    assert (Hs0 : _session_id self0 = k).
    { apply (entity_after_session_id now k _ _ _ Hwf) in Hk; [exact Hk|].
      intros self1 H1. apply (Hsid _ _ H1). }
    assert (Hne : k <> "").
    { destruct (entities st !! k) as [self1|] eqn:E1; [apply (Hsid _ _ E1)|].
      assert (His : is_Some (entity_after now k (data_or_empty data) None))
        by (rewrite Hk; eauto).
      apply (entity_after_is_Some _ _ _ _ Hwf) in His as [[x Hx]|His]; [discriminate|].
      apply (ids_of_nonempty _ _ His). }
    split; [|exact Hne].
    destruct (bool_decide (k ∈ ids_of (data_or_empty data))); [exact Hs0|].
    destruct (mark_gone_fields self0) as (_ & Hid & _).
    unfold identity_fields in Hid. congruence.
Qed.


(** ** Reconciliation *)

Lemma name_of_playback (a b : entity) :
  playback_fields a = playback_fields b -> name a = name b.
Proof.
  unfold playback_fields, name. intros H. injection H as _ _ _ _ _ _ _ _ _ _ _ Hp Hu _ _ _.
  rewrite Hp, Hu. reflexivity.
Qed.

Lemma position_of_playback (a b : entity) :
  playback_fields a = playback_fields b -> _position_s a = _position_s b.
Proof.
  unfold playback_fields. intros H. injection H as _ _ _ _ _ _ _ _ _ Hp _ _ _ _ _ _.
  exact Hp.
Qed.

Lemma observable_eq (a b : entity) :
  _attr_available a = _attr_available b ->
  identity_fields a = identity_fields b ->
  playback_fields a = playback_fields b ->
  carried_fields a = carried_fields b ->
  observable_but_clock a = observable_but_clock b.
Proof.
  intros Ha Hi Hp Hc. unfold observable_but_clock.
  rewrite Ha, Hi, Hp, Hc, (name_of_playback a b Hp). reflexivity.
Qed.

Lemma sync_entities_ids_known now data st st' :
  Forall (fun s => wf_entry s = true) (data_or_empty data) ->
  _sync_entities now data st = (OK tt, st') ->
  forall k, k ∈ ids_of (data_or_empty data) -> k ∈ dom (entities st').
Proof.
  intros Hwf Hrun k Hk.
  destruct (sync_entities_spec now data st Hwf) as (st1 & Erun & _ & _ & Elook).
  rewrite Erun in Hrun. injection Hrun as <-.
  rewrite elem_of_dom, Elook, fmap_is_Some, (entity_after_is_Some _ _ _ _ Hwf). auto.
Qed.

(** C1. Reconciliation twice over the same list: both passes end without
    raising; the second one hands nothing to the host, so that no id is
    ever handed over twice; it keeps the set of entities; and it leaves
    availability, name, identity, the playback fields and the live-TV fields
    of every entity as the first pass left them. The timestamp of the
    position is the one field read from the clock: it is the same when the
    two passes read the same time or the entity has no position. *)
Theorem sync_entities_twice (now1 now2 : Z) (data : option (list value)) (st : platform) :
  platform_ok st ->
  Forall (fun s => wf_entry s = true) (data_or_empty data) ->
  exists st1 st2,
    _sync_entities now1 data st = (OK tt, st1)
    /\ _sync_entities now2 data st1 = (OK tt, st2)
    /\ registered st2 = registered st1
    /\ NoDup (concat (registered st2))
    /\ dom (entities st2) = dom (entities st1)
    /\ forall k e1, entities st1 !! k = Some e1 ->
         exists e2, entities st2 !! k = Some e2
           /\ observable_but_clock e2 = observable_but_clock e1
           /\ (now1 = now2 \/ _position_s e1 = None ->
               _position_updated_at e2 = _position_updated_at e1).
Proof.
  intros Hok Hwf.
  destruct (sync_entities_spec now1 data st Hwf) as (st1 & Erun1 & _ & _ & Elook1).
  destruct (sync_entities_spec now2 data st1 Hwf) as (st2 & Erun2 & _ & Ereg2 & Elook2).
  pose proof (sync_entities_platform_ok _ _ _ _ Hwf Hok Erun1) as Hok1.
  pose proof (sync_entities_ids_known _ _ _ _ Hwf Erun1) as Hknown.
  specialize (Ereg2 (fresh_ids_nil _ _ Hknown)).
  exists st1, st2. split; [exact Erun1|]. split; [exact Erun2|]. split; [exact Ereg2|].
  split; [rewrite Ereg2; apply Hok1|]. split.
  - apply set_eq. intros k.
    rewrite !elem_of_dom, Elook2, fmap_is_Some, (entity_after_is_Some _ _ _ _ Hwf).
    rewrite <- !elem_of_dom. specialize (Hknown k). tauto.
  - intros k e1 He1. rewrite Elook2, He1.
    pose proof He1 as He1'. rewrite Elook1 in He1'.
    apply lookup_fmap_Some_inv in He1' as (a1 & Ha1 & He1').
    destruct (decide (k ∈ ids_of (data_or_empty data))) as [Hk|Hk].
    + rewrite (bool_decide_eq_true_2 _ Hk) in He1'. subst a1.
      rewrite (bool_decide_eq_true_2 _ Hk).
      destruct (entity_after_frame now2 k _ e1 Hwf) as (e2 & He2 & Hav & Hid).
      rewrite He2. exists e2. split; [reflexivity|].
      pose proof (entity_after_playback now1 now2 k _ Hwf
                    (entities st !! k) (Some e1) (or_intror Hk)) as Hpb.
      rewrite Ha1, He2 in Hpb. cbn [same_playback] in Hpb.
      assert (Hc : carried_fields e2 = carried_fields e1).
      { pose proof (entity_after_carried now2 k _ Hwf (Some e1)) as C2.
        pose proof (entity_after_carried now1 k _ Hwf (entities st !! k)) as C1.
        rewrite He2 in C2. rewrite Ha1 in C1. cbn [carried_or_blank] in C1, C2.
        rewrite C2, C1. apply carried_through_idem. }
      split; [apply observable_eq; auto|].
      pose proof (entity_after_clock now1 k _ Hwf (entities st !! k) (or_introl Hk) e1 Ha1)
        as T1.
      pose proof (entity_after_clock now2 k _ Hwf (Some e1) (or_introl Hk) e2 He2) as T2.
      rewrite T1, T2, <- (position_of_playback _ _ Hpb).
      intros [-> | ->]; reflexivity.
    + rewrite (bool_decide_eq_false_2 _ Hk) in He1'.
      rewrite (bool_decide_eq_false_2 _ Hk), (entity_after_not_in now2 k _ _ Hk).
      cbn [fmap option_fmap option_map]. eexists. split; [reflexivity|].
      destruct (mark_gone_fields e1) as (Hav & Hid & Hpb & Hc & Ht).
      split; [|intros _; exact Ht].
      apply observable_eq; auto.
      rewrite Hav, He1'. destruct (mark_gone_fields a1) as (Hav1 & _). auto.
Qed.

(** ** A coordinator refresh *)

Lemma notify_spec now data st :
  platform_ok st ->
  Forall (fun s => wf_entry s = true) (data_or_empty data) ->
  exists st',
    notify now data st = (OK tt, st')
    /\ concat (registered st')
       = (concat (registered st)
          ++ fresh_ids (data_or_empty data) (dom (entities st)))%list
    /\ forall k,
         entities st' !! k
         = (fun self =>
              set_hass true
                (if bool_decide (k ∈ concat (registered st))
                 then snd (_handle_coordinator_update now data self) else self))
             <$> ((fun self => if bool_decide (k ∈ ids_of (data_or_empty data))
                               then self else snd (mark_gone self))
                    <$> entity_after now k (data_or_empty data) (entities st !! k)).
Proof.
  intros Hok Hwf.
  destruct (sync_entities_spec now data st Hwf) as (st1 & Erun1 & Ereg1 & _ & Elook1).
  pose proof (sync_entities_platform_ok _ _ _ _ Hwf Hok Erun1) as Hok1.
  destruct Hok as (Hnd & Hdom & Hsid). destruct Hok1 as (Hnd1 & Hdom1 & Hsid1).
  destruct (run_listeners_spec now data (concat (registered st)) Hwf Hnd st1)
    as (st2 & Erun2 & Ereg2 & Elook2).
  { intros k Hk.
    assert (His : k ∈ dom (entities st1)).
    { apply Hdom1. rewrite Ereg1. apply elem_of_app. left. exact Hk. }
    apply elem_of_dom in His as [self Hself]. exists self. split; [exact Hself|].
    destruct (Hsid1 _ _ Hself) as [-> Hne]. exact Hne. }
  exists (host_add_entities st2). split; [|split].
  - unfold notify. unfold se_bind at 1. unfold read at 1.
    unfold se_bind at 1. rewrite Erun1.
    unfold se_bind at 1. rewrite Erun2. reflexivity.
  - unfold host_add_entities. cbn [set_entities registered].
    rewrite Ereg2. exact Ereg1.
  - intros k. rewrite host_add_entities_lookup, Elook2, Ereg2, <- Elook1.
    destruct (entities st1 !! k) as [e1|] eqn:He1; [|reflexivity].
    cbn [fmap option_fmap option_map].
    rewrite bool_decide_eq_true_2; [reflexivity|].
    apply Hdom1, elem_of_dom. eauto.
Qed.

Lemma notify_platform_ok now data st st' :
  Forall (fun s => wf_entry s = true) (data_or_empty data) ->
  platform_ok st ->
  notify now data st = (OK tt, st') ->
  platform_ok st'.
Proof.
  intros Hwf Hok Hrun.
  destruct (notify_spec now data st Hok Hwf) as (st2 & Erun & Ereg & Elook).
  rewrite Erun in Hrun. injection Hrun as <-.
  destruct (sync_entities_spec now data st Hwf) as (st1 & Erun1 & Ereg1 & _ & Elook1).
  pose proof (sync_entities_platform_ok _ _ _ _ Hwf Hok Erun1) as (Hnd1 & Hdom1 & Hsid1).
  split; [|split].
  - rewrite Ereg, <- Ereg1. exact Hnd1.
  - intros k. rewrite Ereg, <- Ereg1, <- Hdom1.
    rewrite !elem_of_dom, Elook, <- Elook1, fmap_is_Some. reflexivity.
  - intros k self Hk. rewrite Elook, <- Elook1 in Hk.
    apply lookup_fmap_Some_inv in Hk as (e1 & He1 & ->).
    destruct (Hsid1 _ _ He1) as [Hs1 Hne]. split; [|exact Hne].
    ent_cbn. destruct (bool_decide (k ∈ concat (registered st))); [|exact Hs1].
    rewrite handle_coordinator_update_session_id; [exact Hs1|exact Hwf|].
    rewrite Hs1. exact Hne.
Qed.

(** C2. No silent deletion. An entity whose id is missing from the list of
    a refresh stays in [entities] and with the host; it is unavailable, and
    its identity, playback fields, live-TV fields and position timestamp are
    what they were. When a later refresh lists the id again, the entity
    under that id is available again, with the identity it had, and the id
    is not handed to the host a second time. *)
Theorem no_silent_deletion (now : Z) (data : option (list value)) (st : platform)
    (k : string) (self : entity) :
  platform_ok st ->
  Forall (fun s => wf_entry s = true) (data_or_empty data) ->
  entities st !! k = Some self ->
  k ∉ ids_of (data_or_empty data) ->
  exists st' self',
    notify now data st = (OK tt, st')
    /\ entities st' !! k = Some self'
    /\ k ∈ concat (registered st')
    /\ _attr_available self' = false
    /\ identity_fields self' = identity_fields self
    /\ playback_fields self' = playback_fields self
    /\ carried_fields self' = carried_fields self
    /\ _position_updated_at self' = _position_updated_at self
    /\ forall now2 data2,
         Forall (fun s => wf_entry s = true) (data_or_empty data2) ->
         k ∈ ids_of (data_or_empty data2) ->
         exists st'' self'' added,
           notify now2 data2 st' = (OK tt, st'')
           /\ entities st'' !! k = Some self''
           /\ _attr_available self'' = true
           /\ identity_fields self'' = identity_fields self
           /\ concat (registered st'') = (concat (registered st') ++ added)%list
           /\ (k ∉ added)
           /\ NoDup (concat (registered st'')).
Proof.
  intros Hok Hwf Hself Hk.
  destruct (notify_spec now data st Hok Hwf) as (st' & Erun & Ereg & Elook).
  pose proof (notify_platform_ok _ _ _ _ Hwf Hok Erun) as Hok'.
  assert (Hreg : k ∈ concat (registered st)).
  { destruct Hok as (_ & Hdom & _). apply Hdom, elem_of_dom. eauto. }
  assert (Hne : _session_id self = k /\ k <> "").
  { destruct Hok as (_ & _ & Hsid). apply (Hsid _ _ Hself). }
  destruct Hne as [Hsid Hne].
  pose proof (Elook k) as Ek.
  rewrite (entity_after_not_in now k _ _ Hk), Hself in Ek.
  cbn [fmap option_fmap option_map] in Ek.
  rewrite (bool_decide_eq_false_2 _ Hk), (bool_decide_eq_true_2 _ Hreg) in Ek.
  destruct (mark_gone_fields self) as (Hav0 & Hid0 & Hpb0 & Hc0 & Ht0).
  assert (Hsid0 : _session_id (snd (mark_gone self)) <> "").
  { unfold identity_fields in Hid0. injection Hid0 as -> _ _ _. rewrite Hsid. exact Hne. }
  assert (Hfirst : first_session (_session_id (snd (mark_gone self))) (data_or_empty data)
                   = None).
  { destruct (first_session _ _) as [d|] eqn:Hf; [|reflexivity].
    exfalso. apply Hk. apply (first_session_is_Some _ _ Hwf).
    unfold identity_fields in Hid0. injection Hid0 as Hs _ _ _.
    rewrite <- Hsid, <- Hs, Hf. eauto. }
  rewrite (handle_coordinator_update_run now data _ Hwf Hsid0), Hfirst in Ek.
  cbn [snd] in Ek.
  eexists st', _. split; [exact Erun|]. split; [exact Ek|].
  split; [rewrite Ereg; apply elem_of_app; left; exact Hreg|].
  split; [reflexivity|].
  split; [rewrite <- Hid0; reflexivity|].
  split; [rewrite <- Hpb0; reflexivity|].
  split; [rewrite <- Hc0; reflexivity|].
  split; [rewrite <- Ht0; reflexivity|].
  intros now2 data2 Hwf2 Hk2.
  destruct (notify_spec now2 data2 st' Hok' Hwf2) as (st2 & Erun2 & Ereg2 & Elook2).
  pose proof (notify_platform_ok _ _ _ _ Hwf2 Hok' Erun2) as Hok2.
  assert (Hreg' : k ∈ concat (registered st'))
    by (rewrite Ereg; apply elem_of_app; left; exact Hreg).
  pose proof (Elook2 k) as Ek2. rewrite Ek in Ek2.
  destruct (entity_after_frame now2 k _
              (set_hass true
                 (set_host_calls (WriteState :: host_calls (snd (mark_gone self)))
                    (set_attr_available false (snd (mark_gone self))))) Hwf2)
    as (e2 & He2 & _ & Hid2).
  rewrite He2 in Ek2. cbn [fmap option_fmap option_map] in Ek2.
  rewrite (bool_decide_eq_true_2 _ Hk2), (bool_decide_eq_true_2 _ Hreg') in Ek2.
  assert (Hs2 : _session_id e2 = k).
  { unfold identity_fields in Hid2, Hid0. injection Hid2 as -> _ _ _.
    injection Hid0 as Hs _ _ _. ent_cbn. rewrite Hs. exact Hsid. }
  assert (Hne2 : _session_id e2 <> "") by (rewrite Hs2; exact Hne).
  destruct (first_session (_session_id e2) (data_or_empty data2)) as [d|] eqn:Hf.
  2:{ exfalso.
      assert (His : is_Some (first_session k (data_or_empty data2)))
        by (apply (first_session_is_Some _ _ Hwf2); exact Hk2).
      rewrite <- Hs2, Hf in His. destruct His as [x Hx]. discriminate. }
  rewrite (handle_coordinator_update_run now2 data2 e2 Hwf2 Hne2), Hf in Ek2.
  cbn [snd] in Ek2.
  destruct (first_session_key _ _ _ Hf) as [Hkey Hin].
  rewrite Forall_forall in Hwf2.
  destruct (wf_entry_key _ _ (Hwf2 _ Hin) Hkey) as (d' & oid & [= <-] & _ & _ & Hwfd & _).
  destruct (apply_session_frame now2 d e2 _ Hwfd (apply_session_run now2 d e2 Hwfd))
    as [_ Hid3].
  eexists st2, _, _. split; [exact Erun2|]. split; [exact Ek2|].
  split; [reflexivity|].
  split.
  { transitivity (identity_fields (snd (_apply_session now2 d e2))); [reflexivity|].
    rewrite Hid3, Hid2. rewrite <- Hid0. reflexivity. }
  split; [exact Ereg2|].
  split; [|apply Hok2].
  rewrite fresh_ids_spec. intros [_ Hnot]. apply Hnot.
  destruct Hok' as (_ & Hdom' & _). apply Hdom'. exact Hreg'.
Qed.


(** ** Item types *)

Lemma lower_ascii_idem (c : ascii) : lower_ascii (lower_ascii c) = lower_ascii c.
Proof. destruct c as [[] [] [] [] [] [] [] []]; reflexivity. Qed.

Lemma lower_idem (s : string) : lower (lower s) = lower s.
Proof.
  induction s as [|c s IH]; [reflexivity|].
  cbn [lower]. rewrite lower_ascii_idem, IH. reflexivity.
Qed.

Lemma lower_empty (s : string) : lower s = "" <-> s = "".
Proof. destruct s; cbn [lower]; split; intros H; try reflexivity; discriminate. Qed.

Lemma eqb_empty_false (s : string) : s <> "" -> String.eqb s "" = false.
Proof. intros H. apply String.eqb_neq. exact H. Qed.

(** The content type of a string that is already in lower case. *)
Lemma content_type_of_lower (s : string) :
  s <> "" -> lower s = s ->
  _content_type_from_item_type (PStr s)
  = OK (Some (if String.eqb s "episode" then "tvshow"
              else if String.eqb s "movie" then "movie"
              else if (String.eqb s "audio" || String.eqb s "audiofile"
                       || String.eqb s "music" || String.eqb s "musicvideo")%bool
                   then "music"
              else if (String.eqb s "livetvchannel" || String.eqb s "tvchannel"
                       || String.eqb s "program")%bool
                   then "tvchannel"
              else s)).
Proof.
  intros Hne Hl. unfold _content_type_from_item_type. cbn [truthy].
  rewrite (eqb_empty_false s Hne), Hl. cbn [negb].
  destruct (String.eqb s "episode"); [reflexivity|].
  destruct (String.eqb s "movie"); [reflexivity|].
  destruct (String.eqb s "audio" || String.eqb s "audiofile"
            || String.eqb s "music" || String.eqb s "musicvideo")%bool; [reflexivity|].
  destruct (String.eqb s "livetvchannel" || String.eqb s "tvchannel"
            || String.eqb s "program")%bool; reflexivity.
Qed.

Lemma content_type_case (s : string) :
  _content_type_from_item_type (PStr s) = _content_type_from_item_type (PStr (lower s)).
Proof.
  destruct (String.eqb s "") eqn:Es.
  - apply String.eqb_eq in Es as ->. reflexivity.
  - apply String.eqb_neq in Es.
    assert (Hl : lower s <> "") by (rewrite lower_empty; exact Es).
    unfold _content_type_from_item_type. cbn [truthy].
    rewrite (eqb_empty_false s Es), (eqb_empty_false _ Hl), lower_idem. reflexivity.
Qed.

(** The classification of item types, on strings of ASCII characters: it
    never raises on a string, it gives [None] for the empty string only, it
    does not look at the case of the letters, its answers are fixed points
    (classifying an answer gives the answer back), and the answer is
    "tvchannel" exactly for the three live-TV item types. *)
Theorem content_type_normal_form (s : string) :
  ascii_only s = true ->
  exists t,
    _content_type_from_item_type (PStr s) = OK t
    /\ (t = None <-> s = "")
    /\ _content_type_from_item_type (PStr (lower s)) = OK t
    /\ (forall c, t = Some c -> _content_type_from_item_type (PStr c) = OK (Some c))
    /\ (t = Some "tvchannel"
        <-> lower s = "livetvchannel" \/ lower s = "tvchannel" \/ lower s = "program").
Proof.
  intros _. destruct (String.eqb s "") eqn:Es.
  - apply String.eqb_eq in Es as ->. exists None.
    split; [reflexivity|]. split; [tauto|]. split; [reflexivity|].
    split; [discriminate|]. cbn [lower]. split; [discriminate|].
    intros [H|[H|H]]; discriminate.
  - apply String.eqb_neq in Es.
    assert (Hl : lower s <> "") by (rewrite lower_empty; exact Es).
    rewrite (content_type_case s), (content_type_of_lower _ Hl (lower_idem s)).
    set (it := lower s) in *.
    eexists. split; [reflexivity|]. split; [split; [discriminate|contradiction]|].
    split; [reflexivity|].
    destruct (String.eqb it "episode") eqn:E1.
    { apply String.eqb_eq in E1. rewrite E1. split.
      - intros c [= <-]. reflexivity.
      - split; [discriminate|]. intros [H|[H|H]]; discriminate. }
    destruct (String.eqb it "movie") eqn:E2.
    { apply String.eqb_eq in E2. rewrite E2. split.
      - intros c [= <-]. reflexivity.
      - split; [discriminate|]. intros [H|[H|H]]; discriminate. }
    destruct (String.eqb it "audio" || String.eqb it "audiofile"
              || String.eqb it "music" || String.eqb it "musicvideo")%bool eqn:E3.
    { split.
      - intros c [= <-]. reflexivity.
      - split; [discriminate|].
        intros [H|[H|H]]; rewrite H in E3; discriminate. }
    destruct (String.eqb it "livetvchannel" || String.eqb it "tvchannel"
              || String.eqb it "program")%bool eqn:E4.
    { split.
      - intros c [= <-]. reflexivity.
      - split; [intros _|reflexivity].
        apply orb_prop in E4 as [E4|E4]; [apply orb_prop in E4 as [E4|E4]|];
          apply String.eqb_eq in E4; auto. }
    split.
    + intros c [= <-]. fold it.
      rewrite (content_type_of_lower it Hl (lower_idem s)), E1, E2, E3, E4. reflexivity.
    + split.
      * intros [= H]. rewrite H in E4. discriminate.
      * intros [H|[H|H]]; rewrite H in E4; discriminate.
Qed.

(** ** Object ids *)



(** ** More on one update *)

Lemma content_type_raises (v : value) (x : exn) :
  _content_type_from_item_type v = Raise x -> x = AttributeError.
Proof.
  unfold _content_type_from_item_type. destruct (negb (truthy v)); [discriminate|].
  destruct v; try (intros [= <-]; reflexivity).
  repeat match goal with |- context [if ?b then _ else _] => destruct b end; discriminate.
Qed.

Lemma ticks_to_seconds_raises (v : value) (x : exn) :
  _ticks_to_seconds v = Raise x -> x = OverflowError.
Proof.
  unfold _ticks_to_seconds, py_float, float_of_int.
  destruct v as [|b|z|f|s|l|d]; cbn [isinstance_int_float negb]; try discriminate.
  - destruct b; vm_compute; discriminate.
  - destruct (binary_normalize 53 1024 z 0 false); try discriminate.
    intros [= <-]. reflexivity.
Qed.

(** When [_apply_session] raises, and what it leaves behind then. *)
Lemma apply_session_not_wf now session self :
  wf_session session = false ->
  (fst (_apply_session now session self) = Raise AttributeError
   \/ fst (_apply_session now session self) = Raise OverflowError)
  /\ _attr_available (snd (_apply_session now session self)) = _attr_available self
  /\ identity_fields (snd (_apply_session now session self)) = identity_fields self
  /\ host_calls (snd (_apply_session now session self)) = host_calls self
  /\ _name_prefix (snd (_apply_session now session self))
     = py_or (py_or (dict_get session "DeviceName") (dict_get session "Client"))
             (PStr "Emby Client").
Proof.
  unfold wf_session, identity_fields. intros Hwf. unfold _apply_session.
  destruct (now_playing session) as [| | | | | |npd] eqn:Hnp;
    try (se_cbn; split; [left; reflexivity|]; repeat split; reflexivity).
  cbn [isinstance_dict as_dict andb] in Hwf.
  destruct (_content_type_from_item_type (dict_get npd "Type")) as [ct|x] eqn:Hct;
    [|apply content_type_raises in Hct as Hx; subst x;
      se_cbn; rewrite Hct; se_cbn; split; [left; reflexivity|]; repeat split; reflexivity].
  destruct (_ticks_to_seconds (dict_get npd "RunTimeTicks")) as [dur|x] eqn:Hdur;
    [|apply ticks_to_seconds_raises in Hdur as Hx; subst x;
      se_cbn; rewrite Hct; se_cbn; rewrite Hdur; se_cbn;
      split; [right; reflexivity|]; repeat split; reflexivity].
  destruct (play_state session) as [| | | | | |psd] eqn:Hps;
    try (se_cbn; rewrite Hct; se_cbn; rewrite Hdur; se_cbn;
         split; [left; reflexivity|]; repeat split; reflexivity).
  cbn [isinstance_dict as_dict andb is_ok] in Hwf.
  destruct (_ticks_to_seconds (dict_get psd "PositionTicks")) as [pos|x] eqn:Hpos;
    [discriminate Hwf|].
  apply ticks_to_seconds_raises in Hpos as Hx; subst x.
  se_cbn. rewrite Hct. se_cbn. rewrite Hdur. se_cbn. rewrite Hpos. se_cbn.
  split; [right; reflexivity|]. repeat split; reflexivity.
Qed.

Lemma apply_session_ok_wf now session self self' :
  _apply_session now session self = (OK tt, self') -> wf_session session = true.
Proof.
  intros H. destruct (wf_session session) eqn:Hwf; [reflexivity|].
  destruct (apply_session_not_wf now session self Hwf) as [[F | F] _];
    rewrite H in F; discriminate F.
Qed.

(** [_apply_session] raises exactly on a session that is not well formed: a
    now-playing item or a play state that is truthy and no object, an item
    type that is truthy and no string, or a tick count that is an int beyond
    the range of a float. The exception is an [AttributeError], or the
    [OverflowError] of the conversion; the entity keeps its availability
    and identity and has published nothing, but it already carries the new
    name prefix. *)
Theorem apply_session_raises_iff (now : Z) (session : dict) (self : entity) :
  (fst (_apply_session now session self) = OK tt <-> wf_session session = true)
  /\ (wf_session session = false ->
      (fst (_apply_session now session self) = Raise AttributeError
       \/ fst (_apply_session now session self) = Raise OverflowError)
      /\ _attr_available (snd (_apply_session now session self)) = _attr_available self
      /\ identity_fields (snd (_apply_session now session self)) = identity_fields self
      /\ host_calls (snd (_apply_session now session self)) = host_calls self
      /\ _name_prefix (snd (_apply_session now session self))
         = py_or (py_or (dict_get session "DeviceName") (dict_get session "Client"))
                 (PStr "Emby Client")).
Proof.
  split; [|apply apply_session_not_wf]. split.
  - intros H. destruct (_apply_session now session self) as [[[]|x] s'] eqn:E;
      [|discriminate H]. exact (apply_session_ok_wf _ _ _ _ E).
  - intros Hwf. rewrite (apply_session_run now session self Hwf). reflexivity.
Qed.

Lemma apply_session_names now session self self' :
  wf_session session = true ->
  _apply_session now session self = (OK tt, self') ->
  _name_prefix self'
  = py_or (py_or (dict_get session "DeviceName") (dict_get session "Client"))
          (PStr "Emby Client")
  /\ _user self' = dict_get session "UserName"
  /\ _media_title self' = dict_get (as_dict (now_playing session)) "Name"
  /\ OK (_position_s self')
     = _ticks_to_seconds (dict_get (as_dict (play_state session)) "PositionTicks").
Proof.
  intros Hwf.
  run_apply_session Hwf; intros [= <-]; cbn [as_dict]; ent_cbn; repeat split; reflexivity.
Qed.

Lemma py_or_truthy (a b : value) : truthy b = true -> truthy (py_or a b) = true.
Proof. intros Hb. unfold py_or. destruct (truthy a) eqn:E; [exact E|exact Hb]. Qed.

Lemma append_paren_nonempty (a b : string) : a +:+ " (" +:+ b <> "".
Proof. destruct a; simpl; discriminate. Qed.

(** After an update the display name is never empty: the prefix falls back
    to "Emby Client", and a user, when there is one, is put after it in
    brackets. *)
Theorem name_never_empty (now : Z) (session : dict) (self : entity) :
  wf_session session = true ->
  truthy (name (snd (_apply_session now session self))) = true
  /\ (truthy (dict_get session "UserName") = false ->
      name (snd (_apply_session now session self))
      = py_or (py_or (dict_get session "DeviceName") (dict_get session "Client"))
              (PStr "Emby Client")).
Proof.
  intros Hwf.
  destruct (apply_session_names now session self _ Hwf (apply_session_run now session self Hwf))
    as (Hp & Hu & _).
  unfold name. rewrite Hp, Hu. split.
  - destruct (truthy (dict_get session "UserName")).
    + cbn [truthy]. rewrite (eqb_empty_false _ (append_paren_nonempty _ _)). reflexivity.
    + apply py_or_truthy. reflexivity.
  - intros ->. reflexivity.
Qed.

(** The title the host shows: on live TV it is hidden, otherwise it is the
    name of the now-playing item. *)
Theorem media_title_hidden_on_live_tv (now : Z) (session : dict) (self : entity) :
  wf_session session = true ->
  media_title (snd (_apply_session now session self))
  = if is_live session then PNone
    else dict_get (as_dict (now_playing session)) "Name".
Proof.
  intros Hwf.
  pose proof (apply_session_run now session self Hwf) as Hrun.
  pose proof (apply_session_content_type now session self _ Hwf Hrun) as Hct.
  destruct (apply_session_names now session self _ Hwf Hrun) as (_ & _ & Ht & _).
  unfold media_title, is_live. rewrite Hct, Ht. reflexivity.
Qed.

(** The playback snapshot is replaced wholesale: whatever the entity held
    before, the playback fields and the timestamp of the position after an
    update are those the session and the clock give; and the timestamp is
    set exactly when the session carries a numeric position. *)
Theorem snapshot_replaced_wholesale (now : Z) (session : dict) (self1 self2 : entity) :
  wf_session session = true ->
  playback_fields (snd (_apply_session now session self1))
  = playback_fields (snd (_apply_session now session self2))
  /\ _position_updated_at (snd (_apply_session now session self1))
     = _position_updated_at (snd (_apply_session now session self2))
  /\ _position_updated_at (snd (_apply_session now session self1))
     = if isinstance_int_float (dict_get (as_dict (play_state session)) "PositionTicks")
       then Some now else None.
Proof.
  intros Hwf.
  pose proof (apply_session_run now session self1 Hwf) as R1.
  pose proof (apply_session_run now session self2 Hwf) as R2.
  pose proof (apply_session_playback _ _ _ _ Hwf R1) as P1.
  pose proof (apply_session_playback _ _ _ _ Hwf R2) as P2.
  pose proof (apply_session_clock _ _ _ _ Hwf R1) as C1.
  pose proof (apply_session_clock _ _ _ _ Hwf R2) as C2.
  destruct (apply_session_names _ _ _ _ Hwf R1) as (_ & _ & _ & S1).
  assert (Hpb : playback_fields (snd (_apply_session now session self1))
                = playback_fields (snd (_apply_session now session self2)))
    by (rewrite P1, P2; reflexivity).
  split; [exact Hpb|]. split.
  - rewrite C1, C2, (position_of_playback _ _ Hpb). reflexivity.
  - rewrite C1. unfold _ticks_to_seconds in S1.
    destruct (isinstance_int_float _); cbn [negb] in S1.
    + destruct (py_float _); [injection S1 as ->; reflexivity | discriminate S1].
    + injection S1 as ->. reflexivity.
Qed.

(** ** The constructor *)





(** ** The listener, entry by entry *)

Lemma apply_session_state_writes now session self self' :
  wf_session session = true ->
  _apply_session now session self = (OK tt, self') ->
  state_writes self' = state_writes self.
Proof.
  intros Hwf. unfold state_writes.
  run_apply_session Hwf; intros [= <-]; ent_cbn; reflexivity.
Qed.

(** [_handle_coordinator_update] on a list of well-formed entries: it
    publishes the state once and keeps the identity; when the list has an
    entry under the id of the entity, the entity is available and holds the
    snapshot of the first such entry, whatever comes after it; when it has
    none, the entity is unavailable and its snapshot is left as it was. *)
Theorem listener_applies_first_entry (now : Z) (data : option (list value))
    (self : entity) :
  Forall (fun s => wf_entry s = true) (data_or_empty data) ->
  _session_id self <> "" ->
  exists self',
    _handle_coordinator_update now data self = (OK tt, self')
    /\ state_writes self' = S (state_writes self)
    /\ identity_fields self' = identity_fields self
    /\ (is_Some (first_session (_session_id self) (data_or_empty data))
        <-> _session_id self ∈ ids_of (data_or_empty data))
    /\ match first_session (_session_id self) (data_or_empty data) with
       | Some d =>
           _attr_available self' = true
           /\ playback_fields self' = playback_fields (snd (_apply_session now d self))
           /\ carried_fields self' = carried_after d (carried_fields self)
       | None =>
           _attr_available self' = false
           /\ playback_fields self' = playback_fields self
           /\ carried_fields self' = carried_fields self
           /\ _position_updated_at self' = _position_updated_at self
       end.
Proof.
  intros Hwf Hne.
  rewrite (handle_coordinator_update_run now data self Hwf Hne).
  eexists. split; [reflexivity|].
  pose proof (first_session_is_Some (_session_id self) _ Hwf) as Hsome.
  destruct (first_session (_session_id self) (data_or_empty data)) as [d|] eqn:Hf.
  - destruct (first_session_key _ _ _ Hf) as [Hkey Hin].
    pose proof Hwf as Hwf'. rewrite Forall_forall in Hwf'.
    destruct (wf_entry_key _ _ (Hwf' _ Hin) Hkey) as (d' & oid & [= <-] & _ & _ & Hwfd & _).
    pose proof (apply_session_run now d self Hwfd) as Hrun.
    destruct (apply_session_frame _ _ _ _ Hwfd Hrun) as [_ Hid].
    split.
    { unfold state_writes. ent_cbn. cbn [state_writes_of]. f_equal.
      apply (apply_session_state_writes _ _ _ _ Hwfd Hrun). }
    split; [rewrite <- Hid; reflexivity|]. split; [exact Hsome|].
    split; [reflexivity|]. split; [reflexivity|].
    rewrite <- (apply_session_carried _ _ _ _ Hwfd Hrun). reflexivity.
  - split; [reflexivity|]. split; [reflexivity|]. split; [exact Hsome|].
    repeat split; reflexivity.
Qed.

(** ** The last entry of an id *)

Lemma last_session_None (k : string) (l : list value) :
  Forall (fun s => wf_entry s = true) l ->
  last_session k l = None -> k ∉ ids_of l.
Proof.
  intros Hwf. induction l as [|s rest IH]; [intros _ H; inversion H|].
  apply Forall_cons in Hwf as [Hs Hrest]. cbn [last_session].
  destruct (last_session k rest) as [d|]; [discriminate|].
  destruct (wf_entry_dict s Hs) as [d ->].
  destruct (session_key (PDict d)) as [k0|] eqn:Hkey.
  - rewrite (ids_of_cons_key _ _ _ Hkey).
    destruct (bool_decide (Some k0 = Some k)) eqn:Hb; [discriminate|].
    apply bool_decide_eq_false_1 in Hb. intros _ [->|H]%elem_of_cons; [congruence|].
    apply (IH Hrest eq_refl H).
  - rewrite (ids_of_cons_no_key _ _ Hkey). intros _. apply (IH Hrest eq_refl).
Qed.

Lemma last_session_not_in (k : string) (l : list value) :
  k ∉ ids_of l -> last_session k l = None.
Proof.
  induction l as [|s rest IH]; intros H; [reflexivity|]. cbn [last_session].
  destruct (session_key s) as [k0|] eqn:Hkey.
  - rewrite (ids_of_cons_key _ _ _ Hkey) in H. apply not_elem_of_cons in H as [Hne H].
    rewrite (IH H).
    destruct s; try reflexivity; rewrite bool_decide_eq_false_2 by congruence; reflexivity.
  - rewrite (ids_of_cons_no_key _ _ Hkey) in H.
    rewrite (IH H).
    destruct s; try reflexivity; rewrite bool_decide_eq_false_2 by discriminate; reflexivity.
Qed.

Lemma last_session_in_ids (k : string) (l : list value) (d : dict) :
  last_session k l = Some d -> k ∈ ids_of l.
Proof.
  intros Hlast. destruct (decide (k ∈ ids_of l)) as [H|H]; [exact H|].
  rewrite (last_session_not_in k l H) in Hlast. discriminate.
Qed.

Lemma entity_after_last now k (l : list value) (d : dict) :
  Forall (fun s => wf_entry s = true) l ->
  last_session k l = Some d ->
  forall o, exists self0 self',
    entity_after now k l o = Some self'
    /\ wf_session d = true
    /\ _apply_session now d self0 = (OK tt, self').
Proof.
  intros Hwf. induction l as [|s rest IH]; [discriminate|].
  apply Forall_cons in Hwf as [Hs Hrest]. cbn [last_session entity_after].
  destruct (last_session k rest) as [d'|] eqn:Hl.
  - intros [= ->] o. apply (IH Hrest eq_refl).
  - destruct (wf_entry_dict s Hs) as [d0 ->].
    destruct (bool_decide (session_key (PDict d0) = Some k)) eqn:Hb; [|discriminate].
    apply bool_decide_eq_true_1 in Hb. intros [= ->] o.
    rewrite (entity_after_not_in now k rest _ (last_session_None k rest Hrest Hl)).
    destruct (step_entity_key now k (PDict d) o Hs Hb) as (d1 & self' & [= <-] & Hwfd & E & R).
    eexists _, self'. split; [exact E|]. split; [exact Hwfd|exact R].
Qed.

(** One pass of [_sync_entities] over a list that names an id more than
    once: the entity under the id ends with the snapshot of the last entry
    of that id (its playback fields and the timestamp of the position are
    those the constructor gives for that entry alone). *)
Theorem sync_last_entry_wins (now : Z) (data : option (list value)) (st : platform)
    (k : string) (d : dict) :
  Forall (fun s => wf_entry s = true) (data_or_empty data) ->
  last_session k (data_or_empty data) = Some d ->
  exists st' self',
    _sync_entities now data st = (OK tt, st')
    /\ entities st' !! k = Some self'
    /\ playback_fields self'
       = playback_fields (snd (_apply_session now d (new_entity "" "")))
    /\ _position_updated_at self'
       = _position_updated_at (snd (_apply_session now d (new_entity "" ""))).
Proof.
  intros Hwf Hlast.
  destruct (sync_entities_spec now data st Hwf) as (st' & Erun & _ & _ & Elook).
  destruct (entity_after_last now k _ d Hwf Hlast (entities st !! k))
    as (self0 & self' & Hafter & Hwfd & Hrun).
  pose proof (last_session_in_ids k _ d Hlast) as Hk.
  exists st', self'. split; [exact Erun|].
  split; [rewrite Elook, Hafter; cbn [fmap option_fmap option_map];
          rewrite (bool_decide_eq_true_2 _ Hk); reflexivity|].
  pose proof (apply_session_run now d (new_entity "" "") Hwfd) as Hrun0.
  split.
  - rewrite (apply_session_playback _ _ _ _ Hwfd Hrun).
    rewrite (apply_session_playback _ _ _ _ Hwfd Hrun0). reflexivity.
  - rewrite (apply_session_clock _ _ _ _ Hwfd Hrun).
    rewrite (apply_session_clock _ _ _ _ Hwfd Hrun0).
    pose proof (apply_session_playback _ _ _ _ Hwfd Hrun) as P1.
    pose proof (apply_session_playback _ _ _ _ Hwfd Hrun0) as P2.
    rewrite <- P2 in P1. rewrite (position_of_playback _ _ P1). reflexivity.
Qed.


(** ** Setup and the refreshes after it *)

(** Every entity is attached to the host. *)
Lemma host_add_entities_attached (st : platform) :
  (forall k, k ∈ dom (entities st) -> k ∈ concat (registered st)) ->
  forall k self, entities (host_add_entities st) !! k = Some self -> hass self = true.
Proof.
  intros Hdom k self Hk. rewrite host_add_entities_lookup in Hk.
  apply lookup_fmap_Some_inv in Hk as (e & He & ->).
  rewrite bool_decide_eq_true_2; [reflexivity|].
  apply Hdom, elem_of_dom. eauto.
Qed.

Lemma async_setup_entry_spec now data st :
  platform_ok st ->
  Forall (fun s => wf_entry s = true) (data_or_empty data) ->
  exists st',
    async_setup_entry now data st = (OK tt, st')
    /\ platform_ok st'
    /\ dom (entities st') = dom (entities st) ∪ list_to_set (ids_of (data_or_empty data))
    /\ forall k self, entities st' !! k = Some self -> hass self = true.
Proof.
  intros Hok Hwf.
  destruct (sync_entities_spec now data st Hwf) as (st1 & Erun & Ereg & _ & Elook).
  pose proof (sync_entities_platform_ok _ _ _ _ Hwf Hok Erun) as (Hnd1 & Hdom1 & Hsid1).
  exists (host_add_entities st1).
  split; [unfold async_setup_entry, se_bind, assign; rewrite Erun; reflexivity|].
  assert (Hd : forall k, k ∈ dom (entities (host_add_entities st1))
                         <-> k ∈ dom (entities st1)).
  { intros k. rewrite !elem_of_dom, host_add_entities_lookup, fmap_is_Some. reflexivity. }
  split; [|split].
  - split; [exact Hnd1|]. split.
    + intros k. rewrite Hd. apply Hdom1.
    + intros k self Hk. rewrite host_add_entities_lookup in Hk.
      apply lookup_fmap_Some_inv in Hk as (e & He & ->).
      destruct (Hsid1 _ _ He) as [Hs Hne]. split; [|exact Hne].
      destruct (bool_decide (k ∈ concat (registered st1))); exact Hs.
  - apply set_eq. intros k. rewrite Hd, elem_of_union, elem_of_list_to_set.
    rewrite !elem_of_dom, Elook, fmap_is_Some, (entity_after_is_Some _ _ _ _ Hwf).
    reflexivity.
  - apply host_add_entities_attached. intros k Hk. apply Hdom1, Hk.
Qed.

Lemma notify_dom now data st st' :
  platform_ok st ->
  Forall (fun s => wf_entry s = true) (data_or_empty data) ->
  notify now data st = (OK tt, st') ->
  dom (entities st') = dom (entities st) ∪ list_to_set (ids_of (data_or_empty data))
  /\ forall k self, entities st' !! k = Some self -> hass self = true.
Proof.
  intros Hok Hwf Hrun.
  destruct (notify_spec now data st Hok Hwf) as (st2 & Erun & _ & Elook).
  rewrite Erun in Hrun. injection Hrun as <-. split.
  - apply set_eq. intros k. rewrite elem_of_union, elem_of_list_to_set.
    rewrite !elem_of_dom, Elook, !fmap_is_Some, (entity_after_is_Some _ _ _ _ Hwf).
    reflexivity.
  - intros k self Hk. rewrite Elook in Hk.
    apply lookup_fmap_Some_inv in Hk as (e & _ & ->). reflexivity.
Qed.

Lemma run_refreshes_spec (polls : list (Z * option (list value))) :
  Forall (fun p => Forall (fun s => wf_entry s = true) (data_or_empty (snd p))) polls ->
  forall st,
    platform_ok st ->
    (forall k self, entities st !! k = Some self -> hass self = true) ->
    exists st',
      run_refreshes polls st = (OK tt, st')
      /\ platform_ok st'
      /\ dom (entities st') = dom (entities st) ∪ list_to_set (ids_of_polls polls)
      /\ forall k self, entities st' !! k = Some self -> hass self = true.
Proof.
  induction polls as [|[now data] rest IH]; intros Hwf st Hok Hh.
  - exists st. split; [reflexivity|]. split; [exact Hok|]. split; [|exact Hh].
    unfold ids_of_polls. cbn [map concat list_to_set]. set_solver.
  - apply Forall_cons in Hwf as [Hwf1 Hrest]. cbn [snd] in Hwf1.
    destruct (notify_spec now data st Hok Hwf1) as (st1 & Erun & _ & _).
    pose proof (notify_platform_ok _ _ _ _ Hwf1 Hok Erun) as Hok1.
    destruct (notify_dom _ _ _ _ Hok Hwf1 Erun) as [Hd1 Hh1].
    destruct (IH Hrest st1 Hok1 Hh1) as (st' & Erun' & Hok' & Hd' & Hh').
    exists st'. split; [|split; [exact Hok'|split; [|exact Hh']]].
    + cbn [run_refreshes]. unfold se_bind. rewrite Erun. exact Erun'.
    + rewrite Hd', Hd1. unfold ids_of_polls. cbn [map concat snd].
      rewrite list_to_set_app_L. set_solver.
Qed.

(** The registry over a whole run, setup first and any number of refreshes
    after it, all on well-formed lists: nothing raises; the entities are
    those of the ids the lists named, none is ever dropped; each id was
    handed to the host exactly once; each entity is filed under its own id
    and is attached to the host. *)
Theorem registry_invariant (now : Z) (data : option (list value))
    (polls : list (Z * option (list value))) :
  Forall (fun s => wf_entry s = true) (data_or_empty data) ->
  Forall (fun p => Forall (fun s => wf_entry s = true) (data_or_empty (snd p))) polls ->
  exists st,
    se_bind (async_setup_entry now data) (fun _ => run_refreshes polls) empty_platform
    = (OK tt, st)
    /\ dom (entities st)
       = list_to_set (ids_of (data_or_empty data) ++ ids_of_polls polls)
    /\ NoDup (concat (registered st))
    /\ (forall k, k ∈ concat (registered st) <-> k ∈ dom (entities st))
    /\ forall k self, entities st !! k = Some self ->
         _session_id self = k /\ hass self = true.
Proof.
  intros Hwf Hpolls.
  assert (Hok0 : platform_ok empty_platform).
  { split; [constructor|]. split.
    - intros k. cbn [empty_platform entities registered concat].
      rewrite dom_empty_L. split; intros H; [set_solver|inversion H].
    - intros k self H. cbn [empty_platform entities] in H.
      rewrite lookup_empty in H. discriminate. }
  destruct (async_setup_entry_spec now data empty_platform Hok0 Hwf)
    as (st0 & Erun0 & Hok1 & Hd0 & Hh0).
  destruct (run_refreshes_spec polls Hpolls st0 Hok1 Hh0) as (st & Erun & Hok & Hd & Hh).
  exists st. split; [unfold se_bind; rewrite Erun0; exact Erun|].
  destruct Hok as (Hnd & Hdom & Hsid).
  split.
  { rewrite Hd, Hd0, list_to_set_app_L. cbn [empty_platform entities].
    rewrite dom_empty_L. set_solver. }
  split; [exact Hnd|]. split; [intros k; symmetry; apply Hdom|].
  intros k self Hk. split; [apply (Hsid _ _ Hk)|apply (Hh _ _ Hk)].
Qed.

(** ** An entry that is no object *)

Lemma sync_loop_raises now (bad : value) rest seen new st :
  isinstance_dict bad = false ->
  sync_loop now (bad :: rest) seen new st = (Raise AttributeError, st).
Proof.
  intros Hbad. cbn [sync_loop]. unfold se_bind at 1.
  destruct bad; try discriminate; reflexivity.
Qed.

(** The loop on a prefix of well-formed entries, followed by anything. *)
Lemma sync_loop_prefix now (l1 l2 : list value) :
  forall (seen : gset string) (new : list string) (st : platform),
    Forall (fun s => wf_entry s = true) l1 ->
    exists st1,
      sync_loop now (l1 ++ l2) seen new st
      = sync_loop now l2 (list_to_set (ids_of l1) ∪ seen)
          (new ++ fresh_ids l1 (dom (entities st)))%list st1
      /\ registered st1 = registered st
      /\ forall k, entities st1 !! k = entity_after now k l1 (entities st !! k).
Proof.
  induction l1 as [|s rest IH]; intros seen new st Hwf.
  - exists st. split; [|split; [reflexivity|intros k; reflexivity]].
    cbn [app fresh_ids]. rewrite app_nil_r.
    replace (list_to_set (ids_of []) ∪ seen) with seen by set_solver. reflexivity.
  - apply Forall_cons in Hwf as [Hs Hrest]. cbn [app].
    destruct (session_key s) as [k0|] eqn:Hkey.
    + destruct (wf_entry_key s k0 Hs Hkey) as (d & oid & -> & Ht & Hid & Hwfd & Ho).
      rewrite (ids_of_cons_key _ rest k0 Hkey).
      cbn [fresh_ids entity_after]. rewrite Hkey.
      destruct (entities st !! k0) as [self|] eqn:Hk0.
      * rewrite (sync_loop_known now d (rest ++ l2) seen new st k0 self Ht Hid Hk0 Hwfd).
        destruct (IH ({[k0]} ∪ seen) new
                    (set_entities (<[k0 := snd (_apply_session now d self)]> (entities st)) st)
                    Hrest) as (st1 & Erun & Ereg & Elook).
        exists st1. split; [|split].
        -- rewrite Erun. cbn [set_entities entities].
           assert (Hin : k0 ∈ dom (entities st)) by (apply elem_of_dom; eauto).
           rewrite bool_decide_eq_true_2 by exact Hin.
           rewrite dom_insert_L.
           replace ({[k0]} ∪ dom (entities st)) with (dom (entities st)) by set_solver.
           replace (list_to_set (ids_of rest) ∪ ({[k0]} ∪ seen))
             with (list_to_set (k0 :: ids_of rest) ∪ seen) by set_solver.
           reflexivity.
        -- exact Ereg.
        -- intros k. rewrite Elook. cbn [set_entities entities].
           destruct (decide (k = k0)) as [->|Hne].
           ++ rewrite lookup_insert_eq, Hk0, (step_entity_known now k0 d self Hkey).
              reflexivity.
           ++ rewrite lookup_insert_ne by congruence.
              rewrite step_entity_other by (rewrite Hkey; congruence). reflexivity.
      * pose proof (init_run now d k0 oid Hid Hwfd Ho) as Hinit.
        rewrite (sync_loop_new now d (rest ++ l2) seen new st k0 _ Ht Hid Hk0 Hinit).
        destruct (IH ({[k0]} ∪ seen) (new ++ [k0])%list
                    (set_entities
                       (<[k0 := snd (_apply_session now d (new_entity k0 oid))]> (entities st))
                       st)
                    Hrest) as (st1 & Erun & Ereg & Elook).
        exists st1. split; [|split].
        -- rewrite Erun. cbn [set_entities entities].
           assert (Hin : k0 ∉ dom (entities st)) by (apply not_elem_of_dom; exact Hk0).
           rewrite bool_decide_eq_false_2 by exact Hin.
           rewrite dom_insert_L, <- app_assoc.
           replace (list_to_set (ids_of rest) ∪ ({[k0]} ∪ seen))
             with (list_to_set (k0 :: ids_of rest) ∪ seen) by set_solver.
           reflexivity.
        -- exact Ereg.
        -- intros k. rewrite Elook. cbn [set_entities entities].
           destruct (decide (k = k0)) as [->|Hne].
           ++ rewrite lookup_insert_eq, Hk0, (step_entity_new now k0 d Hkey), Hinit.
              reflexivity.
           ++ rewrite lookup_insert_ne by congruence.
              rewrite step_entity_other by (rewrite Hkey; congruence). reflexivity.
    + destruct (wf_entry_no_key s Hs Hkey) as (d & -> & Ht).
      rewrite (sync_loop_skip now d (rest ++ l2) seen new st Ht).
      rewrite (ids_of_cons_no_key _ rest Hkey).
      cbn [fresh_ids entity_after]. rewrite Hkey.
      destruct (IH seen new st Hrest) as (st1 & Erun & Ereg & Elook).
      exists st1. split; [exact Erun|]. split; [exact Ereg|].
      intros k. rewrite Elook.
      rewrite step_entity_other by (rewrite Hkey; discriminate). reflexivity.
Qed.

(** A list entry that is no object stops the pass with an [AttributeError]
    at that entry: the entries before it were applied, those after it were
    not, no entity was marked as gone and nothing was handed to the host. An
    entity the pass had created by then stays in [entities] without ever
    being given to the host: a later pass finds its id known and leaves it
    out of the new ones. *)
Theorem malformed_entry_aborts_pass (now : Z) (l1 : list value) (bad : value)
    (l2 : list value) (st : platform) :
  platform_ok st ->
  Forall (fun s => wf_entry s = true) l1 ->
  isinstance_dict bad = false ->
  exists st1,
    _sync_entities now (Some (l1 ++ bad :: l2)%list) st = (Raise AttributeError, st1)
    /\ registered st1 = registered st
    /\ (forall k, entities st1 !! k = entity_after now k l1 (entities st !! k))
    /\ forall k, k ∈ fresh_ids l1 (dom (entities st)) ->
         k ∈ dom (entities st1)
         /\ (k ∉ concat (registered st1))
         /\ forall now' data' st2,
              Forall (fun s => wf_entry s = true) (data_or_empty data') ->
              _sync_entities now' data' st1 = (OK tt, st2) ->
              k ∉ concat (registered st2).
Proof.
  intros (Hnd & Hdom & Hsid) Hwf Hbad.
  destruct (sync_loop_prefix now l1 (bad :: l2) ∅ [] st Hwf) as (st1 & Erun & Ereg & Elook).
  rewrite (sync_loop_raises now bad l2 _ _ st1 Hbad) in Erun.
  exists st1. split; [|split; [exact Ereg|split; [exact Elook|]]].
  - unfold _sync_entities. cbn [data_or_empty]. unfold se_bind at 1.
    rewrite Erun. reflexivity.
  - intros k Hk. apply fresh_ids_spec in Hk as [Hin Hnew].
    assert (Hk1 : k ∈ dom (entities st1)).
    { rewrite elem_of_dom, Elook, (entity_after_is_Some _ _ _ _ Hwf). auto. }
    assert (Hk2 : k ∉ concat (registered st1)).
    { rewrite Ereg. intros H. apply Hnew, Hdom, H. }
    split; [exact Hk1|]. split; [exact Hk2|].
    intros now' data' st2 Hwf' Hrun'.
    destruct (sync_entities_spec now' data' st1 Hwf') as (st2' & Erun' & Ereg' & _).
    rewrite Erun' in Hrun'. injection Hrun' as <-.
    rewrite Ereg', elem_of_app. intros [H|H]; [exact (Hk2 H)|].
    apply fresh_ids_spec in H as [_ H]. exact (H Hk1).
Qed.

(** ** What a guide refresh leaves alone *)

Lemma epg_adopt_kept (epg : value) (self : entity) :
  kept_by_refresh (snd (epg_adopt no_interleaving epg self)) = kept_by_refresh self
  /\ host_calls (snd (epg_adopt no_interleaving epg self)) = host_calls self.
Proof.
  unfold epg_adopt, kept_by_refresh, identity_fields, fetch_times, await, no_interleaving.
  destruct epg as [| | | | | |d]; se_cbn; try (split; reflexivity).
  destruct (truthy (dict_get d "ChannelId")); se_cbn;
    destruct (negb (is_none (py_or (dict_get d "ChannelNumber") (dict_get d "Number"))));
    se_cbn;
    repeat match goal with
      | |- context [match ?o with Some _ => _ | None => _ end] =>
          destruct o eqn:?; se_cbn
      | |- context [if ?b then _ else _] => destruct b eqn:?; se_cbn
      | |- context [when ?b _] => destruct b eqn:?; se_cbn
      | |- context [async_get_channel cl ?c] =>
          destruct (async_get_channel cl c) as [[| | | | | |cd]|]; se_cbn
      end;
    split; reflexivity.
Qed.

Lemma epg_source_tag_range (epg : value) (p : option string) :
  epg_source_tag epg p = "program_id" \/ epg_source_tag epg p = "channel_search"
  \/ epg_source_tag epg p = "none" \/ epg_source_tag epg p = "error".
Proof.
  unfold epg_source_tag.
  destruct epg as [| | | | | |d]; auto.
  destruct (truthy (PDict d)); auto.
  destruct p as [p|]; auto.
  destruct (truthy_os (Some p) && py_eq_str (dict_get d "Id") p)%bool; auto.
Qed.

(** A guide refresh that runs undisturbed stops with an exception only when
    one of its calls was cancelled. Whether the entity is attached to the
    host or not, it leaves identity, availability, the playback fields, the
    programme id, the throttle's timestamp and the log of created tasks as
    they were: it writes the channel id and number, the programme snapshot
    and its source only. When it returns, the source is one of the four
    tags. The state is published once when the entity is attached and not
    at all otherwise. *)
Theorem epg_refresh_frame (self : entity) :
  exists out self',
    _async_refresh_epg no_interleaving self = (out, self')
    /\ (out = OK tt \/ out = Raise CancelledError)
    /\ kept_by_refresh self' = kept_by_refresh self
    /\ (out = OK tt ->
        exists tag, _epg_source self' = Some tag
                    /\ (tag = "program_id" \/ tag = "channel_search"
                        \/ tag = "none" \/ tag = "error"))
    /\ state_writes self' = (if hass self then S (state_writes self) else state_writes self).
Proof.
  assert (Hfail : forall x s,
    kept_by_refresh s = kept_by_refresh self -> host_calls s = host_calls self ->
    exists out self',
      (let '(r, s') :=
         (if is_exception x
          then (assign (set_epg PNone) ;; assign (set_epg_source (Some "error")))%se s
          else (Raise x, s)) in
       match (hs <- read (fun self => hass self) ;; when hs async_write_ha_state)%se s' with
       | (OK _, s'') => (r, s'')
       | (Raise y, s'') => (Raise y, s'')
       end) = (out, self')
      /\ (out = OK tt \/ out = Raise CancelledError)
      /\ kept_by_refresh self' = kept_by_refresh self
      /\ (out = OK tt ->
          exists tag, _epg_source self' = Some tag
                      /\ (tag = "program_id" \/ tag = "channel_search"
                          \/ tag = "none" \/ tag = "error"))
      /\ state_writes self'
         = (if hass self then S (state_writes self) else state_writes self)).
  { intros x s Hk Hc.
    assert (Hh : hass s = hass self).
    { revert Hk. unfold kept_by_refresh. intros [= _ _ _ _ _ _ _ _ _ _ _ _ _ _ _ _ _ _ _ _ _ _ Hh _].
      exact Hh. }
    destruct x; cbn [is_exception]; se_cbn; rewrite Hh;
      destruct (hass self) eqn:Hs; se_cbn; do 2 eexists; (split; [reflexivity|]);
      (split; [auto|]);
      (split; [revert Hk; unfold kept_by_refresh, identity_fields, fetch_times;
               ent_cbn; cbn [fetch_times_of]; rewrite ?Hs; intros Hk; exact Hk|]);
      (split; [first [solve [intros _; eexists; split; [reflexivity|auto 6]]
                     | intros [=]]|]);
      unfold state_writes; ent_cbn; cbn [state_writes_of]; rewrite Hc; reflexivity. }
  assert (Htail : forall epg s,
    kept_by_refresh s = kept_by_refresh self -> host_calls s = host_calls self ->
    exists out self',
      (let '(r, s') :=
         match (epg_adopt no_interleaving epg ;;
                assign (set_epg epg) ;;
                program_id <- read (fun self => _program_id self) ;;
                assign (set_epg_source (Some (epg_source_tag epg program_id))))%se s with
         | (OK a, s') => (OK a, s')
         | (Raise x, s') =>
             if is_exception x
             then (assign (set_epg PNone) ;; assign (set_epg_source (Some "error")))%se s'
             else (Raise x, s')
         end in
       match (hs <- read (fun self => hass self) ;; when hs async_write_ha_state)%se s' with
       | (OK _, s'') => (r, s'')
       | (Raise y, s'') => (Raise y, s'')
       end) = (out, self')
      /\ (out = OK tt \/ out = Raise CancelledError)
      /\ kept_by_refresh self' = kept_by_refresh self
      /\ (out = OK tt ->
          exists tag, _epg_source self' = Some tag
                      /\ (tag = "program_id" \/ tag = "channel_search"
                          \/ tag = "none" \/ tag = "error"))
      /\ state_writes self'
         = (if hass self then S (state_writes self) else state_writes self)).
  { intros epg s Hk Hc.
    destruct (epg_adopt_kept epg s) as [Hk' Hc'].
    unfold se_bind at 1.
    destruct (epg_adopt no_interleaving epg s) as [[[]|x] s_f]; cbn [snd] in Hk', Hc'.
    - assert (Hkf : kept_by_refresh s_f = kept_by_refresh self) by congruence.
      assert (Hh : hass s_f = hass self).
      { revert Hkf. unfold kept_by_refresh.
        intros [= _ _ _ _ _ _ _ _ _ _ _ _ _ _ _ _ _ _ _ _ _ _ Hh _]. exact Hh. }
      se_cbn. rewrite Hh.
      destruct (hass self) eqn:Hs; se_cbn; do 2 eexists; (split; [reflexivity|]);
        (split; [auto|]);
        (split; [revert Hkf; unfold kept_by_refresh, identity_fields, fetch_times;
                 ent_cbn; cbn [fetch_times_of]; rewrite ?Hs; intros Hkf; exact Hkf|]);
        (split; [intros _; eexists; split; [reflexivity|apply epg_source_tag_range]|]);
        unfold state_writes; ent_cbn; cbn [state_writes_of]; rewrite Hc', Hc; reflexivity.
    - apply (Hfail x s_f); congruence. }
  unfold _async_refresh_epg, try_finally, try_except. cbv beta.
  unfold se_bind at 1. rewrite epg_lookup_run.
  cbn [no_interleaving during_lookup during_fallback].
  destruct (async_get_program_for_session cl (_channel_id self) (_program_id self))
    as [first|x].
  - destruct (fallback_channel first self) as [c|].
    + destruct (async_get_current_program cl c) as [current|x].
      * apply (Htail current self); reflexivity.
      * apply (Hfail x self); reflexivity.
    + apply (Htail first self); reflexivity.
  - apply (Hfail x self); reflexivity.
Qed.

(** ** An entity whose session is gone *)

(** [mark_gone] never raises. It makes the entity unavailable and keeps all
    the rest: identity, the playback snapshot and the timestamp of its
    position, the live-TV fields, the throttle's timestamp and the log of
    created tasks. The state is published once when the entity is attached
    to the host, and not at all otherwise. *)
Theorem mark_gone_keeps_snapshot (self : entity) :
  exists self',
    mark_gone self = (OK tt, self')
    /\ _attr_available self' = false
    /\ identity_fields self' = identity_fields self
    /\ playback_fields self' = playback_fields self
    /\ carried_fields self' = carried_fields self
    /\ _position_updated_at self' = _position_updated_at self
    /\ _last_epg_fetch self' = _last_epg_fetch self
    /\ hass self' = hass self
    /\ fetch_times self' = fetch_times self
    /\ state_writes self' = (if hass self then S (state_writes self) else state_writes self).
Proof.
  unfold mark_gone, async_write_ha_state, se_bind, assign, read, when, se_ret.
  ent_cbn. destruct (hass self) eqn:Hh; eexists; (split; [reflexivity|]);
    unfold identity_fields, playback_fields, carried_fields, fetch_times, state_writes;
    ent_cbn; cbn [fetch_times_of state_writes_of]; rewrite ?Hh;
    repeat split; reflexivity.
Qed.

End Model.


(** * The theorems at the sample data *)

Lemma empty_platform_ok : platform_ok empty_platform.
Proof.
  split; [constructor|]. split.
  - intros k. cbn [empty_platform entities registered concat].
    rewrite dom_empty_L. split; intros H; [set_solver | inversion H].
  - intros k self H. cbn [empty_platform entities] in H.
    rewrite lookup_empty in H. discriminate.
Qed.

Lemma state_derivation_witness :
  exists self',
    _apply_session sample_host sample_client 0 movie_session (new_entity "a" "emby_a")
    = (OK tt, self')
    /\ _state self' = PLAYING.
Proof.
  exact (state_derivation sample_host sample_client 0 movie_session
           (new_entity "a" "emby_a") eq_refl).
Defined.

Lemma live_tv_fields_cleared_witness :
  exists self',
    _apply_session sample_host sample_client 1000000 movie_session
      (snd (_apply_session sample_host sample_client 0 tv_session (new_entity "b" "emby_b")))
    = (OK tt, self')
    /\ _channel_id self' = None /\ _program_id self' = None
    /\ _channel_number self' = None /\ _epg self' = PNone /\ _epg_source self' = None.
Proof.
  destruct (live_tv_fields_cleared sample_host sample_client 1000000 movie_session
              (snd (_apply_session sample_host sample_client 0 tv_session
                      (new_entity "b" "emby_b")))
              eq_refl) as (self' & Hrun & Hclear).
  exists self'. split; [exact Hrun|]. apply Hclear.
  pose proof (f_equal snd Hrun) as E. cbn [snd] in E. subst self'.
  vm_compute. discriminate.
Defined.

Lemma program_id_chain_witness :
  exists self',
    _apply_session sample_host sample_client 0 tv_session (new_entity "b" "emby_b")
    = (OK tt, self')
    /\ _program_id self' = Some "p4".
Proof.
  destruct (program_id_chain sample_host sample_client 0 tv_session
              (new_entity "b" "emby_b") eq_refl eq_refl) as (self' & Hrun & Hid & _).
  exists self'. split; [exact Hrun | exact Hid].
Defined.

(** C5, against the claim as stated. A live-TV item whose [ProgramId] is the
    empty string: the first source that is not null is that empty string,
    but the entity takes the id of the nested [NowPlayingProgram]. *)
Lemma program_id_skips_empty_string :
  wf_session empty_program_id_session = true
  /\ _content_type
       (snd (_apply_session sample_host sample_client 0 empty_program_id_session
               (new_entity "b" "emby_b")))
     = Some "tvchannel"
  /\ first_non_null (program_id_sources sample_host empty_program_id_session) = Some ""
  /\ _program_id
       (snd (_apply_session sample_host sample_client 0 empty_program_id_session
               (new_entity "b" "emby_b")))
     = Some "p2".
Proof. vm_compute. repeat split; reflexivity. Qed.

Lemma channel_number_carried_witness :
  exists self',
    _apply_session sample_host sample_client 0 tv_session
      (set_channel_number (Some "209") (new_entity "b" "emby_b"))
    = (OK tt, self')
    /\ _channel_number self' = Some "209".
Proof.
  destruct (channel_number_carried sample_host sample_client 0 tv_session
              (set_channel_number (Some "209") (new_entity "b" "emby_b")) eq_refl)
    as (self' & Hrun & Hkeep & _).
  exists self'. split; [exact Hrun|].
  pose proof (f_equal snd Hrun) as E. cbn [snd] in E. subst self'.
  apply Hkeep; vm_compute; reflexivity.
Defined.

Lemma ticks_to_seconds_spec_witness :
  _ticks_to_seconds (PInt 300000000)
  = OK (Some (SFdiv 53 1024 (S754_finite false 5033164800000000 (-24))
                (S754_finite false 5368709120000000 (-29)))).
Proof.
  exact (proj1 (proj2 (ticks_to_seconds_spec (PInt 300000000))) eq_refl).
Defined.

Lemma epg_throttle_witness :
  exists self',
    _maybe_schedule_epg_refresh 0 (set_hass true (new_entity "b" "emby_b")) = (OK tt, self')
    /\ _last_epg_fetch self' = Some 0 /\ fetch_times self' = [0].
Proof.
  destruct (epg_throttle 0 (set_hass true (new_entity "b" "emby_b")) eq_refl)
    as (self' & Hrun & _ & _ & Hstart & _).
  exists self'. split; [exact Hrun|].
  destruct (Hstart (or_introl eq_refl)) as (Hlast & Hfetch & _).
  split; [exact Hlast | exact Hfetch].
Defined.

(** C6, against the claim as stated. The constructor applies the session of
    a live-TV client before the host has attached the entity: the trigger
    stores its timestamp and starts no fetch. Ten seconds later the attached
    entity triggers again and is dropped, although no fetch was ever
    started; and a trigger thirty seconds later on an entity that is still
    not attached starts none either. The same through the platform: after
    setup and a refresh ten seconds later the entity has started no fetch;
    the first one starts with the refresh at twenty seconds. *)
Lemma epg_throttle_window_without_fetch :
  match __init__ sample_host sample_client 0 tv_session with
  | OK e =>
      hass e = false /\ _last_epg_fetch e = Some 0 /\ fetch_times e = []
      /\ _maybe_schedule_epg_refresh 10000000 (set_hass true e) = (OK tt, set_hass true e)
      /\ _last_epg_fetch (snd (_maybe_schedule_epg_refresh 30000000 e)) = Some 30000000
      /\ fetch_times (snd (_maybe_schedule_epg_refresh 30000000 e)) = []
  | Raise _ => False
  end
  /\ (fun self => (hass self, _last_epg_fetch self, fetch_times self))
       <$> entities (snd (async_setup_entry sample_host sample_client 0
                            (Some [PDict tv_session]) empty_platform)) !! "b"
     = Some (true, Some 0, [])
  /\ (fun self => (hass self, _last_epg_fetch self, fetch_times self))
       <$> entities
             (snd (notify sample_host sample_client 10000000 (Some [PDict tv_session])
                     (snd (async_setup_entry sample_host sample_client 0
                             (Some [PDict tv_session]) empty_platform)))) !! "b"
     = Some (true, Some 0, [])
  /\ (fun self => (hass self, _last_epg_fetch self, fetch_times self))
       <$> entities
             (snd (notify sample_host sample_client 20000000 (Some [PDict tv_session])
                     (snd (notify sample_host sample_client 10000000
                             (Some [PDict tv_session])
                             (snd (async_setup_entry sample_host sample_client 0
                                     (Some [PDict tv_session]) empty_platform)))))) !! "b"
     = Some (true, Some 20000000, [20000000]).
Proof. vm_compute. repeat split; reflexivity. Qed.



(** C8, against the claim as stated. One tick gives the float next to a ten
    millionth, which is a little less than the quotient; [False] is numeric
    to the method's test and gives 0.0, not [None]; and an int beyond the
    floats gives no number at all. *)
Lemma ticks_to_seconds_one_tick :
  _ticks_to_seconds (PInt 1) = OK (Some (S754_finite false 7555786372591432 (-76)))
  /\ float_value (S754_finite false 7555786372591432 (-76))
     = Some (944473296573929 # 9444732965739290427392)%Q
  /\ Qcompare (944473296573929 # 9444732965739290427392) (1 # 10000000) = Lt
  /\ _ticks_to_seconds (PBool false) = OK (Some (S754_zero false))
  /\ _ticks_to_seconds (PInt (2 ^ 1024)) = Raise OverflowError.
Proof. vm_compute. repeat split; reflexivity. Qed.

Lemma sync_entities_twice_witness :
  exists st1 st2,
    _sync_entities sample_host sample_client 0 (Some [PDict movie_session]) empty_platform
    = (OK tt, st1)
    /\ _sync_entities sample_host sample_client 10000000 (Some [PDict movie_session]) st1
       = (OK tt, st2)
    /\ registered st2 = registered st1
    /\ NoDup (concat (registered st2)).
Proof.
  destruct (sync_entities_twice sample_host sample_client 0 10000000
              (Some [PDict movie_session]) empty_platform empty_platform_ok)
    as (st1 & st2 & H1 & H2 & H3 & H4 & _).
  - repeat constructor.
  - exists st1, st2. auto.
Defined.

(** C1, against the claim as stated. The session of the scenario carries a
    position; a second pass ten seconds after the first leaves another
    timestamp on the position, a field of the playback snapshot. *)
Lemma sync_entities_twice_moves_clock :
  fst (_sync_entities sample_host sample_client 0 (Some [PDict movie_session])
         empty_platform) = OK tt
  /\ fst (_sync_entities sample_host sample_client 10000000 (Some [PDict movie_session])
            (snd (_sync_entities sample_host sample_client 0 (Some [PDict movie_session])
                    empty_platform))) = OK tt
  /\ _position_updated_at
       <$> entities (snd (_sync_entities sample_host sample_client 0
                            (Some [PDict movie_session]) empty_platform)) !! "a"
     = Some (Some 0)
  /\ _position_updated_at
       <$> entities
             (snd (_sync_entities sample_host sample_client 10000000
                     (Some [PDict movie_session])
                     (snd (_sync_entities sample_host sample_client 0
                             (Some [PDict movie_session]) empty_platform)))) !! "a"
     = Some (Some 10000000).
Proof. vm_compute. repeat split; reflexivity. Qed.

Lemma no_silent_deletion_witness :
  exists st self st' self',
    notify sample_host sample_client 0 (Some [PDict movie_session]) empty_platform
    = (OK tt, st)
    /\ entities st !! "a" = Some self
    /\ notify sample_host sample_client 5000000 (Some []) st = (OK tt, st')
    /\ entities st' !! "a" = Some self'
    /\ _attr_available self' = false
    /\ playback_fields self' = playback_fields self.
Proof.
  destruct (notify_spec sample_host sample_client 0 (Some [PDict movie_session])
              empty_platform empty_platform_ok) as (st & Hrun & _ & Hlook).
  { repeat constructor. }
  assert (Hwf : Forall (fun s => wf_entry sample_host s = true)
                  (data_or_empty (Some [PDict movie_session]))) by repeat constructor.
  pose proof (notify_platform_ok sample_host sample_client 0 _ _ _ Hwf
                empty_platform_ok Hrun) as Hok.
  specialize (Hlook "a").
  destruct (entities st !! "a") as [self|] eqn:Ha;
    [|exfalso; vm_compute in Hlook; discriminate].
  destruct (no_silent_deletion sample_host sample_client 5000000 (Some []) st "a" self
              Hok (List.Forall_nil _) Ha) as (st' & self' & H1 & H2 & _ & H4 & _ & H6 & _).
  { intros H. inversion H. }
  exists st, self, st', self'. repeat split; assumption.
Defined.

(** C9, one id twice in the list. [_sync_entities] leaves the entity with
    the title of the last entry, at setup and at every refresh; the listener
    of the entity, which runs after it on a refresh, stops at the first
    entry, so that a refresh ends with the title of the first one. *)
Theorem duplicate_ids_first_wins :
  fst (async_setup_entry sample_host sample_client 0
         (Some [PDict first_entry; PDict second_entry]) empty_platform) = OK tt
  /\ _media_title
       <$> entities (snd (async_setup_entry sample_host sample_client 0
                            (Some [PDict first_entry; PDict second_entry])
                            empty_platform)) !! "a"
     = Some (PStr "Second")
  /\ _media_title
       <$> entities
             (snd (_sync_entities sample_host sample_client 1000000
                     (Some [PDict first_entry; PDict second_entry])
                     (snd (async_setup_entry sample_host sample_client 0
                             (Some [PDict first_entry; PDict second_entry])
                             empty_platform)))) !! "a"
     = Some (PStr "Second")
  /\ fst (notify sample_host sample_client 1000000
            (Some [PDict first_entry; PDict second_entry])
            (snd (async_setup_entry sample_host sample_client 0
                    (Some [PDict first_entry; PDict second_entry])
                    empty_platform))) = OK tt
  /\ _media_title
       <$> entities
             (snd (notify sample_host sample_client 1000000
                     (Some [PDict first_entry; PDict second_entry])
                     (snd (async_setup_entry sample_host sample_client 0
                             (Some [PDict first_entry; PDict second_entry])
                             empty_platform)))) !! "a"
     = Some (PStr "First").
Proof. vm_compute. repeat split; reflexivity. Qed.

(** * Further properties at the sample data *)

Lemma content_type_normal_form_witness :
  exists t,
    _content_type_from_item_type (PStr "TvChannel") = OK t /\ t = Some "tvchannel".
Proof.
  destruct (content_type_normal_form "TvChannel" eq_refl) as (t & Hrun & _ & _ & _ & Htv).
  exists t. split; [exact Hrun|]. apply Htv. right. left. reflexivity.
Defined.

Lemma name_never_empty_witness :
  truthy (name sample_host
            (snd (_apply_session sample_host sample_client 0 movie_session
                    (new_entity "a" "emby_a")))) = true.
Proof.
  exact (proj1 (name_never_empty sample_host sample_client 0 movie_session
                  (new_entity "a" "emby_a") eq_refl)).
Defined.

Lemma media_title_hidden_on_live_tv_witness :
  media_title (snd (_apply_session sample_host sample_client 0 tv_session
                      (new_entity "b" "emby_b"))) = PNone
  /\ media_title (snd (_apply_session sample_host sample_client 0 movie_session
                         (new_entity "a" "emby_a"))) = PStr "Foo".
Proof.
  split.
  - exact (media_title_hidden_on_live_tv sample_host sample_client 0 tv_session
             (new_entity "b" "emby_b") eq_refl).
  - exact (media_title_hidden_on_live_tv sample_host sample_client 0 movie_session
             (new_entity "a" "emby_a") eq_refl).
Defined.

Lemma snapshot_replaced_wholesale_witness :
  playback_fields
    (snd (_apply_session sample_host sample_client 5000000 movie_session
            (new_entity "a" "emby_a")))
  = playback_fields
      (snd (_apply_session sample_host sample_client 5000000 movie_session
              (snd (_apply_session sample_host sample_client 0 tv_session
                      (new_entity "a" "emby_a")))))
  /\ _position_updated_at
       (snd (_apply_session sample_host sample_client 5000000 movie_session
               (new_entity "a" "emby_a")))
     = Some 5000000.
Proof.
  destruct (snapshot_replaced_wholesale sample_host sample_client 5000000 movie_session
              (new_entity "a" "emby_a")
              (snd (_apply_session sample_host sample_client 0 tv_session
                      (new_entity "a" "emby_a")))
              eq_refl) as (Hsame & _ & Hclock).
  split; [exact Hsame | exact Hclock].
Defined.


Lemma listener_applies_first_entry_witness :
  exists self',
    _handle_coordinator_update sample_host sample_client 0
      (Some [PDict first_entry; PDict second_entry]) (new_entity "a" "emby_a")
    = (OK tt, self')
    /\ state_writes self' = 1%nat
    /\ _attr_available self' = true
    /\ playback_fields self'
       = playback_fields (snd (_apply_session sample_host sample_client 0 first_entry
                                 (new_entity "a" "emby_a"))).
Proof.
  destruct (listener_applies_first_entry sample_host sample_client 0
              (Some [PDict first_entry; PDict second_entry]) (new_entity "a" "emby_a"))
    as (self' & Hrun & Hw & _ & _ & Hfirst).
  - repeat constructor.
  - discriminate.
  - exists self'. split; [exact Hrun|]. split; [exact Hw|].
    destruct Hfirst as (Hav & Hpb & _). split; [exact Hav | exact Hpb].
Defined.

Lemma sync_last_entry_wins_witness :
  exists st' self',
    _sync_entities sample_host sample_client 0
      (Some [PDict first_entry; PDict second_entry]) empty_platform = (OK tt, st')
    /\ entities st' !! "a" = Some self'
    /\ playback_fields self'
       = playback_fields (snd (_apply_session sample_host sample_client 0 second_entry
                                 (new_entity "" ""))).
Proof.
  destruct (sync_last_entry_wins sample_host sample_client 0
              (Some [PDict first_entry; PDict second_entry]) empty_platform
              "a" second_entry)
    as (st' & self' & Hrun & Hlook & Hpb & _).
  - repeat constructor.
  - reflexivity.
  - exists st', self'. split; [exact Hrun|]. split; [exact Hlook | exact Hpb].
Defined.

Lemma registry_invariant_witness :
  exists st,
    se_bind (async_setup_entry sample_host sample_client 0 (Some [PDict movie_session]))
            (fun _ => run_refreshes sample_host sample_client
                        [(10000000, Some []); (20000000, Some [PDict tv_session])])
            empty_platform
    = (OK tt, st)
    /\ dom (entities st) = list_to_set ["a"; "b"]
    /\ NoDup (concat (registered st)).
Proof.
  destruct (registry_invariant sample_host sample_client 0 (Some [PDict movie_session])
              [(10000000, Some []); (20000000, Some [PDict tv_session])])
    as (st & Hrun & Hdom & Hnd & _).
  - repeat constructor.
  - repeat constructor.
  - exists st. split; [exact Hrun|]. split; [exact Hdom | exact Hnd].
Defined.

Lemma malformed_entry_aborts_pass_witness :
  exists st1,
    _sync_entities sample_host sample_client 0
      (Some [PDict movie_session; PStr "x"; PDict tv_session]) empty_platform
    = (Raise AttributeError, st1)
    /\ registered st1 = []
    /\ "a" ∈ dom (entities st1).
Proof.
  destruct (malformed_entry_aborts_pass sample_host sample_client 0
              [PDict movie_session] (PStr "x") [PDict tv_session] empty_platform
              empty_platform_ok)
    as (st1 & Hrun & Hreg & _ & Hfresh).
  - repeat constructor.
  - reflexivity.
  - exists st1. split; [exact Hrun|]. split; [exact Hreg|].
    apply (Hfresh "a"). vm_compute. left.
Defined.

(** The throttle on an attached entity: of three triggers, at 0, 5 and
    25 seconds, the first and the last start a fetch. *)
Theorem epg_throttle_three_triggers :
  fetch_times
    (snd (_maybe_schedule_epg_refresh 25000000
            (snd (_maybe_schedule_epg_refresh 5000000
                    (snd (_maybe_schedule_epg_refresh 0
                            (set_hass true (new_entity "b" "emby_b"))))))))
  = [25000000; 0]
  /\ fetch_times
       (snd (_maybe_schedule_epg_refresh 5000000
               (snd (_maybe_schedule_epg_refresh 0
                       (set_hass true (new_entity "b" "emby_b"))))))
     = [0].
Proof. vm_compute. split; reflexivity. Qed.
